(** * notation-go: signing and verification pipeline

    A shallow embedding of the parts of the library that its specification
    talks about, and the properties of those parts:

    - [registry]: [FetchSignatureBlob] and [getSignatureBlobsDesc]
      (registry/repository.go);
    - [notation]: [Sign], [SignLocalContent], [addUserMetadataToDescriptor],
      [Verify] and [generateAnnotations] (notation.go);
    - [jws]: [PluginSigner.Sign] (signature/jws/plugin.go);
    - [verification]: [LoadX509TrustStore] and [validateCerts]
      (verification/x509truststore.go).

    Go values are modelled as follows.  An [int] or [int64] is a [Z] (no
    operation of the modelled code can overflow: the only arithmetic is a
    counter that stops at [MaxSignatureAttempts]).  A [[]byte] is a
    [list byte]; a slice is a list, [nil] being the empty list.  A
    [map[string]string] that is only read is a [gmap string string]; one whose
    being [nil] can be observed is an [option (gmap string string)].  A
    pointer that may be [nil] is an [option].  A Go function returning
    [(v, err)] returns the pair of [v] and an [option error].  Calls that
    leave the process (registry, plugin, verifier, signer) are fields of the
    record that stands for the interface value, and every such call is
    recorded, in order, in a list of events returned next to the result. *)

From stdpp Require Import base strings gmap list pretty.
From Stdlib Require Import ZArith Lia.
From Stdlib.Strings Require Import Ascii Byte.

Open Scope Z_scope.

(** ** The [error] interface *)

(** The dynamic values of type [error] that the modelled code creates or
    inspects.  [errorString] is what [errors.New] and [fmt.Errorf] without
    [%w] return, [wrapError] what [fmt.Errorf] with [%w] returns (the text
    and the wrapped error).  [errDoneVerification] is the package variable of
    that name in notation.go: a pointer, equal to nothing but itself.  The
    remaining constructors are the struct types of errors.go. *)
Inductive error : Type :=
  | errorString (s : string)
  | wrapError (msg : string) (inner : error)
  | errDoneVerification
  | ErrorSignatureRetrievalFailed (Msg : string)
  | ErrorVerificationFailed (Msg : string)
  | ErrorUserMetadataVerificationFailed (Msg : string)
  | ErrorPushSignatureFailed (Msg : string)
  | ErrorSignLocalContent (Msg : string).

#[global] Instance error_eq_dec : EqDecision error.
Proof. solve_decision. Defined.

#[global] Instance byte_eq_decision : EqDecision byte := Byte.byte_eq_dec.

(** [errors.Is(err, target)] for a comparable [target]: [err] or an error it
    wraps equals [target].  It is applied to [errDoneVerification] and to
    values of the struct type [ErrorVerificationFailed] only. *)
Fixpoint errors_Is (err target : error) : bool :=
  bool_decide (err = target) ||
  match err with
  | wrapError _ inner => errors_Is inner target
  | _ => false
  end.

(** [x509.Certificate], as far as the code reads it.  [Subject] is the text
    of the subject name. *)
Record Certificate := {
  Raw : list byte;
  RawSubject : list byte;
  RawIssuer : list byte;
  Subject : string;
  IsCA : bool;
}.

(** [orasRegistry.Reference] *)
Record Reference := {
  Registry : string;
  Repository : string;
  ReferenceOrDigest : string;  (* the field named Reference in Go *)
}.

(** Functions of Go's library and of files that are not modelled, which the
    code only calls. *)
Class GoLib := {
  (** [strconv.Quote], the [%q] verb on a string *)
  strconv_Quote : string → string;
  (** the [Error] method of the struct types of errors.go *)
  declared_Error : error → string;
  (** [sha256.Sum256] *)
  sha256_Sum256 : list byte → list byte;
  (** [cert.CheckSignatureFrom(parent)] *)
  CheckSignatureFrom : Certificate → Certificate → option error;
  (** [orasRegistry.ParseReference] *)
  ParseReference : string → Reference + error;
  (** the order in which a [range] over a map visits its entries: one of
      the orderings of the entries *)
  range : gmap string string → list (string * string);
  range_Permutation : ∀ m, range m ≡ₚ map_to_list m;
}.

(** [err.Error()] *)
Definition Error `{!GoLib} (err : error) : string :=
  match err with
  | errorString s => s
  | wrapError msg _ => msg
  | errDoneVerification => "done verification"
  | _ => declared_Error err
  end.

(** [ocispec.Descriptor] *)
Record Descriptor := mkDescriptor {
  MediaType : string;
  Digest : string;
  Size : Z;
  Annotations : option (gmap string string);
}.

(** [ocispec.Descriptor{}] *)
Definition emptyDescriptor : Descriptor :=
  {| MediaType := ""; Digest := ""; Size := 0; Annotations := None |}.

Definition MediaTypeImageManifest : string :=
  "application/vnd.oci.image.manifest.v1+json".
Definition MediaTypeArtifactManifest : string :=
  "application/vnd.oci.artifact.manifest.v1+json".

(** * Package registry *)
Module registry.

Definition maxBlobSizeLimit : Z := 32 * 1024 * 1024.
Definition maxManifestSizeLimit : Z := 4 * 1024 * 1024.

(** [ocispec.Artifact] and [ocispec.Manifest], as far as the code reads
    them. *)
Record Artifact := { Blobs : list Descriptor }.
Record Manifest := { Layers : list Descriptor }.

(** The embedded [registry.Repository] of oras, as [repositoryClient] uses
    it.  [Manifests_FetchAll] is [content.FetchAll] on [Manifests()],
    [Blobs_FetchAll] the same on [Blobs()]; the two [Unmarshal] fields are
    [json.Unmarshal] into a value of the named type. *)
Record repositoryClient := {
  Manifests_FetchAll : Descriptor → list byte + error;
  Blobs_FetchAll : Descriptor → list byte + error;
  Unmarshal_Artifact : list byte → Artifact + error;
  Unmarshal_Manifest : list byte → Manifest + error;
}.

(** What leaves the process. *)
Inductive event :=
  | FetchManifest (desc : Descriptor)
  | FetchBlob (desc : Descriptor).

Definition isFetchBlob (e : event) : bool :=
  match e with FetchBlob _ => true | _ => false end.

Section repository.
Context `{!GoLib}.

Definition getSignatureBlobsDesc (c : repositoryClient)
    (sigManifestDesc : Descriptor) : (list Descriptor * option error) * list event :=
  if Size sigManifestDesc >? maxManifestSizeLimit then
    (([], Some (errorString ("signature manifest too large: "
                  +:+ pretty (Size sigManifestDesc) +:+ " bytes"))), [])
  else
    match Manifests_FetchAll c sigManifestDesc with
    | inr err => (([], Some err), [FetchManifest sigManifestDesc])
    | inl manifestJSON =>
      let tr := [FetchManifest sigManifestDesc] in
      if String.eqb (MediaType sigManifestDesc) MediaTypeArtifactManifest then
        match Unmarshal_Artifact c manifestJSON with
        | inr err => (([], Some err), tr)
        | inl sigManifest => ((Blobs sigManifest, None), tr)
        end
      else if String.eqb (MediaType sigManifestDesc) MediaTypeImageManifest then
        match Unmarshal_Manifest c manifestJSON with
        | inr err => (([], Some err), tr)
        | inl sigManifest => ((Layers sigManifest, None), tr)
        end
      else
        (([], Some (errorString ("sigManifestDesc.MediaType requires "
            +:+ strconv_Quote MediaTypeArtifactManifest +:+ " or "
            +:+ strconv_Quote MediaTypeImageManifest +:+ ", got "
            +:+ strconv_Quote (MediaType sigManifestDesc)))), tr)
    end.

Definition FetchSignatureBlob (c : repositoryClient) (desc : Descriptor)
    : (list byte * Descriptor * option error) * list event :=
  let '((signatureBlobs, err), tr) := getSignatureBlobsDesc c desc in
  match err with
  | Some err => (([], emptyDescriptor, Some err), tr)
  | None =>
    match signatureBlobs with
    | [sigDesc] =>
      if Size sigDesc >? maxBlobSizeLimit then
        (([], emptyDescriptor,
          Some (errorString ("signature blob too large: "
                  +:+ pretty (Size sigDesc) +:+ " bytes"))), tr)
      else
        match Blobs_FetchAll c sigDesc with
        | inr err => (([], emptyDescriptor, Some err), tr ++ [FetchBlob sigDesc])
        | inl sigBlob => ((sigBlob, sigDesc, None), tr ++ [FetchBlob sigDesc])
        end
    | _ =>
      (([], emptyDescriptor,
        Some (errorString ("signature manifest requries exactly one signature envelope blob, got "
                +:+ pretty (Z.of_nat (length signatureBlobs))))), tr)
    end
  end.

End repository.
End registry.

(** * Package notation *)
Module notation.

Definition annotationX509ChainThumbprint : string :=
  "io.cncf.notary.x509chain.thumbprint#S256".

Definition reservedAnnotationPrefixes : list string := ["io.cncf.notary"].

(** [time.Second], in nanoseconds *)
Definition time_Second : Z := 1000000000.

(** The outcome of running a piece of Go code that may panic. *)
Inductive go (A : Type) : Type :=
  | Return (a : A)
  | Panic.
Arguments Return {A} a.
Arguments Panic {A}.

(** [signature.SignerInfo], as far as the code reads it *)
Record SignerInfo := { CertificateChain : list Certificate }.

(** [signature.EnvelopeContent], as far as the code reads it *)
Record EnvelopeContent := {
  PayloadContent : list byte;
  EnvelopeSignerInfo : SignerInfo;
}.

(** [trustpolicy.VerificationLevel]; a validation type and a validation
    action are strings in Go. *)
Record VerificationLevel := {
  Name : string;
  Enforcement : gmap string string;
}.

Module SignOptions.
Record t := {
  ArtifactReference : string;
  SignatureMediaType : string;
  ExpiryDuration : Z;
  PluginConfig : gmap string string;
  SigningAgent : string;
}.
End SignOptions.

Module RemoteSignOptions.
Record t := {
  SignOptions : SignOptions.t;
  UserMetadata : gmap string string;
}.
End RemoteSignOptions.

Module LocalSignOptions.
Record t := {
  SignatureMediaType : string;
  ExpiryDuration : Z;
  PluginConfig : gmap string string;
  SigningAgent : string;
  UserMetadata : gmap string string;
}.
End LocalSignOptions.

Module ValidationResult.
Record t := {
  Type_ : string;
  Action : string;
  Error : option error;
}.
End ValidationResult.

Module VerificationOutcome.
Record t := {
  RawSignature : list byte;
  EnvelopeContent : option EnvelopeContent;
  VerificationLevel : option VerificationLevel;
  VerificationResults : list (option ValidationResult.t);
  Error : option error;
}.
End VerificationOutcome.

Module VerifyOptions.
Record t := {
  ArtifactReference : string;
  SignatureMediaType : string;
  PluginConfig : gmap string string;
  UserMetadata : gmap string string;
  TargetAtLocal : bool;
  TrustPolicyScope : string;
}.
End VerifyOptions.

Module RemoteVerifyOptions.
Record t := {
  ArtifactReference : string;
  PluginConfig : gmap string string;
  MaxSignatureAttempts : Z;
  UserMetadata : gmap string string;
}.
End RemoteVerifyOptions.

(** The interface [Signer]; [PluginAnnotations] is [None] when the signer
    does not implement [signerAnnotation], and otherwise the map (maybe
    [nil]) that the method returns after [Sign]. *)
Record Signer := {
  Signer_Sign : Descriptor → SignOptions.t →
                (list byte * option SignerInfo) + error;
  PluginAnnotations : option (option (gmap string string));
}.

(** The interface [Verifier]; [SkipVerify] is [None] when the verifier does
    not implement [skipVerifier]. *)
Record Verifier := {
  Verifier_Verify : Descriptor → list byte → VerifyOptions.t →
                    option VerificationOutcome.t * option error;
  SkipVerify : option (VerifyOptions.t →
                       bool * option VerificationLevel * option error);
}.

(** The interface [registry.Repository].  [isRemote] tells whether the
    assertion [repo.(orasRegistry.Repository)] succeeds.  [Referrers desc] is
    what the referrers listing of [desc] holds: the pages of signature
    manifests, in the order of delivery, and the error with which the
    listing ends when no callback stopped it ([None]: it ends well). *)
Record Repository := {
  isRemote : bool;
  Resolve : string → Descriptor + error;
  Referrers : Descriptor → list (list Descriptor) * option error;
  FetchSignatureBlob : Descriptor → (list byte * Descriptor) + error;
  PushSignature : string → list byte → Descriptor → gmap string string →
                  (Descriptor * Descriptor) + error;
}.

(** The calls that leave the package, with their arguments. *)
Inductive event :=
  | CallResolve (reference : string)
  | CallListSignatures (desc : Descriptor)
  | CallFetchSignatureBlob (sigManifestDesc : Descriptor)
  | CallVerify (desc : Descriptor) (sig : list byte) (opts : VerifyOptions.t)
  | CallSkipVerify (opts : VerifyOptions.t)
  | CallSign (desc : Descriptor) (opts : SignOptions.t)
  | CallPushSignature (mediaType : string) (sig : list byte)
      (subject : Descriptor) (annotations : gmap string string).

Definition isFetch (e : event) : bool :=
  match e with CallFetchSignatureBlob _ => true | _ => false end.
Definition isVerify (e : event) : bool :=
  match e with CallVerify _ _ _ => true | _ => false end.
Definition isResolve (e : event) : bool :=
  match e with CallResolve _ => true | _ => false end.
Definition isListSignatures (e : event) : bool :=
  match e with CallListSignatures _ => true | _ => false end.
Definition isSign (e : event) : bool :=
  match e with CallSign _ _ => true | _ => false end.
Definition isPushSignature (e : event) : bool :=
  match e with CallPushSignature _ _ _ _ => true | _ => false end.

(** The manifests handed to [FetchSignatureBlob], in order. *)
Definition fetched (tr : list event) : list Descriptor :=
  omap (λ e, match e with CallFetchSignatureBlob d => Some d | _ => None end) tr.

Definition withAnnotations (desc : Descriptor)
    (a : option (gmap string string)) : Descriptor :=
  {| MediaType := MediaType desc; Digest := Digest desc; Size := Size desc;
     Annotations := a |}.

Section sign.
Context `{!GoLib}.

(** The body of [for k, v := range userMetadata]; assigning to an entry of a
    [nil] map panics. *)
Fixpoint addUserMetadata_range (entries : list (string * string))
    (desc : Descriptor) : go (Descriptor * option error) :=
  match entries with
  | [] => Return (desc, None)
  | (k, v) :: entries =>
    match List.find (λ reservedPrefix, String.prefix reservedPrefix k)
                    reservedAnnotationPrefixes with
    | Some reservedPrefix =>
      Return (desc, Some (errorString
        ("error adding user metadata: metadata key " +:+ k
         +:+ " has reserved prefix " +:+ reservedPrefix)))
    | None =>
      match Annotations desc ≫= (λ a, a !! k) with
      | Some _ =>
        Return (desc, Some (errorString
          ("error adding user metadata: metadata key " +:+ k
           +:+ " is already present in the target artifact")))
      | None =>
        match Annotations desc with
        | None => Panic
        | Some a =>
          addUserMetadata_range entries (withAnnotations desc (Some (<[k:=v]> a)))
        end
      end
    end
  end.

Definition addUserMetadataToDescriptor (desc : Descriptor)
    (userMetadata : gmap string string) : go (Descriptor * option error) :=
  let desc :=
    if bool_decide (Annotations desc = None) && bool_decide (0 < size userMetadata)%nat
    then withAnnotations desc (Some ∅) else desc in
  addUserMetadata_range (range userMetadata) desc.

(** [hex.EncodeToString] *)
Definition hextable : string := "0123456789abcdef".

Definition hexdigit (n : N) : ascii :=
  default "0"%char (String.get (N.to_nat n) hextable).

Fixpoint hex_EncodeToString (src : list byte) : string :=
  match src with
  | [] => EmptyString
  | b :: src =>
    String (hexdigit (N.shiftr (Byte.to_N b) 4))
      (String (hexdigit (N.land (Byte.to_N b) 15)) (hex_EncodeToString src))
  end.

(** [json.Marshal] of a [[]string] (Go 1.21, HTML escaping on).  The bytes
    below 0x80 are encoded as the encoder does; a byte from 0x80 on, where
    the encoder decodes UTF-8, is copied: the strings marshalled here are
    hexadecimal digits. *)
Definition json_escape (c : ascii) : string :=
  let n := N_of_ascii c in
  if (n =? 34)%N || (n =? 92)%N then String "\"%char (String c EmptyString)
  else if (n =? 10)%N then "\n"
  else if (n =? 13)%N then "\r"
  else if (n =? 9)%N then "\t"
  else if (n <? 32)%N || (n =? 60)%N || (n =? 62)%N || (n =? 38)%N then
    "\u00" +:+ String (hexdigit (N.shiftr n 4))
                 (String (hexdigit (N.land n 15)) EmptyString)
  else String c EmptyString.

Fixpoint json_escape_string (s : string) : string :=
  match s with
  | EmptyString => EmptyString
  | String c s => json_escape c +:+ json_escape_string s
  end.

Definition json_string (s : string) : string :=
  String "034"%char (json_escape_string s) +:+ String "034"%char EmptyString.

(** A [nil] slice is marshalled as [null]; a slice grown by [append] from
    [nil] is [nil] exactly when it is empty. *)
Definition json_Marshal (v : list string) : string * option error :=
  match v with
  | [] => ("null", None)
  | _ => ("[" +:+ String.concat "," (json_string <$> v) +:+ "]", None)
  end.

(** A [nil] [signerInfo] panics at [signerInfo.CertificateChain]. *)
Definition generateAnnotations (signerInfo : option SignerInfo)
    (annotations : option (gmap string string))
    : go (option (gmap string string) * option error) :=
  match signerInfo with
  | None => Panic
  | Some signerInfo =>
    let thumbprints :=
      foldl (λ thumbprints cert,
               let checkSum := sha256_Sum256 (Raw cert) in
               thumbprints ++ [hex_EncodeToString checkSum])
            [] (CertificateChain signerInfo) in
    match json_Marshal thumbprints with
    | (_, Some err) => Return (None, Some err)
    | (val, None) =>
      let annotations := default ∅ annotations in
      Return (Some (<[annotationX509ChainThumbprint := val]> annotations), None)
    end
  end.

(** Logging is not modelled, and with it the test
    [ref.ValidateReferenceAsDigest() != nil], which only chooses what is
    logged. *)
Definition Sign (signer : Signer) (repo : option Repository)
    (remoteOpts : RemoteSignOptions.t)
    : go (Descriptor * option error) * list event :=
  let signOpts := RemoteSignOptions.SignOptions remoteOpts in
  if SignOptions.ExpiryDuration signOpts <? 0 then
    (Return (emptyDescriptor,
             Some (errorString "expiry duration cannot be a negative value")), [])
  else if negb (Z.rem (SignOptions.ExpiryDuration signOpts) time_Second =? 0) then
    (Return (emptyDescriptor,
             Some (errorString "expiry duration supports minimum granularity of seconds")), [])
  else
    let artifactRef := SignOptions.ArtifactReference signOpts in
    match ParseReference artifactRef with
    | inr err => (Return (emptyDescriptor, Some err), [])
    | inl ref =>
      if String.eqb (ReferenceOrDigest ref) "" then
        (Return (emptyDescriptor,
                 Some (errorString "reference is missing digest or tag")), [])
      else
        match repo with
        | None =>
          (Return (emptyDescriptor, Some (errorString "repo cannot be nil")), [])
        | Some repo =>
          let tr := [CallResolve artifactRef] in
          match Resolve repo artifactRef with
          | inr err => (Return (emptyDescriptor, Some err), tr)
          | inl targetDesc =>
            match addUserMetadataToDescriptor targetDesc
                    (RemoteSignOptions.UserMetadata remoteOpts) with
            | Panic => (Panic, tr)
            | Return (_, Some err) => (Return (emptyDescriptor, Some err), tr)
            | Return (targetDesc, None) =>
              let tr := tr ++ [CallSign targetDesc signOpts] in
              match Signer_Sign signer targetDesc signOpts with
              | inr err => (Return (emptyDescriptor, Some err), tr)
              | inl (sig, signerInfo) =>
                let pluginAnnotations := default None (PluginAnnotations signer) in
                match generateAnnotations signerInfo pluginAnnotations with
                | Panic => (Panic, tr)
                | Return (_, Some err) => (Return (emptyDescriptor, Some err), tr)
                | Return (annotations, None) =>
                  let annotations := default ∅ annotations in
                  let tr := tr ++ [CallPushSignature
                                     (SignOptions.SignatureMediaType signOpts)
                                     sig targetDesc annotations] in
                  match PushSignature repo (SignOptions.SignatureMediaType signOpts)
                          sig targetDesc annotations with
                  | inr err =>
                    (Return (emptyDescriptor,
                             Some (ErrorPushSignatureFailed (Error err))), tr)
                  | inl _ => (Return (targetDesc, None), tr)
                  end
                end
              end
            end
          end
        end
    end.

(** [SignLocalContent] returns the descriptor, the signature and the
    annotations of the signature manifest. *)
Definition SignLocalContent (artifactDescriptor : Descriptor) (signer : Signer)
    (localOpts : LocalSignOptions.t)
    : go (Descriptor * list byte * option (gmap string string) * option error)
      * list event :=
  let failed (msg : string) :=
    Return (emptyDescriptor, [], None, Some (ErrorSignLocalContent msg)) in
  if LocalSignOptions.ExpiryDuration localOpts <? 0 then
    (failed "expiry duration cannot be a negative value", [])
  else if negb (Z.rem (LocalSignOptions.ExpiryDuration localOpts) time_Second =? 0) then
    (failed "expiry duration supports minimum granularity of seconds", [])
  else
    match addUserMetadataToDescriptor artifactDescriptor
            (LocalSignOptions.UserMetadata localOpts) with
    | Panic => (Panic, [])
    | Return (_, Some err) => (failed (Error err), [])
    | Return (targetDesc, None) =>
      let signOpts :=
        {| SignOptions.ArtifactReference := "";
           SignOptions.SignatureMediaType := LocalSignOptions.SignatureMediaType localOpts;
           SignOptions.ExpiryDuration := LocalSignOptions.ExpiryDuration localOpts;
           SignOptions.PluginConfig := LocalSignOptions.PluginConfig localOpts;
           SignOptions.SigningAgent := LocalSignOptions.SigningAgent localOpts |} in
      let tr := [CallSign targetDesc signOpts] in
      match Signer_Sign signer targetDesc signOpts with
      | inr err => (failed (Error err), tr)
      | inl (sig, signerInfo) =>
        let pluginAnnotations := default None (PluginAnnotations signer) in
        match generateAnnotations signerInfo pluginAnnotations with
        | Panic => (Panic, tr)
        | Return (_, Some err) => (failed (Error err), tr)
        | Return (annotations, None) =>
          (Return (targetDesc, sig, annotations, None), tr)
        end
      end
    end.

End sign.

(** The variables of [Verify] that the callback handed to [ListSignatures]
    reads and writes, and the calls made so far. *)
Record state := {
  opts : VerifyOptions.t;
  verificationOutcomes : list (option VerificationOutcome.t);
  numOfSignatureProcessed : Z;
  verificationFailedErr : error;
  trace : list event;
}.

Definition withSignatureMediaType (o : VerifyOptions.t) (mediaType : string)
    : VerifyOptions.t :=
  {| VerifyOptions.ArtifactReference := VerifyOptions.ArtifactReference o;
     VerifyOptions.SignatureMediaType := mediaType;
     VerifyOptions.PluginConfig := VerifyOptions.PluginConfig o;
     VerifyOptions.UserMetadata := VerifyOptions.UserMetadata o;
     VerifyOptions.TargetAtLocal := VerifyOptions.TargetAtLocal o;
     VerifyOptions.TrustPolicyScope := VerifyOptions.TrustPolicyScope o |}.

(** [_, ok := err.(ErrorUserMetadataVerificationFailed)] *)
Definition isErrorUserMetadataVerificationFailed (err : option error) : bool :=
  match err with
  | Some (ErrorUserMetadataVerificationFailed _) => true
  | _ => false
  end.

(** [ListSignatures] hands the pages of the referrers listing to [fn] one
    after the other, stops at the first error that [fn] returns and returns
    it, and otherwise returns the error of the listing itself.  The paging
    is oras's [Referrers], to which repository.go passes [fn] on. *)
Fixpoint deliver {S : Type} (fn : list Descriptor → S → option error * S)
    (pages : list (list Descriptor)) (listErr : option error) (st : S)
    : option error * S :=
  match pages with
  | [] => (listErr, st)
  | signatureManifests :: pages =>
    match fn signatureManifests st with
    | (Some err, st) => (Some err, st)
    | (None, st) => deliver fn pages listErr st
    end
  end.

Definition ListSignatures {S : Type} (repo : Repository) (desc : Descriptor)
    (fn : list Descriptor → S → option error * S) (st : S) : option error * S :=
  let '(pages, listErr) := Referrers repo desc in
  deliver fn pages listErr st.

Section verify.
Context `{!GoLib}.
Context (verifier : Verifier) (repo : Repository)
        (remoteOpts : RemoteVerifyOptions.t).

Definition errExceededMaxVerificationLimit : error :=
  ErrorVerificationFailed
    ("total number of signatures associated with an artifact should be less than: "
     +:+ pretty (RemoteVerifyOptions.MaxSignatureAttempts remoteOpts)).

(** The [for] loop of the callback.  [Some err]: the callback returns [err]
    from inside the loop; [None]: the loop is left, by [break] or at the end
    of the page. *)
Fixpoint processSignatures (artifactDescriptor : Descriptor)
    (signatureManifests : list Descriptor) (st : state) : option error * state :=
  match signatureManifests with
  | [] => (None, st)
  | sigManifestDesc :: signatureManifests =>
    if RemoteVerifyOptions.MaxSignatureAttempts remoteOpts <=? numOfSignatureProcessed st
    then (None, st)
    else
      let st :=
        {| opts := opts st; verificationOutcomes := verificationOutcomes st;
           numOfSignatureProcessed := numOfSignatureProcessed st + 1;
           verificationFailedErr := verificationFailedErr st;
           trace := trace st ++ [CallFetchSignatureBlob sigManifestDesc] |} in
      match FetchSignatureBlob repo sigManifestDesc with
      | inr err =>
        (Some (ErrorSignatureRetrievalFailed
           ("unable to retrieve digital signature with digest "
            +:+ strconv_Quote (Digest sigManifestDesc)
            +:+ " associated with "
            +:+ strconv_Quote (RemoteVerifyOptions.ArtifactReference remoteOpts)
            +:+ " from the registry, error : " +:+ Error err)), st)
      | inl (sigBlob, sigDesc) =>
        let opts := withSignatureMediaType (opts st) (MediaType sigDesc) in
        let st :=
          {| opts := opts; verificationOutcomes := verificationOutcomes st;
             numOfSignatureProcessed := numOfSignatureProcessed st;
             verificationFailedErr := verificationFailedErr st;
             trace := trace st ++ [CallVerify artifactDescriptor sigBlob opts] |} in
        match Verifier_Verify verifier artifactDescriptor sigBlob opts with
        | (outcome, Some err) =>
          match outcome with
          | None => (Some err, st)
          | Some o =>
            let st :=
              if isErrorUserMetadataVerificationFailed (VerificationOutcome.Error o)
              then
                {| opts := opts; verificationOutcomes := verificationOutcomes st;
                   numOfSignatureProcessed := numOfSignatureProcessed st;
                   verificationFailedErr :=
                     default (verificationFailedErr st) (VerificationOutcome.Error o);
                   trace := trace st |}
              else st in
            processSignatures artifactDescriptor signatureManifests st
          end
        | (outcome, None) =>
          (Some errDoneVerification,
           {| opts := opts;
              verificationOutcomes := verificationOutcomes st ++ [outcome];
              numOfSignatureProcessed := numOfSignatureProcessed st;
              verificationFailedErr := verificationFailedErr st;
              trace := trace st |})
        end
      end
  end.

(** The callback handed to [ListSignatures]. *)
Definition callback (artifactDescriptor : Descriptor)
    (signatureManifests : list Descriptor) (st : state) : option error * state :=
  match processSignatures artifactDescriptor signatureManifests st with
  | (Some err, st) => (Some err, st)
  | (None, st) =>
    if RemoteVerifyOptions.MaxSignatureAttempts remoteOpts <=? numOfSignatureProcessed st
    then (Some errExceededMaxVerificationLimit, st)
    else (None, st)
  end.

(** [Verify] from the check of [MaxSignatureAttempts] on; [tr] holds the
    calls made before. *)
Definition verifySignatures (opts : VerifyOptions.t) (tr : list event)
    : (Descriptor * list (option VerificationOutcome.t) * option error)
      * list event :=
  if RemoteVerifyOptions.MaxSignatureAttempts remoteOpts <=? 0 then
    ((emptyDescriptor, [],
      Some (ErrorSignatureRetrievalFailed
        ("verifyOptions.MaxSignatureAttempts expects a positive number, got "
         +:+ pretty (RemoteVerifyOptions.MaxSignatureAttempts remoteOpts)))), tr)
  else
    let artifactRef := RemoteVerifyOptions.ArtifactReference remoteOpts in
    match ParseReference artifactRef with
    | inr err =>
      ((emptyDescriptor, [], Some (ErrorSignatureRetrievalFailed (Error err))), tr)
    | inl ref =>
      if String.eqb (ReferenceOrDigest ref) "" then
        ((emptyDescriptor, [],
          Some (ErrorSignatureRetrievalFailed "reference is missing digest or tag")), tr)
      else
        let tr := tr ++ [CallResolve artifactRef] in
        match Resolve repo artifactRef with
        | inr err =>
          ((emptyDescriptor, [], Some (ErrorSignatureRetrievalFailed (Error err))), tr)
        | inl artifactDescriptor =>
          let st :=
            {| opts := opts; verificationOutcomes := [];
               numOfSignatureProcessed := 0;
               verificationFailedErr := ErrorVerificationFailed "";
               trace := tr ++ [CallListSignatures artifactDescriptor] |} in
          let '(err, st) :=
            ListSignatures repo artifactDescriptor (callback artifactDescriptor) st in
          if match err with
             | Some err => negb (errors_Is err errDoneVerification)
             | None => false
             end
          then
            if match err with
               | Some err => errors_Is err errExceededMaxVerificationLimit
               | None => false
               end
            then ((emptyDescriptor, verificationOutcomes st, err), trace st)
            else ((emptyDescriptor, [], err), trace st)
          else if numOfSignatureProcessed st =? 0 then
            ((emptyDescriptor, [],
              Some (ErrorSignatureRetrievalFailed
                ("no signature is associated with " +:+ strconv_Quote artifactRef
                 +:+ ", make sure the image was signed successfully"))), trace st)
          else if (length (verificationOutcomes st) =? 0)%nat then
            ((emptyDescriptor, verificationOutcomes st,
              Some (verificationFailedErr st)), trace st)
          else
            ((artifactDescriptor, verificationOutcomes st, None), trace st)
        end
    end.

Definition Verify
    : (Descriptor * list (option VerificationOutcome.t) * option error)
      * list event :=
  if negb (isRemote repo) then
    ((emptyDescriptor, [],
      Some (errorString "failed to verify: repo must be remote repository")), [])
  else
    let opts :=
      {| VerifyOptions.ArtifactReference := RemoteVerifyOptions.ArtifactReference remoteOpts;
         VerifyOptions.SignatureMediaType := "";
         VerifyOptions.PluginConfig := RemoteVerifyOptions.PluginConfig remoteOpts;
         VerifyOptions.UserMetadata := RemoteVerifyOptions.UserMetadata remoteOpts;
         VerifyOptions.TargetAtLocal := false;
         VerifyOptions.TrustPolicyScope := "" |} in
    match SkipVerify verifier with
    | Some skipChecker =>
      let tr := [CallSkipVerify opts] in
      match skipChecker opts with
      | (_, _, Some err) => ((emptyDescriptor, [], Some err), tr)
      | (true, verificationLevel, None) =>
        ((emptyDescriptor,
          [Some {| VerificationOutcome.RawSignature := [];
                   VerificationOutcome.EnvelopeContent := None;
                   VerificationOutcome.VerificationLevel := verificationLevel;
                   VerificationOutcome.VerificationResults := [];
                   VerificationOutcome.Error := None |}], None), tr)
      | (false, _, None) => verifySignatures opts tr
      end
    | None => verifySignatures opts []
    end.

End verify.
End notation.

(** * Package jws *)
Module jws.

(** The commands and capabilities of package plugin. *)
Inductive Command :=
  | CommandGetMetadata
  | CommandDescribeKey
  | CommandGenerateSignature
  | CommandGenerateEnvelope.

Inductive Capability :=
  | CapabilitySignatureGenerator
  | CapabilityEnvelopeGenerator
  | OtherCapability (name : string).

#[global] Instance Capability_eq_dec : EqDecision Capability.
Proof. solve_decision. Defined.

Record Metadata := {
  Name : string;
  Description : string;
  Version : string;
  URL : string;
  SupportedContractVersions : list string;
  Capabilities : list Capability;
}.

Module DescribeKeyRequest.
Record t := {
  ContractVersion : string;
  KeyID : string;
  PluginConfig : gmap string string;
}.
End DescribeKeyRequest.

Module DescribeKeyResponse.
Record t := {
  KeyID : string;
  KeySpec : string;
}.
End DescribeKeyResponse.

Module GenerateSignatureRequest.
Record t := {
  ContractVersion : string;
  KeyID : string;
  KeySpec : string;
  Hash : string;
  Payload : string;
  PluginConfig : gmap string string;
}.
End GenerateSignatureRequest.

Module GenerateSignatureResponse.
Record t := {
  KeyID : string;
  Signature : list byte;
  SigningAlgorithm : string;
  CertificateChain : list (list byte);
}.
End GenerateSignatureResponse.

(** The request handed to [Runner.Run] ([NoRequest] is [nil]) and the
    dynamic value it returns, whose type the code asserts; [OtherResponse]
    is a value of any other type, with the name that [%T] prints. *)
Inductive request :=
  | NoRequest
  | ReqDescribeKey (req : DescribeKeyRequest.t)
  | ReqGenerateSignature (req : GenerateSignatureRequest.t).

Inductive response :=
  | RespMetadata (m : Metadata)
  | RespDescribeKey (r : DescribeKeyResponse.t)
  | RespGenerateSignature (r : GenerateSignatureResponse.t)
  | OtherResponse (typeName : string).

Definition typeName (out : response) : string :=
  match out with
  | RespMetadata _ => "*plugin.Metadata"
  | RespDescribeKey _ => "*plugin.DescribeKeyResponse"
  | RespGenerateSignature _ => "*plugin.GenerateSignatureResponse"
  | OtherResponse name => name
  end.

(** Modelled from the spec: [Metadata.Validate] and [Metadata.HasCapability]
    of package plugin, which is not among the sources.  The metadata must
    declare a non-empty name, a version and at least one of the two signing
    capabilities; the capabilities are a set. *)
Definition HasCapability (m : Metadata) (capability : Capability) : bool :=
  bool_decide (capability ∈ Capabilities m).

Definition Validate (m : Metadata) : option error :=
  if String.eqb (Name m) "" then Some (errorString "name must not be empty")
  else if String.eqb (Version m) "" then Some (errorString "version must not be empty")
  else if negb (HasCapability m CapabilitySignatureGenerator
                || HasCapability m CapabilityEnvelopeGenerator)
  then Some (errorString "capabilities must not be empty")
  else None.

(** What package jws takes from files that are not modelled and from Go's
    library: the descriptor, options and payload types, and the functions
    that build and check a JWS. *)
Class JwsLib := {
  SignOptions : Type;
  Payload : Type;
  opts_PluginConfig : SignOptions → gmap string string;
  (** [keySpec.SignatureAlgorithm()], [alg.JWS()] and [alg.Hash()] *)
  KeySpec_SignatureAlgorithm : string → string;
  SignatureAlgorithm_JWS : string → string;
  SignatureAlgorithm_Hash : string → string;
  packPayload : Descriptor → SignOptions → Payload;
  Payload_Valid : Payload → option error;
  (** [jwtToken(alg, payload).SigningString()] *)
  SigningString : string → Payload → string + error;
  x509_ParseCertificate : list byte → Certificate + error;
  base64_RawURLEncoding : list byte → string;
  (** [jwt.GetSigningMethod(sigAlg).Verify(payload, sig, cert.PublicKey)] *)
  jwt_Verify : string → string → string → Certificate → option error;
  (** [verifyCertExtKeyUsage(cert, x509.ExtKeyUsageCodeSigning)] *)
  verifyCertExtKeyUsage_CodeSigning : Certificate → option error;
  jwtEnvelope : SignOptions → string → list (list byte) → list byte + error;
}.

Record PluginSigner := {
  Runner : Command → request → response + error;
  KeyID : string;
  PluginConfig : gmap string string;
}.

(** The commands run, in order. *)
Inductive event :=
  | Run (cmd : Command) (req : request).

Section plugin.
Context `{!GoLib} `{!JwsLib}.

Definition mergeConfig (s : PluginSigner) (config : gmap string string)
    : gmap string string :=
  let c := foldl (λ c '(k, v), <[k:=v]> c) ∅ (range (PluginConfig s)) in
  foldl (λ c '(k, v), <[k:=v]> c) c (range config).

Definition describeKey (s : PluginSigner) (config : gmap string string)
    : (DescribeKeyResponse.t + error) * list event :=
  let req := ReqDescribeKey
    {| DescribeKeyRequest.ContractVersion := "1";
       DescribeKeyRequest.KeyID := KeyID s;
       DescribeKeyRequest.PluginConfig := config |} in
  let tr := [Run CommandDescribeKey req] in
  match Runner s CommandDescribeKey req with
  | inr err =>
    (inr (wrapError ("describe-key command failed: " +:+ Error err) err), tr)
  | inl (RespDescribeKey resp) => (inl resp, tr)
  | inl out =>
    (inr (errorString
       ("plugin runner returned incorrect describe-key response type '"
        +:+ typeName out +:+ "'")), tr)
  end.

Fixpoint parseCertChain (certChain : list (list byte))
    : list Certificate + error :=
  match certChain with
  | [] => inl []
  | cert :: certChain =>
    match x509_ParseCertificate cert with
    | inr err => inr err
    | inl cert =>
      match parseCertChain certChain with
      | inr err => inr err
      | inl certs => inl (cert :: certs)
      end
    end
  end.

Definition verifyJWT (sigAlg payload sig : string) (signingCert : Certificate)
    : option error :=
  jwt_Verify sigAlg payload sig signingCert.

Definition generateSignature (s : PluginSigner) (desc : Descriptor)
    (opts : SignOptions) : (list byte * option error) * list event :=
  let config := mergeConfig s (opts_PluginConfig opts) in
  let '(key, tr) := describeKey s config in
  match key with
  | inr err => (([], Some err), tr)
  | inl key =>
    if negb (String.eqb (KeyID s) (DescribeKeyResponse.KeyID key)) then
      (([], Some (errorString "keyID mismatch")), tr)
    else
      let alg := KeySpec_SignatureAlgorithm (DescribeKeyResponse.KeySpec key) in
      if String.eqb alg "" then
        (([], Some (errorString ("keySpec "
            +:+ strconv_Quote (DescribeKeyResponse.KeySpec key)
            +:+ " not supported: "))), tr)
      else
        let payload := packPayload desc opts in
        match Payload_Valid payload with
        | Some err => (([], Some err), tr)
        | None =>
          match SigningString (SignatureAlgorithm_JWS alg) payload with
          | inr err =>
            (([], Some (errorString ("failed to marshal signing payload: "
                                     +:+ Error err))), tr)
          | inl signing =>
            let req := ReqGenerateSignature
              {| GenerateSignatureRequest.ContractVersion := "1";
                 GenerateSignatureRequest.KeyID := KeyID s;
                 GenerateSignatureRequest.KeySpec := DescribeKeyResponse.KeySpec key;
                 GenerateSignatureRequest.Hash := SignatureAlgorithm_Hash alg;
                 GenerateSignatureRequest.Payload := signing;
                 GenerateSignatureRequest.PluginConfig := config |} in
            let tr := tr ++ [Run CommandGenerateSignature req] in
            match Runner s CommandGenerateSignature req with
            | inr err =>
              (([], Some (wrapError ("generate-signature command failed: "
                                     +:+ Error err) err)), tr)
            | inl (RespGenerateSignature resp) =>
              if negb (String.eqb (KeyID s) (GenerateSignatureResponse.KeyID resp)) then
                (([], Some (errorString "keyID mismatch")), tr)
              else
                let jwsAlg :=
                  SignatureAlgorithm_JWS (GenerateSignatureResponse.SigningAlgorithm resp) in
                if String.eqb jwsAlg "" then
                  (([], Some (errorString ("signing algorithm "
                      +:+ strconv_Quote (GenerateSignatureResponse.SigningAlgorithm resp)
                      +:+ " not supported"))), tr)
                else
                  match GenerateSignatureResponse.CertificateChain resp,
                        parseCertChain (GenerateSignatureResponse.CertificateChain resp) with
                  | [], _ | _, inl [] =>
                    (* [parseCertChain] keeps the length: the second pattern
                       is matched by an empty chain only *)
                    (([], Some (errorString "empty certificate chain")), tr)
                  | _, inr err => (([], Some err), tr)
                  | _, inl (leaf :: _) =>
                    let signed64Url :=
                      base64_RawURLEncoding (GenerateSignatureResponse.Signature resp) in
                    match verifyJWT jwsAlg signing signed64Url leaf with
                    | Some err =>
                      (([], Some (errorString ("verification error: " +:+ Error err))), tr)
                    | None =>
                      match verifyCertExtKeyUsage_CodeSigning leaf with
                      | Some err =>
                        (([], Some (wrapError
                           ("signing certificate does not meet the minimum requirements: "
                            +:+ Error err) err)), tr)
                      | None =>
                        match jwtEnvelope opts (signing +:+ "." +:+ signed64Url)
                                (GenerateSignatureResponse.CertificateChain resp) with
                        | inr err => (([], Some err), tr)
                        | inl envelope => ((envelope, None), tr)
                        end
                      end
                    end
                  end
            | inl out =>
              (([], Some (errorString
                 ("plugin runner returned incorrect generate-signature response type '"
                  +:+ typeName out +:+ "'"))), tr)
            end
          end
        end
  end.

Definition generateSignatureEnvelope (s : PluginSigner) (desc : Descriptor)
    (opts : SignOptions) : (list byte * option error) * list event :=
  (([], Some (errorString "not implemented")), []).

Definition Sign (s : PluginSigner) (desc : Descriptor) (opts : SignOptions)
    : (list byte * option error) * list event :=
  let tr := [Run CommandGetMetadata NoRequest] in
  match Runner s CommandGetMetadata NoRequest with
  | inr err =>
    (([], Some (wrapError ("metadata command failed: " +:+ Error err) err)), tr)
  | inl (RespMetadata metadata) =>
    match Validate metadata with
    | Some err =>
      (([], Some (wrapError ("invalid plugin metadata: " +:+ Error err) err)), tr)
    | None =>
      if HasCapability metadata CapabilitySignatureGenerator then
        let '(r, tr') := generateSignature s desc opts in (r, tr ++ tr')
      else if HasCapability metadata CapabilityEnvelopeGenerator then
        let '(r, tr') := generateSignatureEnvelope s desc opts in (r, tr ++ tr')
      else
        (([], Some (errorString "plugin does not have signing capabilities")), tr)
    end
  | inl out =>
    (([], Some (errorString
       ("plugin runner returned incorrect get-plugin-metadata response type '"
        +:+ typeName out +:+ "'"))), tr)
  end.

End plugin.
End jws.

(** * Package verification *)
Module verification.

Record X509TrustStore := {
  Name : string;
  Prefix : string;
  Path : string;
  Certificates : list Certificate;
}.

(** [fs.FileMode] and [fs.DirEntry], as far as the code reads them:
    [IsDir()] and whether the bit [fs.ModeSymlink] is set. *)
Record FileMode := {
  Mode_IsDir : bool;
  Mode_Symlink : bool;
}.

Record DirEntry := {
  Entry_Name : string;
  Entry_IsDir : bool;
  Entry_Symlink : bool;
}.

(** The file system and the functions of path/filepath.  [Stat_IsNotExist]
    is [os.IsNotExist] of the error of [os.Stat]; [ReadCertificateFile] is
    the function of that name of notation-core-go. *)
Record FileSystem := {
  Stat_IsNotExist : string → bool;
  Lstat : string → FileMode + error;
  ReadDir : string → list DirEntry + error;
  ReadCertificateFile : string → list Certificate + error;
  filepath_Join : string → string → string;
  filepath_Base : string → string;
  filepath_Dir : string → string;
}.

Section x509truststore.
Context `{!GoLib}.

Definition isSelfSigned (cert : Certificate) : bool :=
  bool_decide (CheckSignatureFrom cert cert = None)
  && bool_decide (RawSubject cert = RawIssuer cert).

Definition validateCerts (certs : list Certificate) (path : string)
    : option error :=
  match certs with
  | [] =>
    Some (errorString ("could not parse a certificate from "
      +:+ strconv_Quote path
      +:+ ", every file in a trust store must have a PEM or DER certificate in it"))
  | [cert] =>
    if negb (isSelfSigned cert) && negb (IsCA cert) then
      Some (errorString ("single certificate from " +:+ strconv_Quote path
        +:+ " is not a self-signed certificate or CA certificate"))
    else None
  | _ =>
    match List.find (λ cert, negb (IsCA cert)) certs with
    | Some cert =>
      Some (errorString ("certificate with subject "
        +:+ strconv_Quote (Subject cert) +:+ " from file " +:+ strconv_Quote path
        +:+ " is not a CA certificate, only CA certificates (BasicConstraint CA=True) are allowed"))
    | None => None
    end
  end.

(** The loop over the files of the directory; [certificates] is
    [trustStore.Certificates]. *)
Fixpoint loadFiles (fsys : FileSystem) (path : string) (files : list DirEntry)
    (certificates : list Certificate) : list Certificate + error :=
  match files with
  | [] => inl certificates
  | file :: files =>
    let joinedPath := filepath_Join fsys path (Entry_Name file) in
    if Entry_IsDir file || Entry_Symlink file then
      inr (errorString (strconv_Quote joinedPath
        +:+ " is not a regular file (directories or symlinks are not supported)"))
    else
      match ReadCertificateFile fsys joinedPath with
      | inr err =>
        inr (wrapError ("error while reading certificates from "
               +:+ strconv_Quote joinedPath +:+ ": " +:+ Error err) err)
      | inl certs =>
        match validateCerts certs joinedPath with
        | Some err => inr err
        | None => loadFiles fsys path files (certificates ++ certs)
        end
      end
  end.

Definition LoadX509TrustStore (fsys : FileSystem) (path : string)
    : option X509TrustStore * option error :=
  if Stat_IsNotExist fsys path then
    (None, Some (errorString (strconv_Quote path +:+ " does not exist")))
  else
    match Lstat fsys path with
    | inr err => (None, Some err)
    | inl mode =>
      if negb (Mode_IsDir mode) || Mode_Symlink mode then
        (None, Some (errorString (strconv_Quote path
           +:+ " is not a regular directory (symlinks are not supported)")))
      else
        match ReadDir fsys path with
        | inr err => (None, Some err)
        | inl files =>
          match loadFiles fsys path files [] with
          | inr err => (None, Some err)
          | inl certificates =>
            if (length certificates <? 1)%nat then
              (None, Some (errorString ("trust store " +:+ strconv_Quote path
                 +:+ " has no x509 certificates")))
            else
              (Some {| Name := filepath_Base fsys path;
                       Prefix := filepath_Base fsys (filepath_Dir fsys path);
                       Path := path;
                       Certificates := certificates |}, None)
          end
        end
    end.

End x509truststore.
End verification.

(** * Properties *)

(** ** [FetchSignatureBlob] *)
Section FetchSignatureBlob_properties.
Context `{!GoLib}.
Import registry.

(** The signature manifest [desc], fetched and parsed as its media type
    says, references the blobs [blobs]: the [blobs] of an artifact manifest,
    the [layers] of an image manifest. *)
Definition references (c : repositoryClient) (desc : Descriptor)
    (blobs : list Descriptor) : Prop :=
  ∃ manifestJSON, Manifests_FetchAll c desc = inl manifestJSON ∧
    ((MediaType desc = MediaTypeArtifactManifest ∧
      ∃ m, Unmarshal_Artifact c manifestJSON = inl m ∧ Blobs m = blobs) ∨
     (MediaType desc = MediaTypeImageManifest ∧
      ∃ m, Unmarshal_Manifest c manifestJSON = inl m ∧ Layers m = blobs)).

(** The four deviations that are hard errors. *)
Definition deviates (c : repositoryClient) (desc : Descriptor) : Prop :=
  Size desc > maxManifestSizeLimit
  ∨ (MediaType desc ≠ MediaTypeImageManifest ∧
     MediaType desc ≠ MediaTypeArtifactManifest)
  ∨ (∃ blobs, references c desc blobs ∧ length blobs ≠ 1%nat)
  ∨ (∃ sigDesc, references c desc [sigDesc] ∧ Size sigDesc > maxBlobSizeLimit).

(** All checks pass, and [sigDesc] is the one blob of the manifest. *)
Definition conforms (c : repositoryClient) (desc sigDesc : Descriptor) : Prop :=
  Size desc ≤ maxManifestSizeLimit ∧ references c desc [sigDesc] ∧
  Size sigDesc ≤ maxBlobSizeLimit.

Lemma references_functional c desc blobs1 blobs2 :
  references c desc blobs1 → references c desc blobs2 → blobs1 = blobs2.
Proof.
  intros (j1 & Hj1 & H1) (j2 & Hj2 & H2).
  rewrite Hj1 in Hj2. injection Hj2 as <-.
  destruct H1 as [(Ht1 & m1 & Hm1 & <-)|(Ht1 & m1 & Hm1 & <-)],
           H2 as [(Ht2 & m2 & Hm2 & <-)|(Ht2 & m2 & Hm2 & <-)];
    try (rewrite Ht1 in Ht2; discriminate Ht2);
    rewrite Hm1 in Hm2; by injection Hm2 as <-.
Qed.

(** What [getSignatureBlobsDesc] returns without error is what the manifest
    references, and it has fetched the manifest and nothing else. *)
Lemma getSignatureBlobsDesc_ok c desc blobs tr :
  getSignatureBlobsDesc c desc = ((blobs, None), tr) →
  Size desc ≤ maxManifestSizeLimit ∧ references c desc blobs ∧
  tr = [FetchManifest desc].
Proof.
  unfold getSignatureBlobsDesc, references.
  destruct (Z.gtb_spec (Size desc) maxManifestSizeLimit) as [|Hle]; [done|].
  destruct (Manifests_FetchAll c desc) as [manifestJSON|] eqn:Hfetch; [|done].
  destruct (String.eqb_spec (MediaType desc) MediaTypeArtifactManifest) as [Ha|Ha].
  - destruct (Unmarshal_Artifact c manifestJSON) as [m|] eqn:Hm; [|done].
    intros [= <- <-]. split_and!; [done| |done].
    exists manifestJSON. split; [done|]. left. eauto.
  - destruct (String.eqb_spec (MediaType desc) MediaTypeImageManifest) as [Hi|Hi];
      [|done].
    destruct (Unmarshal_Manifest c manifestJSON) as [m|] eqn:Hm; [|done].
    intros [= <- <-]. split_and!; [done| |done].
    exists manifestJSON. split; [done|]. right. eauto.
Qed.

(** [getSignatureBlobsDesc] never fetches a blob. *)
Lemma getSignatureBlobsDesc_no_blob c desc :
  filter isFetchBlob (getSignatureBlobsDesc c desc).2 = [].
Proof.
  unfold getSignatureBlobsDesc.
  repeat (case_match; simpl; try done).
Qed.

(** A blob is fetched only when all checks have passed, and then it is the
    one blob of the manifest. *)
Lemma FetchSignatureBlob_trace c desc :
  let tr := (FetchSignatureBlob c desc).2 in
  filter isFetchBlob tr = [] ∨
  ∃ sigDesc, conforms c desc sigDesc ∧ tr = [FetchManifest desc; FetchBlob sigDesc].
Proof.
  unfold FetchSignatureBlob.
  destruct (getSignatureBlobsDesc c desc) as [[blobs [err|]] tr] eqn:Hget; simpl.
  - left. by rewrite <-(getSignatureBlobsDesc_no_blob c desc), Hget.
  - apply getSignatureBlobsDesc_ok in Hget as (Hsize & Href & ->).
    destruct blobs as [|sigDesc [|]]; simpl; [by left| |by left].
    destruct (Z.gtb_spec (Size sigDesc) maxBlobSizeLimit); simpl; [by left|].
    right. exists sigDesc. unfold conforms.
    by destruct (Blobs_FetchAll c sigDesc).
Qed.

(** The call succeeds exactly when all checks pass and the blob can be
    fetched. *)
Lemma FetchSignatureBlob_ok c desc sigBlob sigDesc :
  (FetchSignatureBlob c desc).1 = (sigBlob, sigDesc, None) ↔
  conforms c desc sigDesc ∧ Blobs_FetchAll c sigDesc = inl sigBlob.
Proof.
  unfold FetchSignatureBlob.
  destruct (getSignatureBlobsDesc c desc) as [[blobs [err|]] tr] eqn:Hget; simpl.
  - split; [done|]. intros [(Hsize & (j & Hj & Href) & _) _].
    revert Hget. unfold getSignatureBlobsDesc.
    destruct (Z.gtb_spec (Size desc) maxManifestSizeLimit); [lia|].
    rewrite Hj.
    destruct Href as [(Ht & m & Hm & _)|(Ht & m & Hm & _)]; rewrite Ht, ?Hm; done.
  - apply getSignatureBlobsDesc_ok in Hget as (Hsize & Href & ->).
    split.
    + destruct blobs as [|d [|]]; [done| |done].
      destruct (Z.gtb_spec (Size d) maxBlobSizeLimit); [done|].
      destruct (Blobs_FetchAll c d) eqn:Hblob; [|done].
      intros [= <- <-]. by unfold conforms.
    + intros [(_ & Href' & Hblobsize) Hblob].
      rewrite (references_functional _ _ _ _ Href Href').
      destruct (Z.gtb_spec (Size sigDesc) maxBlobSizeLimit); [lia|].
      by rewrite Hblob.
Qed.

Lemma deviates_not_conforms c desc sigDesc :
  deviates c desc → conforms c desc sigDesc → False.
Proof.
  intros Hdev (Hsize & Href & Hblob).
  destruct Hdev as [?|[[Hi Ha]|[(blobs & Href' & Hlen)|(d & Href' & Hd)]]].
  - lia.
  - by destruct Href as (? & _ & [[? _]|[? _]]).
  - rewrite (references_functional _ _ _ _ Href' Href) in Hlen. by apply Hlen.
  - pose proof (references_functional _ _ _ _ Href' Href) as [= ->]. lia.
Qed.

(** C4.  [FetchSignatureBlob] returns an error and fetches no blob whenever
    the signature manifest is larger than 4 MiB, or its media type is neither
    the image manifest type (whose layers are used) nor the artifact manifest
    type (whose blobs are used), or it does not reference exactly one blob, or
    that blob is larger than 32 MiB.  A blob is fetched only when all these
    checks have passed, and the call returns a blob and its descriptor without
    error exactly when they have passed and the fetch of that blob gave it. *)
Theorem FetchSignatureBlob_checks (c : repositoryClient) (desc : Descriptor) :
  (deviates c desc →
     ∃ err, (FetchSignatureBlob c desc).1 = ([], emptyDescriptor, Some err) ∧
            filter isFetchBlob (FetchSignatureBlob c desc).2 = [])
  ∧ (∀ d, FetchBlob d ∈ (FetchSignatureBlob c desc).2 → conforms c desc d)
  ∧ (∀ sigBlob sigDesc,
       (FetchSignatureBlob c desc).1 = (sigBlob, sigDesc, None) ↔
       conforms c desc sigDesc ∧ Blobs_FetchAll c sigDesc = inl sigBlob).
Proof.
  split_and!.
  - intros Hdev.
    destruct (FetchSignatureBlob_trace c desc) as [Hnone|(d & Hd & _)];
      [|by destruct (deviates_not_conforms c desc d)].
    destruct (FetchSignatureBlob c desc).1 as [[sigBlob sigDesc] [err|]] eqn:Hres.
    + exists err. split; [|done].
      revert Hres. unfold FetchSignatureBlob.
      destruct (getSignatureBlobsDesc c desc) as [[blobs [e|]] tr]; simpl;
        [by intros [= <- <- <-]|].
      destruct blobs as [|d [|]]; simpl; [by intros [= <- <- <-]| |by intros [= <- <- <-]].
      destruct (Size d >? maxBlobSizeLimit); simpl; [by intros [= <- <- <-]|].
      destruct (Blobs_FetchAll c d); simpl; [done|by intros [= <- <- <-]].
    + apply FetchSignatureBlob_ok in Hres as [Hconf _].
      by destruct (deviates_not_conforms c desc sigDesc).
  - intros d Hin.
    destruct (FetchSignatureBlob_trace c desc) as [Hnone|(d' & Hd' & Htr)].
    + assert (FetchBlob d ∈ filter isFetchBlob (FetchSignatureBlob c desc).2) as Hf
        by (by apply list_elem_of_filter).
      rewrite Hnone in Hf. by apply elem_of_nil in Hf.
    + rewrite Htr in Hin. apply elem_of_cons in Hin as [[=]|Hin].
      apply list_elem_of_singleton in Hin as [= ->]. done.
  - apply FetchSignatureBlob_ok.
Qed.

End FetchSignatureBlob_properties.

(** ** User metadata in [Sign] and [SignLocalContent] *)
Section user_metadata.
Context `{!GoLib}.
Import notation.

(** The key [k] starts with the reserved prefix. *)
Definition reserved (k : string) : Prop :=
  String.prefix "io.cncf.notary" k = true.

(** Some key of the user metadata is reserved or is a key of
    [annotations] already. *)
Definition rejected (userMetadata : gmap string string)
    (annotations : option (gmap string string)) : Prop :=
  ∃ k, is_Some (userMetadata !! k) ∧
       (reserved k ∨ is_Some (annotations ≫= (λ a, a !! k))).

(** [annotations] with the entries of the user metadata added; a [nil] map
    stays [nil] when there is nothing to add. *)
Definition extended (annotations : option (gmap string string))
    (userMetadata : gmap string string) : option (gmap string string) :=
  if decide (userMetadata = ∅) then annotations
  else Some (userMetadata ∪ default ∅ annotations).

#[global] Instance rejected_dec userMetadata annotations :
  Decision (rejected userMetadata annotations).
Proof.
  refine (cast_if (decide (Exists
    (λ kv : string * string,
       String.prefix "io.cncf.notary" kv.1 = true
       ∨ is_Some (annotations ≫= (λ a, a !! kv.1)))
    (map_to_list userMetadata)))).
  - apply Exists_exists in e as ([k v] & Hin%elem_of_map_to_list & Hbad).
    exists k. split; [by eexists|done].
  - intros (k & [v Hk] & Hbad). apply n, Exists_exists.
    exists (k, v). split; [by apply elem_of_map_to_list|done].
Defined.

Lemma find_reserved k :
  List.find (λ reservedPrefix, String.prefix reservedPrefix k)
            reservedAnnotationPrefixes
  = if String.prefix "io.cncf.notary" k then Some "io.cncf.notary" else None.
Proof. reflexivity. Qed.

(** The loop adds all entries when none is refused. *)
Lemma addUserMetadata_range_accepts entries : ∀ desc a,
  Annotations desc = Some a →
  NoDup entries.*1 →
  (∀ k v, (k, v) ∈ entries → ¬ reserved k ∧ a !! k = None) →
  addUserMetadata_range entries desc
  = Return (withAnnotations desc (Some (list_to_map entries ∪ a)), None).
Proof.
  induction entries as [|[k v] entries IH]; intros desc a Ha Hdup Hok;
    cbn [addUserMetadata_range].
  - rewrite list_to_map_nil, (left_id_L ∅ (∪)). destruct desc; simpl in *; by subst.
  - destruct (Hok k v) as [Hres Hfresh]; [left|].
    rewrite find_reserved. unfold reserved in Hres.
    destruct (String.prefix "io.cncf.notary" k); [done|].
    rewrite Ha. simpl. rewrite Hfresh.
    apply NoDup_cons in Hdup as [Hk Hdup].
    rewrite (IH _ (<[k:=v]> a)); [|done|done|].
    + unfold withAnnotations; simpl. do 4 f_equal.
      rewrite <-insert_union_l, <-insert_union_r; [done|].
      by apply not_elem_of_list_to_map_1.
    + intros k' v' Hin. destruct (Hok k' v') as [? ?]; [by right|].
      split; [done|]. rewrite lookup_insert_ne; [done|].
      intros ->. apply Hk. apply list_elem_of_fmap. by exists (k', v').
Qed.

(** The loop stops with an error when an entry is refused. *)
Lemma addUserMetadata_range_rejects entries : ∀ desc a,
  Annotations desc = Some a →
  (∃ k v, (k, v) ∈ entries ∧ (reserved k ∨ is_Some (a !! k))) →
  ∃ d err, addUserMetadata_range entries desc = Return (d, Some err).
Proof.
  induction entries as [|[k v] entries IH]; intros desc a Ha (k' & v' & Hin & Hbad).
  - by apply elem_of_nil in Hin.
  - cbn [addUserMetadata_range]. rewrite find_reserved.
    destruct (String.prefix "io.cncf.notary" k) eqn:Hres; [by eauto|].
    rewrite Ha. simpl. destruct (a !! k) eqn:Hk; [by eauto|].
    apply (IH _ (<[k:=v]> a)); [done|].
    apply elem_of_cons in Hin as [[= -> ->]|Hin].
    + destruct Hbad as [Hbad|[? Hbad]]; [unfold reserved in Hbad|]; congruence.
    + exists k', v'. split; [done|]. destruct Hbad as [?|Hbad]; [by left|right].
      destruct (decide (k = k')) as [->|?];
        [by rewrite lookup_insert_eq | by rewrite lookup_insert_ne].
Qed.

Lemma list_to_map_range (m : gmap string string) : list_to_map (range m) = m.
Proof.
  rewrite <-(list_to_map_to_list m) at 2.
  symmetry. apply list_to_map_proper; [apply NoDup_fst_map_to_list|].
  symmetry. apply range_Permutation.
Qed.

Lemma elem_of_range (m : gmap string string) k v :
  (k, v) ∈ range m ↔ m !! k = Some v.
Proof. by rewrite range_Permutation, elem_of_map_to_list. Qed.

Lemma NoDup_fst_range (m : gmap string string) : NoDup (range m).*1.
Proof.
  rewrite range_Permutation. apply NoDup_fst_map_to_list.
Qed.

(** [addUserMetadataToDescriptor] returns an error when a key is reserved or
    present already, and the descriptor with the extended annotations
    otherwise; it does not panic. *)
Lemma addUserMetadataToDescriptor_spec desc userMetadata :
  (rejected userMetadata (Annotations desc) ∧
   ∃ d err, addUserMetadataToDescriptor desc userMetadata = Return (d, Some err))
  ∨ (¬ rejected userMetadata (Annotations desc) ∧
     addUserMetadataToDescriptor desc userMetadata
     = Return (withAnnotations desc (extended (Annotations desc) userMetadata), None)).
Proof.
  unfold addUserMetadataToDescriptor, extended.
  destruct (decide (userMetadata = ∅)) as [->|Hne].
  - right. split.
    + intros (k & [v Hk] & _). by rewrite lookup_empty in Hk.
    + assert (range (∅ : gmap string string) = []) as ->.
      { apply Permutation_nil_r. rewrite range_Permutation.
        by rewrite map_to_list_empty. }
      rewrite map_size_empty, andb_false_r. simpl.
      by destruct desc.
  - assert (0 < size userMetadata)%nat as Hsize.
    { destruct (size userMetadata) eqn:Hs; [|lia].
      by apply map_size_empty_iff in Hs. }
    rewrite (bool_decide_eq_true_2 _ Hsize), andb_true_r.
    set (desc' := if bool_decide (Annotations desc = None)
                  then withAnnotations desc (Some ∅) else desc).
    assert (Annotations desc' = Some (default ∅ (Annotations desc))) as Ha.
    { unfold desc'. case_bool_decide as Hnil; [by rewrite Hnil|].
      by destruct (Annotations desc). }
    assert (withAnnotations desc' = withAnnotations desc) as Hwith.
    { unfold desc'. by case_bool_decide. }
    assert (∀ k, Annotations desc ≫= (λ a, a !! k)
                 = default ∅ (Annotations desc) !! k) as Hlookup.
    { intros k. destruct (Annotations desc); [done|]. symmetry. apply lookup_empty. }
    destruct (decide (rejected userMetadata (Annotations desc))) as [Hrej|Hacc];
      [left|right]; (split; [done|]).
    + apply (addUserMetadata_range_rejects _ _ _ Ha).
      destruct Hrej as (k & [v Hk] & Hbad).
      exists k, v. split; [by apply elem_of_range|]. by rewrite <-Hlookup.
    + rewrite (addUserMetadata_range_accepts _ _ _ Ha).
      * by rewrite Hwith, list_to_map_range.
      * apply NoDup_fst_range.
      * intros k v Hin%elem_of_range.
        split.
        -- intros Hres. apply Hacc. exists k. split; [by eexists|by left].
        -- destruct (default ∅ (Annotations desc) !! k) eqn:Hk; [|done].
           destruct Hacc. exists k. split; [by eexists|right].
           rewrite Hlookup, Hk. by eexists.
Qed.

(** The options that [SignLocalContent] hands to the signer. *)
Definition localSignOptions (localOpts : LocalSignOptions.t) : SignOptions.t :=
  {| SignOptions.ArtifactReference := "";
     SignOptions.SignatureMediaType := LocalSignOptions.SignatureMediaType localOpts;
     SignOptions.ExpiryDuration := LocalSignOptions.ExpiryDuration localOpts;
     SignOptions.PluginConfig := LocalSignOptions.PluginConfig localOpts;
     SignOptions.SigningAgent := LocalSignOptions.SigningAgent localOpts |}.

Lemma elem_of_trace_sign (e : event) tr desc opts :
  isSign e = false → CallSign desc opts ∈ tr ++ [e] → CallSign desc opts ∈ tr.
Proof.
  intros He [Hin|Hin%list_elem_of_singleton]%elem_of_app; [done|].
  by subst e.
Qed.

(** [Sign] up to the call of the signer. *)
Lemma Sign_cases signer repo remoteOpts :
  let signOpts := RemoteSignOptions.SignOptions remoteOpts in
  let artifactRef := SignOptions.ArtifactReference signOpts in
  let userMetadata := RemoteSignOptions.UserMetadata remoteOpts in
  let run := Sign signer repo remoteOpts in
  (* an error before the signer is called *)
  ((∃ err, run.1 = Return (emptyDescriptor, Some err)) ∧
   filter isSign run.2 = [] ∧ filter isPushSignature run.2 = [] ∧
   ¬ (0 ≤ SignOptions.ExpiryDuration signOpts ∧
      Z.rem (SignOptions.ExpiryDuration signOpts) time_Second = 0 ∧
      ∃ ref r targetDesc,
        ParseReference artifactRef = inl ref ∧ ReferenceOrDigest ref ≠ "" ∧
        repo = Some r ∧ Resolve r artifactRef = inl targetDesc ∧
        ¬ rejected userMetadata (Annotations targetDesc)))
  ∨ (* the signer is called, once *)
  (∃ r targetDesc tr,
     repo = Some r ∧ Resolve r artifactRef = inl targetDesc ∧
     ¬ rejected userMetadata (Annotations targetDesc) ∧
     run.2 = [CallResolve artifactRef;
              CallSign (withAnnotations targetDesc
                          (extended (Annotations targetDesc) userMetadata)) signOpts]
             ++ tr ∧
     filter isSign tr = []).
Proof.
  intros signOpts artifactRef userMetadata run. unfold run, Sign.
  fold signOpts. fold artifactRef. fold userMetadata.
  destruct (Z.ltb_spec (SignOptions.ExpiryDuration signOpts) 0) as [Hneg|Hpos].
  { left. split_and!; [by eauto|done|done|]. intros (? & _). lia. }
  destruct (Z.eqb_spec (Z.rem (SignOptions.ExpiryDuration signOpts) time_Second) 0)
    as [Hsec|Hsec]; simpl.
  2: { left. split_and!; [by eauto|done|done|]. by intros (_ & ? & _). }
  destruct (ParseReference artifactRef) as [ref|err] eqn:Hparse.
  2: { left. split_and!; [by eauto|done|done|]. by intros (_ & _ & ? & ? & ? & ? & _). }
  destruct (String.eqb_spec (ReferenceOrDigest ref) "") as [Hempty|Hnonempty].
  { left. split_and!; [by eauto|done|done|].
    intros (_ & _ & ? & ? & ? & [= <-] & ? & _). done. }
  destruct repo as [r|].
  2: { left. split_and!; [by eauto|done|done|].
       by intros (_ & _ & ? & ? & ? & _ & _ & ? & _). }
  destruct (Resolve r artifactRef) as [targetDesc|err] eqn:Hresolve.
  2: { left. split_and!; [by eauto|done|done|].
       intros (_ & _ & ? & ? & ? & _ & _ & [= <-] & ? & _). congruence. }
  destruct (addUserMetadataToDescriptor_spec targetDesc userMetadata)
    as [[Hrej (d & err & ->)]|[Hacc ->]].
  { left. split_and!; [by eauto|done|done|].
    intros (_ & _ & ? & ? & ? & _ & _ & [= <-] & Hr & Hacc).
    rewrite Hresolve in Hr. by injection Hr as <-. }
  right. exists r, targetDesc.
  destruct (Signer_Sign signer _ signOpts) as [[sig signerInfo]|err].
  2: { exists []. by split_and!. }
  destruct (generateAnnotations signerInfo _) as [[annotations [err|]]|].
  - exists []. by split_and!.
  - destruct (PushSignature r _ sig _ _); eexists [_]; by split_and!.
  - exists []. by split_and!.
Qed.

(** [SignLocalContent] up to the call of the signer. *)
Lemma SignLocalContent_cases artifactDescriptor signer localOpts :
  let userMetadata := LocalSignOptions.UserMetadata localOpts in
  let run := SignLocalContent artifactDescriptor signer localOpts in
  ((∃ err, run.1 = Return (emptyDescriptor, [], None, Some err)) ∧ run.2 = [] ∧
   ¬ (0 ≤ LocalSignOptions.ExpiryDuration localOpts ∧
      Z.rem (LocalSignOptions.ExpiryDuration localOpts) time_Second = 0 ∧
      ¬ rejected userMetadata (Annotations artifactDescriptor)))
  ∨ (¬ rejected userMetadata (Annotations artifactDescriptor) ∧
     run.2 = [CallSign (withAnnotations artifactDescriptor
                          (extended (Annotations artifactDescriptor) userMetadata))
                       (localSignOptions localOpts)]).
Proof.
  intros userMetadata run. unfold run, SignLocalContent. fold userMetadata.
  destruct (Z.ltb_spec (LocalSignOptions.ExpiryDuration localOpts) 0) as [Hneg|Hpos].
  { left. split_and!; [by eauto|done|]. intros (? & _). lia. }
  destruct (Z.eqb_spec (Z.rem (LocalSignOptions.ExpiryDuration localOpts) time_Second) 0)
    as [Hsec|Hsec]; simpl.
  2: { left. split_and!; [by eauto|done|]. by intros (_ & ? & _). }
  destruct (addUserMetadataToDescriptor_spec artifactDescriptor userMetadata)
    as [[Hrej (d & err & ->)]|[Hacc ->]].
  { left. split_and!; [by eauto|done|]. by intros (_ & _ & ?). }
  right. split; [done|]. fold (localSignOptions localOpts).
  destruct (Signer_Sign signer _ _) as [[sig signerInfo]|err]; [|done].
  by destruct (generateAnnotations signerInfo _) as [[annotations [err|]]|].
Qed.

(** C5.  When a key of the user metadata starts with [io.cncf.notary], or is
    a key of the annotations of the target descriptor already, [Sign] and
    [SignLocalContent] return an error, and the signer is not called and
    nothing is pushed.  Otherwise, as soon as the checks made before (expiry,
    reference, resolution) pass, the signer is called, once, with the target
    descriptor whose annotations are the former ones and the entries of the
    user metadata; and whenever the signer is called, it is with that
    descriptor. *)
Theorem Sign_user_metadata (signer : Signer) (repo : option Repository)
    (remoteOpts : RemoteSignOptions.t) (artifactDescriptor : Descriptor)
    (localOpts : LocalSignOptions.t) :
  let signOpts := RemoteSignOptions.SignOptions remoteOpts in
  let artifactRef := SignOptions.ArtifactReference signOpts in
  let userMetadata := RemoteSignOptions.UserMetadata remoteOpts in
  let run := Sign signer repo remoteOpts in
  let localMetadata := LocalSignOptions.UserMetadata localOpts in
  let localRun := SignLocalContent artifactDescriptor signer localOpts in
  (* Sign refuses *)
  ((∃ k, is_Some (userMetadata !! k) ∧ reserved k) ∨
   (∃ r targetDesc, repo = Some r ∧ Resolve r artifactRef = inl targetDesc ∧
                    rejected userMetadata (Annotations targetDesc)) →
   ∃ err, run.1 = Return (emptyDescriptor, Some err) ∧
          filter isSign run.2 = [] ∧ filter isPushSignature run.2 = [])
  (* Sign accepts *)
  ∧ (∀ ref r targetDesc,
       0 ≤ SignOptions.ExpiryDuration signOpts →
       Z.rem (SignOptions.ExpiryDuration signOpts) time_Second = 0 →
       ParseReference artifactRef = inl ref → ReferenceOrDigest ref ≠ "" →
       repo = Some r → Resolve r artifactRef = inl targetDesc →
       ¬ rejected userMetadata (Annotations targetDesc) →
       ∃ tr, run.2 = [CallResolve artifactRef;
                      CallSign (withAnnotations targetDesc
                                  (extended (Annotations targetDesc) userMetadata))
                               signOpts] ++ tr
             ∧ filter isSign tr = [])
  ∧ (∀ desc opts, CallSign desc opts ∈ run.2 →
       ∃ r targetDesc,
         repo = Some r ∧ Resolve r artifactRef = inl targetDesc ∧
         ¬ rejected userMetadata (Annotations targetDesc) ∧
         desc = withAnnotations targetDesc
                  (extended (Annotations targetDesc) userMetadata) ∧
         opts = signOpts)
  (* SignLocalContent refuses *)
  ∧ (rejected localMetadata (Annotations artifactDescriptor) →
     ∃ err, localRun.1 = Return (emptyDescriptor, [], None, Some err) ∧
            localRun.2 = [])
  (* SignLocalContent accepts *)
  ∧ (0 ≤ LocalSignOptions.ExpiryDuration localOpts →
     Z.rem (LocalSignOptions.ExpiryDuration localOpts) time_Second = 0 →
     ¬ rejected localMetadata (Annotations artifactDescriptor) →
     localRun.2 = [CallSign (withAnnotations artifactDescriptor
                     (extended (Annotations artifactDescriptor) localMetadata))
                     (localSignOptions localOpts)])
  ∧ (∀ desc opts, CallSign desc opts ∈ localRun.2 →
       ¬ rejected localMetadata (Annotations artifactDescriptor) ∧
       desc = withAnnotations artifactDescriptor
                (extended (Annotations artifactDescriptor) localMetadata) ∧
       opts = localSignOptions localOpts).
Proof.
  intros signOpts artifactRef userMetadata run localMetadata localRun.
  pose proof (Sign_cases signer repo remoteOpts) as Hsign.
  pose proof (SignLocalContent_cases artifactDescriptor signer localOpts) as Hlocal.
  cbv zeta in Hsign, Hlocal.
  fold signOpts artifactRef userMetadata run in Hsign.
  fold localMetadata localRun in Hlocal.
  split_and!.
  - intros Hrefused.
    destruct Hsign as [([err Herr] & Hnosign & Hnopush & _)
                      |(r & targetDesc & tr & -> & Hresolve & Hacc & _)];
      [by eauto|].
    destruct Hacc. destruct Hrefused as [(k & Hk & Hres)|(r' & d' & [= <-] & Hd' & Hrej)].
    + exists k. split; [done|by left].
    + rewrite Hresolve in Hd'. by injection Hd' as <-.
  - intros ref r targetDesc Hpos Hsec Hparse Href -> Hresolve Hacc.
    destruct Hsign as [(_ & _ & _ & Hnot)
                      |(r' & d' & tr & [= <-] & Hresolve' & _ & Htr & Hnosign)].
    + destruct Hnot. split_and!; [done..|]. by exists ref, r, targetDesc.
    + rewrite Hresolve in Hresolve'. injection Hresolve' as <-. by exists tr.
  - intros desc opts Hin.
    destruct Hsign as [(_ & Hnosign & _)
                      |(r & targetDesc & tr & -> & Hresolve & Hacc & Htr & Hnosign)].
    + assert (CallSign desc opts ∈ filter isSign run.2) as Hf
        by (by apply list_elem_of_filter).
      rewrite Hnosign in Hf. by apply elem_of_nil in Hf.
    + exists r, targetDesc. split_and!; [done..| |].
      all: rewrite Htr in Hin; apply elem_of_cons in Hin as [[=]|Hin];
        apply elem_of_cons in Hin as [[= -> ->]|Hin]; [done|];
        assert (CallSign desc opts ∈ filter isSign tr) as Hf
          by (by apply list_elem_of_filter);
        rewrite Hnosign in Hf; by apply elem_of_nil in Hf.
  - intros Hrej.
    destruct Hlocal as [([err Herr] & Htr & _)|[Hacc _]]; [by exists err|done].
  - intros Hpos Hsec Hacc. destruct Hlocal as [(_ & _ & Hnot)|[_ Htr]]; [|done].
    by destruct Hnot.
  - intros desc opts Hin.
    destruct Hlocal as [(_ & Htr & _)|[Hacc Htr]]; rewrite Htr in Hin.
    + by apply elem_of_nil in Hin.
    + by apply list_elem_of_singleton in Hin as [= -> ->].
Qed.

End user_metadata.

(** ** Sample values

    A library and a registry on which the properties are run. *)
Definition sampleLib : GoLib :=
  {| strconv_Quote := λ s, "'" +:+ s +:+ "'";
     declared_Error := λ err,
       match err with
       | ErrorSignatureRetrievalFailed Msg | ErrorVerificationFailed Msg
       | ErrorUserMetadataVerificationFailed Msg | ErrorPushSignatureFailed Msg
       | ErrorSignLocalContent Msg => Msg
       | _ => ""
       end;
     sha256_Sum256 := λ data, take 2 data;
     CheckSignatureFrom := λ cert parent,
       if bool_decide (RawIssuer cert = RawSubject parent) then None
       else Some (errorString "x509: invalid signature");
     ParseReference := λ s,
       if String.eqb s "" then inr (errorString "invalid reference")
       else inl {| Registry := "registry.io"; Repository := "foo";
                   ReferenceOrDigest := s |};
     range := map_to_list;
     range_Permutation := λ m, reflexivity (map_to_list m) |}.

Module registry_samples.
Import registry.

Definition envelopeDesc : Descriptor :=
  {| MediaType := "application/jose+json"; Digest := "sha256:e1"; Size := 3;
     Annotations := None |}.

Definition manifestDesc : Descriptor :=
  {| MediaType := MediaTypeImageManifest; Digest := "sha256:51"; Size := 700;
     Annotations := None |}.

Definition oversizedDesc : Descriptor :=
  {| MediaType := MediaTypeImageManifest; Digest := "sha256:52";
     Size := 4 * 1024 * 1024 + 1; Annotations := None |}.

Definition client : repositoryClient :=
  {| Manifests_FetchAll := λ desc, inl ["{"%byte; "}"%byte];
     Blobs_FetchAll := λ desc, inl ["s"%byte; "i"%byte; "g"%byte];
     Unmarshal_Artifact := λ _, inl {| Blobs := [] |};
     Unmarshal_Manifest := λ _, inl {| Layers := [envelopeDesc] |} |}.

End registry_samples.

Lemma FetchSignatureBlob_checks_witness :
  (∃ err, (@registry.FetchSignatureBlob sampleLib registry_samples.client
             registry_samples.oversizedDesc).1 = ([], emptyDescriptor, Some err) ∧
          filter registry.isFetchBlob
            (@registry.FetchSignatureBlob sampleLib registry_samples.client
               registry_samples.oversizedDesc).2 = []) ∧
  (@registry.FetchSignatureBlob sampleLib registry_samples.client registry_samples.manifestDesc).1
  = (["s"%byte; "i"%byte; "g"%byte], registry_samples.envelopeDesc, None).
Proof.
  split.
  - apply (@FetchSignatureBlob_checks sampleLib registry_samples.client registry_samples.oversizedDesc).
    left. reflexivity.
  - apply (@FetchSignatureBlob_checks sampleLib registry_samples.client registry_samples.manifestDesc).
    split; [|reflexivity].
    split_and!; [discriminate| |discriminate].
    exists ["{"%byte; "}"%byte]. split; [reflexivity|]. right.
    split; [reflexivity|]. by eexists.
Defined.

(** ** The loop of [Verify] over the signatures *)
Section verify_loop.
Context `{!GoLib}.
Import notation.
Context (verifier : Verifier) (repo : Repository)
        (remoteOpts : RemoteVerifyOptions.t) (artifactDescriptor : Descriptor).

Abbreviation Max := (RemoteVerifyOptions.MaxSignatureAttempts remoteOpts).
Abbreviation processSignatures :=
  (processSignatures verifier repo remoteOpts artifactDescriptor).
Abbreviation callback := (callback verifier repo remoteOpts artifactDescriptor).
Abbreviation errExceeded := (errExceededMaxVerificationLimit remoteOpts).

(** Once the limit is reached the loop is left at once. *)
Lemma processSignatures_break sigs st :
  Max ≤ numOfSignatureProcessed st → processSignatures sigs st = (None, st).
Proof.
  intros Hmax. destruct sigs as [|d sigs]; [done|]. simpl.
  by destruct (Z.leb_spec Max (numOfSignatureProcessed st)); [|lia].
Qed.

(** A page followed by more signatures: when the loop over the page is left
    without error, the loop over both goes on with what follows. *)
Lemma processSignatures_app page : ∀ sigs st,
  processSignatures (page ++ sigs) st =
  match processSignatures page st with
  | (Some err, st') => (Some err, st')
  | (None, st') => processSignatures sigs st'
  end.
Proof.
  induction page as [|d page IH]; intros sigs st; [done|].
  cbn [app notation.processSignatures].
  destruct (Z.leb_spec Max (numOfSignatureProcessed st)) as [Hmax|Hlt].
  { by rewrite processSignatures_break. }
  destruct (FetchSignatureBlob repo d) as [[sigBlob sigDesc]|err]; [|done].
  destruct (Verifier_Verify verifier _ _ _) as [[o|] [err|]];
    first [done | apply IH].
Qed.

(** The whole listing, as one loop over the signatures of all pages in the
    order of delivery. *)
Definition processListing (sigs : list Descriptor) (listErr : option error)
    (st : state) : option error * state :=
  match processSignatures sigs st with
  | (Some err, st') => (Some err, st')
  | (None, st') =>
    if Max <=? numOfSignatureProcessed st' then (Some errExceeded, st')
    else (listErr, st')
  end.

(** As long as the limit is not reached when the listing starts, handing the
    pages to the callback one by one gives what one loop over all signatures
    gives, followed by one test of the limit. *)
Lemma deliver_callback pages listErr : ∀ st,
  numOfSignatureProcessed st < Max →
  deliver callback pages listErr st = processListing (concat pages) listErr st.
Proof.
  unfold processListing.
  induction pages as [|page pages IH]; intros st Hlt; simpl.
  { by destruct (Z.leb_spec Max (numOfSignatureProcessed st)); [lia|]. }
  rewrite processSignatures_app. unfold notation.callback.
  destruct (processSignatures page st) as [[err|] st']; [done|].
  destruct (Z.leb_spec Max (numOfSignatureProcessed st')) as [Hmax|Hlt'].
  - rewrite processSignatures_break by done.
    by destruct (Z.leb_spec Max (numOfSignatureProcessed st')); [|lia].
  - by apply IH.
Qed.

(** The options that [Verify] hands to [SkipVerify] and, with the media type
    of the signature filled in, to the verifier. *)
Definition verifyOptions : VerifyOptions.t :=
  {| VerifyOptions.ArtifactReference := RemoteVerifyOptions.ArtifactReference remoteOpts;
     VerifyOptions.SignatureMediaType := "";
     VerifyOptions.PluginConfig := RemoteVerifyOptions.PluginConfig remoteOpts;
     VerifyOptions.UserMetadata := RemoteVerifyOptions.UserMetadata remoteOpts;
     VerifyOptions.TargetAtLocal := false;
     VerifyOptions.TrustPolicyScope := "" |}.

(** The blob of the signature manifest [d] is fetched and its verification
    fails, with the outcome [o]. *)
Definition fails (d : Descriptor) (o : VerificationOutcome.t) : Prop :=
  ∃ sigBlob sigDesc err,
    FetchSignatureBlob repo d = inl (sigBlob, sigDesc) ∧
    Verifier_Verify verifier artifactDescriptor sigBlob
      (withSignatureMediaType verifyOptions (MediaType sigDesc))
    = (Some o, Some err).

(** The blob of the signature manifest [d] is fetched and its verification
    succeeds, with the outcome [o]. *)
Definition verifies (d : Descriptor) (o : option VerificationOutcome.t) : Prop :=
  ∃ sigBlob sigDesc,
    FetchSignatureBlob repo d = inl (sigBlob, sigDesc) ∧
    Verifier_Verify verifier artifactDescriptor sigBlob
      (withSignatureMediaType verifyOptions (MediaType sigDesc))
    = (o, None).

(** The error that [Verify] keeps for the case that no signature verifies:
    the one of the last outcome that carries an
    [ErrorUserMetadataVerificationFailed], and [err] when there is none. *)
Definition aggregate (err : error) (outcomes : list VerificationOutcome.t) : error :=
  foldl (λ err o,
           if isErrorUserMetadataVerificationFailed (VerificationOutcome.Error o)
           then default err (VerificationOutcome.Error o) else err)
        err outcomes.

(** The options of a state are those of [Verify] up to the media type. *)
Definition optionsKept (st : state) : Prop :=
  ∃ mediaType, opts st = withSignatureMediaType verifyOptions mediaType.

Lemma fetched_app tr1 tr2 : fetched (tr1 ++ tr2) = fetched tr1 ++ fetched tr2.
Proof. apply omap_app. Qed.

(** Signatures that are fetched and fail are all gone through, as long as
    the limit allows. *)
Lemma processSignatures_fails sigs : ∀ outcomes st,
  optionsKept st → Forall2 fails sigs outcomes →
  numOfSignatureProcessed st + Z.of_nat (length sigs) ≤ Max →
  ∃ st', processSignatures sigs st = (None, st') ∧ optionsKept st' ∧
    verificationOutcomes st' = verificationOutcomes st ∧
    numOfSignatureProcessed st' = numOfSignatureProcessed st + Z.of_nat (length sigs) ∧
    verificationFailedErr st' = aggregate (verificationFailedErr st) outcomes ∧
    fetched (trace st') = fetched (trace st) ++ sigs ∧
    length (filter isVerify (trace st'))
    = (length (filter isVerify (trace st)) + length sigs)%nat.
Proof.
  induction sigs as [|d sigs IH]; intros outcomes st Hopts Hfails Hmax.
  { apply Forall2_nil_inv_l in Hfails as ->. exists st.
    rewrite app_nil_r. split_and!; [done..|simpl; lia|done|done|simpl; lia]. }
  apply Forall2_cons_inv_l in Hfails
    as (o & outcomes' & (sigBlob & sigDesc & err & Hfetch & Hverify) & Hfails & ->).
  cbn [notation.processSignatures length] in *.
  destruct (Z.leb_spec Max (numOfSignatureProcessed st)); [lia|].
  rewrite Hfetch. cbn [opts]. destruct Hopts as [mediaType ->].
  change (withSignatureMediaType (withSignatureMediaType verifyOptions mediaType)
            (MediaType sigDesc))
    with (withSignatureMediaType verifyOptions (MediaType sigDesc)).
  rewrite Hverify.
  match goal with
  | |- ∃ _, notation.processSignatures _ _ _ _ _ ?st1 = _ ∧ _ =>
      destruct (IH outcomes' st1) as (st' & -> & ? & Hout & Hnum & Herr & Htr & Hver)
  end.
  - destruct (isErrorUserMetadataVerificationFailed _); by eexists.
  - done.
  - destruct (isErrorUserMetadataVerificationFailed _); simpl; lia.
  - exists st'. split_and!; [done|done|..].
    + rewrite Hout. by destruct (isErrorUserMetadataVerificationFailed _).
    + rewrite Hnum. destruct (isErrorUserMetadataVerificationFailed _); simpl; lia.
    + rewrite Herr. simpl.
      by destruct (isErrorUserMetadataVerificationFailed _).
    + rewrite Htr.
      destruct (isErrorUserMetadataVerificationFailed _); simpl;
        rewrite !fetched_app; simpl; by rewrite <-!app_assoc.
    + rewrite Hver.
      destruct (isErrorUserMetadataVerificationFailed _); simpl;
        rewrite !filter_app, !length_app; simpl; lia.
Qed.

(** The first signature that verifies ends the loop. *)
Lemma processSignatures_verifies pre s o post outcomes st :
  optionsKept st → Forall2 fails pre outcomes → verifies s o →
  numOfSignatureProcessed st + Z.of_nat (length pre) < Max →
  ∃ st', processSignatures (pre ++ s :: post) st = (Some errDoneVerification, st') ∧
    verificationOutcomes st' = verificationOutcomes st ++ [o] ∧
    numOfSignatureProcessed st' = numOfSignatureProcessed st + Z.of_nat (length pre) + 1 ∧
    fetched (trace st') = fetched (trace st) ++ pre ++ [s].
Proof.
  intros Hopts Hfails (sigBlob & sigDesc & Hfetch & Hverify) Hmax.
  destruct (processSignatures_fails pre outcomes st)
    as (st1 & Hrun & [mediaType Hopts1] & Hout & Hnum & _ & Htr & _);
    [done|done|lia|].
  rewrite processSignatures_app, Hrun. cbn [notation.processSignatures].
  destruct (Z.leb_spec Max (numOfSignatureProcessed st1)); [lia|].
  rewrite Hfetch. cbn [opts]. rewrite Hopts1.
  change (withSignatureMediaType (withSignatureMediaType verifyOptions mediaType)
            (MediaType sigDesc))
    with (withSignatureMediaType verifyOptions (MediaType sigDesc)).
  rewrite Hverify. eexists. split; [done|]. cbn.
  rewrite Hout, Hnum, !fetched_app, Htr. simpl.
  by rewrite app_nil_r, <-app_assoc.
Qed.

(** Whatever the registry and the verifier answer, the loop fetches the
    signatures it is given in order, counts each one it fetches, never goes
    beyond the limit, and asks the verifier at most once per fetch. *)
Lemma processSignatures_counts sigs : ∀ st,
  ∃ n : nat, (n ≤ length sigs)%nat ∧
    let st' := (processSignatures sigs st).2 in
    fetched (trace st') = fetched (trace st) ++ take n sigs ∧
    numOfSignatureProcessed st' = numOfSignatureProcessed st + Z.of_nat n ∧
    (numOfSignatureProcessed st ≤ Max → numOfSignatureProcessed st' ≤ Max) ∧
    (length (filter isVerify (trace st'))
     ≤ length (filter isVerify (trace st)) + n)%nat ∧
    filter isResolve (trace st') = filter isResolve (trace st) ∧
    filter isListSignatures (trace st') = filter isListSignatures (trace st).
Proof.
  induction sigs as [|d sigs IH]; intros st.
  { exists 0%nat. simpl. rewrite app_nil_r. split_and!; [done..|lia|lia|lia|done|done]. }
  cbn [notation.processSignatures].
  destruct (Z.leb_spec Max (numOfSignatureProcessed st)) as [Hmax|Hlt].
  { exists 0%nat. simpl. rewrite app_nil_r. split_and!; [lia|done|lia|lia|lia|done|done]. }
  destruct (FetchSignatureBlob repo d) as [[sigBlob sigDesc]|err].
  2: { exists 1%nat. simpl. rewrite fetched_app, !filter_app. simpl.
       rewrite !app_nil_r. split_and!; [lia|done|lia|lia|lia|done|done]. }
  destruct (Verifier_Verify verifier _ _ _) as [[o|] [err|]].
  2-4: exists 1%nat; simpl; rewrite !fetched_app, !filter_app; simpl;
       rewrite !app_nil_r, ?length_app; simpl;
       split_and!; [lia|done|lia|lia|lia|done|done].
  match goal with
  | |- context [notation.processSignatures _ _ _ _ sigs ?st1] =>
      destruct (IH st1) as (n & Hn & Htr & Hnum & Hmax & Hver & Hres & Hlist)
  end.
  exists (S n). cbn zeta in *. split; [simpl; lia|].
  rewrite Htr, Hnum, Hres, Hlist.
  destruct (isErrorUserMetadataVerificationFailed _); simpl in *;
    rewrite !fetched_app, !filter_app in *; simpl in *;
    rewrite !app_nil_r, ?length_app in *; simpl in *;
    (split_and!; [by rewrite <-app_assoc|lia|lia|lia|done|done]).
Qed.

(** [Verify] gets as far as listing the signatures of [artifactDescriptor]:
    the repository is remote, verification is not skipped, the limit is
    positive and the reference is resolved to [artifactDescriptor]. *)
Definition listingStarts : Prop :=
  isRemote repo = true ∧
  (SkipVerify verifier = None ∨
   ∃ skipChecker level, SkipVerify verifier = Some skipChecker ∧
                        skipChecker verifyOptions = (false, level, None)) ∧
  0 < Max ∧
  ∃ ref, ParseReference (RemoteVerifyOptions.ArtifactReference remoteOpts) = inl ref ∧
         ReferenceOrDigest ref ≠ "" ∧
         Resolve repo (RemoteVerifyOptions.ArtifactReference remoteOpts)
         = inl artifactDescriptor.

(** The state in which the listing starts, [tr] being the calls made
    before. *)
Definition initial (tr : list event) : state :=
  {| opts := verifyOptions; verificationOutcomes := [];
     numOfSignatureProcessed := 0;
     verificationFailedErr := ErrorVerificationFailed "";
     trace := tr ++ [CallListSignatures artifactDescriptor] |}.

(** What [Verify] returns once [ListSignatures] has returned [r.1] and left
    the state [r.2]. *)
Definition conclude (r : option error * state)
    : (Descriptor * list (option VerificationOutcome.t) * option error)
      * list event :=
  let '(err, st) := r in
  if match err with
     | Some err => negb (errors_Is err errDoneVerification)
     | None => false
     end
  then
    if match err with
       | Some err => errors_Is err errExceeded
       | None => false
       end
    then ((emptyDescriptor, verificationOutcomes st, err), trace st)
    else ((emptyDescriptor, [], err), trace st)
  else if numOfSignatureProcessed st =? 0 then
    ((emptyDescriptor, [],
      Some (ErrorSignatureRetrievalFailed
        ("no signature is associated with "
         +:+ strconv_Quote (RemoteVerifyOptions.ArtifactReference remoteOpts)
         +:+ ", make sure the image was signed successfully"))), trace st)
  else if (length (verificationOutcomes st) =? 0)%nat then
    ((emptyDescriptor, verificationOutcomes st,
      Some (verificationFailedErr st)), trace st)
  else
    ((artifactDescriptor, verificationOutcomes st, None), trace st).

Lemma optionsKept_initial tr : optionsKept (initial tr).
Proof. by exists "". Qed.

Lemma Verify_listing pages listErr :
  listingStarts → Referrers repo artifactDescriptor = (pages, listErr) →
  ∃ tr, Forall (λ e, isFetch e = false ∧ isVerify e = false) tr ∧
    Verify verifier repo remoteOpts
    = conclude (processListing (concat pages) listErr (initial tr)).
Proof.
  intros (Hremote & Hskip & Hmax & ref & Hparse & Href & Hresolve) Hpages.
  unfold Verify. fold verifyOptions. rewrite Hremote. simpl.
  assert (∀ tr, Forall (λ e, isFetch e = false ∧ isVerify e = false) tr →
    ∃ tr', Forall (λ e, isFetch e = false ∧ isVerify e = false) tr' ∧
      verifySignatures verifier repo remoteOpts verifyOptions tr
      = conclude (processListing (concat pages) listErr (initial tr'))) as Hrest.
  { intros tr Htr. exists (tr ++ [CallResolve
      (RemoteVerifyOptions.ArtifactReference remoteOpts)]).
    split; [apply Forall_app; split; [done|by repeat constructor]|].
    unfold verifySignatures.
    destruct (Z.leb_spec Max 0); [lia|].
    rewrite Hparse. destruct (String.eqb_spec (ReferenceOrDigest ref) ""); [done|].
    rewrite Hresolve. unfold ListSignatures. rewrite Hpages.
    rewrite deliver_callback by (simpl; lia). fold (initial
      (tr ++ [CallResolve (RemoteVerifyOptions.ArtifactReference remoteOpts)])).
    unfold conclude. by destruct (processListing _ _ _) as [[?|] ?]. }
  destruct Hskip as [->|(skipChecker & level & -> & ->)].
  - by apply Hrest.
  - apply Hrest. by repeat constructor.
Qed.

Lemma errors_Is_exceeded_done :
  errors_Is errExceeded errDoneVerification = false.
Proof.
  unfold errExceededMaxVerificationLimit. cbn [errors_Is].
  rewrite orb_false_r. apply bool_decide_eq_false_2. discriminate.
Qed.

Lemma errors_Is_exceeded : errors_Is errExceeded errExceeded = true.
Proof.
  unfold errExceededMaxVerificationLimit. cbn [errors_Is].
  rewrite orb_false_r. apply bool_decide_eq_true_2. reflexivity.
Qed.

Lemma fetched_none tr :
  Forall (λ e, isFetch e = false ∧ isVerify e = false) tr →
  fetched (tr ++ [CallListSignatures artifactDescriptor]) = [].
Proof.
  intros Htr. rewrite fetched_app. simpl. rewrite app_nil_r.
  induction Htr as [|e tr [He _] _ IH]; [done|].
  unfold fetched in *. simpl. by destruct e.
Qed.

Lemma aggregate_spec err outcomes :
  (Forall (λ o, isErrorUserMetadataVerificationFailed
                  (VerificationOutcome.Error o) = false) outcomes →
   aggregate err outcomes = err)
  ∧ (Exists (λ o, isErrorUserMetadataVerificationFailed
                    (VerificationOutcome.Error o) = true) outcomes →
     ∃ o Msg, o ∈ outcomes ∧
       VerificationOutcome.Error o = Some (aggregate err outcomes) ∧
       aggregate err outcomes = ErrorUserMetadataVerificationFailed Msg).
Proof.
  unfold aggregate. revert err.
  induction outcomes as [|o outcomes IH] using rev_ind; intros err.
  { split; [done|]. by intros ?%Exists_nil. }
  rewrite foldl_app. simpl. split.
  - intros [Hall Ho]%Forall_app. apply (proj1 (Forall_singleton _ _)) in Ho.
    simpl in Ho. rewrite Ho. by apply IH.
  - intros Hex.
    destruct (isErrorUserMetadataVerificationFailed (VerificationOutcome.Error o))
      eqn:Ho.
    + destruct (VerificationOutcome.Error o) as [[]|] eqn:He; try done.
      eexists o, _. simpl. split_and!; [|done..].
      apply elem_of_app. right. by apply list_elem_of_singleton.
    + apply Exists_app in Hex as [Hex|Hex];
        [|apply Exists_cons in Hex as [Hex|Hex%Exists_nil]; [congruence|done]].
      destruct (proj2 (IH err) Hex) as (o' & Msg & Hin & He & Hagg).
      exists o', Msg. split_and!; [|done..]. apply elem_of_app. by left.
Qed.

(** X6.  The signature that verifies first, within the limit, ends the listing:
    the signatures before it and itself are fetched, in order, nothing after
    it, and [Verify] returns the resolved descriptor and the one outcome. *)
Theorem Verify_first_success pages listErr pre s post outcomes o :
  listingStarts → Referrers repo artifactDescriptor = (pages, listErr) →
  concat pages = pre ++ s :: post →
  Forall2 fails pre outcomes → verifies s o →
  Z.of_nat (length pre) < Max →
  (Verify verifier repo remoteOpts).1 = (artifactDescriptor, [o], None) ∧
  fetched (Verify verifier repo remoteOpts).2 = pre ++ [s].
Proof.
  intros Hstart Hpages Hconcat Hfails Hverifies Hmax.
  destruct (Verify_listing pages listErr) as (tr & Htr & ->); [done..|].
  destruct (processSignatures_verifies pre s o post outcomes (initial tr))
    as (st' & Hrun & Hout & Hnum & Hfetch);
    [apply optionsKept_initial|done|done|simpl; lia|].
  unfold processListing. rewrite Hconcat, Hrun. unfold conclude.
  change (errors_Is errDoneVerification errDoneVerification) with true.
  cbn [negb]. simpl in Hnum, Hout, Hfetch.
  destruct (Z.eqb_spec (numOfSignatureProcessed st') 0); [lia|].
  rewrite Hout. simpl. by rewrite Hfetch, fetched_none.
Qed.

(** X7.  When as many signatures as the limit allows are fetched and fail, the
    error is the one of the limit, whatever the listing holds beyond them
    and however it ends. *)
Theorem Verify_limit_reached pages listErr pre post outcomes :
  listingStarts → Referrers repo artifactDescriptor = (pages, listErr) →
  concat pages = pre ++ post →
  Forall2 fails pre outcomes → Z.of_nat (length pre) = Max →
  (Verify verifier repo remoteOpts).1 = (emptyDescriptor, [], Some errExceeded) ∧
  fetched (Verify verifier repo remoteOpts).2 = pre.
Proof.
  intros Hstart Hpages Hconcat Hfails Hmax.
  destruct (Verify_listing pages listErr) as (tr & Htr & ->); [done..|].
  destruct (processSignatures_fails pre outcomes (initial tr))
    as (st' & Hrun & _ & Hout & Hnum & _ & Hfetch & _);
    [apply optionsKept_initial|done|simpl; lia|].
  simpl in Hnum, Hout, Hfetch.
  unfold processListing. rewrite Hconcat, processSignatures_app, Hrun.
  rewrite processSignatures_break by lia.
  destruct (Z.leb_spec Max (numOfSignatureProcessed st')); [|lia].
  unfold conclude. rewrite errors_Is_exceeded_done, errors_Is_exceeded.
  cbn [negb]. rewrite Hout. simpl. by rewrite Hfetch, fetched_none.
Qed.

(** X8.  When the listing ends well, below the limit, and every signature is
    fetched and fails, all of them are gone through; the error is the one
    kept from the outcomes, or the one that tells that there is no signature
    when the listing is empty. *)
Theorem Verify_none_verifies pages outcomes :
  listingStarts → Referrers repo artifactDescriptor = (pages, None) →
  Forall2 fails (concat pages) outcomes →
  Z.of_nat (length (concat pages)) < Max →
  (Verify verifier repo remoteOpts).1
  = (emptyDescriptor, [],
     Some (match concat pages with
           | [] => ErrorSignatureRetrievalFailed
               ("no signature is associated with "
                +:+ strconv_Quote (RemoteVerifyOptions.ArtifactReference remoteOpts)
                +:+ ", make sure the image was signed successfully")
           | _ => aggregate (ErrorVerificationFailed "") outcomes
           end)) ∧
  fetched (Verify verifier repo remoteOpts).2 = concat pages.
Proof.
  intros Hstart Hpages Hfails Hmax.
  destruct (Verify_listing pages None) as (tr & Htr & ->); [done..|].
  destruct (processSignatures_fails (concat pages) outcomes (initial tr))
    as (st' & Hrun & _ & Hout & Hnum & Herr & Hfetch & _);
    [apply optionsKept_initial|done|simpl; lia|].
  simpl in Hnum, Hout, Hfetch, Herr.
  unfold processListing. rewrite Hrun.
  destruct (Z.leb_spec Max (numOfSignatureProcessed st')); [lia|].
  unfold conclude.
  destruct (concat pages) as [|d sigs] eqn:Hsigs.
  - destruct (Z.eqb_spec (numOfSignatureProcessed st') 0); [|simpl in *; lia].
    simpl. by rewrite Hfetch, fetched_none.
  - destruct (Z.eqb_spec (numOfSignatureProcessed st') 0); [simpl in *; lia|].
    rewrite Hout. simpl. by rewrite Hfetch, fetched_none, Herr.
Qed.

(** X9.  A signature whose blob cannot be fetched ends the verification with an
    error of retrieval: the verifier is not asked about it, and no later
    signature is fetched. *)
Theorem Verify_fetch_fails pages listErr pre s post outcomes err :
  listingStarts → Referrers repo artifactDescriptor = (pages, listErr) →
  concat pages = pre ++ s :: post →
  Forall2 fails pre outcomes → FetchSignatureBlob repo s = inr err →
  Z.of_nat (length pre) < Max →
  (Verify verifier repo remoteOpts).1
  = (emptyDescriptor, [],
     Some (ErrorSignatureRetrievalFailed
       ("unable to retrieve digital signature with digest "
        +:+ strconv_Quote (Digest s) +:+ " associated with "
        +:+ strconv_Quote (RemoteVerifyOptions.ArtifactReference remoteOpts)
        +:+ " from the registry, error : " +:+ Error err))) ∧
  fetched (Verify verifier repo remoteOpts).2 = pre ++ [s] ∧
  length (filter isVerify (Verify verifier repo remoteOpts).2) = length pre.
Proof.
  intros Hstart Hpages Hconcat Hfails Hfetch Hmax.
  destruct (Verify_listing pages listErr) as (tr & Htr & ->); [done..|].
  destruct (processSignatures_fails pre outcomes (initial tr))
    as (st' & Hrun & _ & Hout & Hnum & _ & Hfetched & Hver);
    [apply optionsKept_initial|done|simpl; lia|].
  simpl in Hnum, Hout, Hfetched, Hver.
  unfold processListing. rewrite Hconcat, processSignatures_app, Hrun.
  cbn [notation.processSignatures].
  destruct (Z.leb_spec Max (numOfSignatureProcessed st')); [lia|].
  rewrite Hfetch. unfold conclude. cbn [errors_Is negb].
  rewrite !orb_false_r.
  rewrite (bool_decide_eq_false_2 (_ = errDoneVerification)) by discriminate.
  rewrite (bool_decide_eq_false_2 (_ = errExceeded)) by discriminate.
  cbn. rewrite fetched_app, Hfetched, (fetched_none _ Htr), filter_app, length_app, Hver.
  split_and!; [done|done|].
  rewrite filter_app, length_app. simpl.
  assert (filter isVerify tr = []) as ->; [|simpl; lia].
  clear -Htr. induction Htr as [|e tr [_ He] _ IH]; [done|].
  rewrite filter_cons, He. done.
Qed.

(** The outcomes grow by the outcome of a verification that succeeds, which
    is then the last call; otherwise they stay. *)
Lemma processSignatures_outcomes sigs : ∀ st,
  let r := processSignatures sigs st in
  verificationOutcomes r.2 = verificationOutcomes st ∨
  (r.1 = Some errDoneVerification ∧
   ∃ o sigBlob vopts tr,
     verificationOutcomes r.2 = verificationOutcomes st ++ [o] ∧
     trace r.2 = tr ++ [CallVerify artifactDescriptor sigBlob vopts] ∧
     Verifier_Verify verifier artifactDescriptor sigBlob vopts = (o, None)).
Proof.
  induction sigs as [|d sigs IH]; intros st; cbv zeta; [by left|].
  cbn [notation.processSignatures].
  destruct (Z.leb_spec Max (numOfSignatureProcessed st)); [by left|].
  destruct (FetchSignatureBlob repo d) as [[sigBlob sigDesc]|err]; [|by left].
  destruct (Verifier_Verify verifier _ _ _) as [[o|] [err|]] eqn:Hverify.
  2-4: try (by left); right; (split; [done|]); by eexists _, _, _, _.
  match goal with
  | |- context [notation.processSignatures _ _ _ _ sigs ?st1] =>
      destruct (IH st1) as [Hsame|Hgrown]
  end.
  - left. rewrite Hsame. by destruct (isErrorUserMetadataVerificationFailed _).
  - right. destruct Hgrown as (Hdone & o' & blob & vopts & tr & Hout & Htr & Hv).
    split; [done|]. exists o', blob, vopts, tr. split_and!; [|done..].
    rewrite Hout. by destruct (isErrorUserMetadataVerificationFailed _).
Qed.

Lemma conclude_trace r : (conclude r).2 = trace r.2.
Proof. destruct r as [[err|] st]; unfold conclude; by repeat case_match. Qed.

Lemma conclude_success r d outcomes :
  (conclude r).1 = (d, outcomes, None) →
  d = artifactDescriptor ∧ outcomes = verificationOutcomes r.2 ∧
  verificationOutcomes r.2 ≠ [].
Proof.
  destruct r as [err st]. unfold conclude.
  repeat case_match; simpl; try done;
    intros [= <- <-]; (split_and!; [done..|]);
    intros Hnil; by rewrite Hnil in *.
Qed.

Lemma processListing_state sigs listErr st :
  (processListing sigs listErr st).2 = (processSignatures sigs st).2.
Proof. unfold processListing. by repeat case_match. Qed.

End verify_loop.

(** ** [Verify] as a whole *)
Section verify_whole.
Context `{!GoLib}.
Import notation.
Context (verifier : Verifier) (repo : Repository)
        (remoteOpts : RemoteVerifyOptions.t).

Abbreviation Max := (RemoteVerifyOptions.MaxSignatureAttempts remoteOpts).
Abbreviation artifactRef := (RemoteVerifyOptions.ArtifactReference remoteOpts).
Abbreviation run := (Verify verifier repo remoteOpts).

(** The outcome that tells that verification was skipped. *)
Definition skipped (level : option VerificationLevel)
    : option VerificationOutcome.t :=
  Some {| VerificationOutcome.RawSignature := [];
          VerificationOutcome.EnvelopeContent := None;
          VerificationOutcome.VerificationLevel := level;
          VerificationOutcome.VerificationResults := [];
          VerificationOutcome.Error := None |}.

(** [Verify] either returns before the listing, and then it has fetched
    and verified nothing, or it lists the signatures of the descriptor that
    [Resolve] gave. *)
Lemma Verify_cases :
  (Forall (λ e, isFetch e = false ∧ isVerify e = false ∧
                isListSignatures e = false) run.2 ∧
   (run.1.2 = None → ∃ level, run.1 = (emptyDescriptor, [skipped level], None)))
  ∨ ∃ artifactDescriptor,
      listingStarts verifier repo remoteOpts artifactDescriptor.
Proof.
  unfold Verify.
  destruct (isRemote repo) eqn:Hremote; simpl;
    [|left; split; [by constructor|done]].
  fold (verifyOptions remoteOpts).
  assert (∀ tr, Forall (λ e, isFetch e = false ∧ isVerify e = false ∧
                             isListSignatures e = false) tr →
    let r := verifySignatures verifier repo remoteOpts (verifyOptions remoteOpts) tr in
    (Forall (λ e, isFetch e = false ∧ isVerify e = false ∧
                  isListSignatures e = false) r.2 ∧ is_Some r.1.2)
    ∨ (0 < Max ∧ ∃ ref d, ParseReference artifactRef = inl ref ∧
         ReferenceOrDigest ref ≠ "" ∧ Resolve repo artifactRef = inl d)) as Hrest.
  { intros tr Htr. unfold verifySignatures.
    destruct (Z.leb_spec Max 0); [left; split; [done|by eexists]|].
    destruct (ParseReference artifactRef) as [ref|err];
      [|left; split; [done|by eexists]].
    destruct (String.eqb_spec (ReferenceOrDigest ref) "");
      [left; split; [done|by eexists]|].
    destruct (Resolve repo artifactRef) as [d|err] eqn:Hresolve.
    - right. split; [done|]. by exists ref, d.
    - left. split; [|by eexists]. apply Forall_app. split; [done|].
      by repeat constructor. }
  destruct (SkipVerify verifier) as [skipChecker|] eqn:Hskip.
  - destruct (skipChecker (verifyOptions remoteOpts)) as [[[] level] [err|]] eqn:Hs.
    + left. split; [by repeat constructor|done].
    + left. split; [by repeat constructor|]. intros _. by exists level.
    + left. split; [by repeat constructor|done].
    + destruct (Hrest [CallSkipVerify (verifyOptions remoteOpts)])
        as [[Htr [e He]]|(Hmax & ref & d & Hparse & Href & Hresolve)];
        [by repeat constructor| |].
      * left. split; [done|]. intros Hnil. by rewrite Hnil in He.
      * right. exists d. split_and!; [done| |done|by exists ref].
        right. by exists skipChecker, level.
  - destruct (Hrest []) as [[Htr [e He]]|(Hmax & ref & d & Hparse & Href & Hresolve)];
      [by constructor| |].
    + left. split; [done|]. intros Hnil. by rewrite Hnil in He.
    + right. exists d. split_and!; [done|by left|done|by exists ref].
Qed.

Lemma fetched_nil tr :
  Forall (λ e, isFetch e = false ∧ isVerify e = false ∧
               isListSignatures e = false) tr →
  fetched tr = [] ∧ filter isVerify tr = [].
Proof.
  induction 1 as [|e tr (Hf & Hv & _) _ [IHf IHv]]; [done|].
  rewrite filter_cons, Hv. split; [|done].
  unfold fetched in *. simpl. by destruct e.
Qed.

(** X2.  [Verify] fetches at most [MaxSignatureAttempts] signature blobs, asks
    the verifier at most once for each blob it fetched, and the manifests it
    fetches are the first ones of the listing, in the order of delivery. *)
Theorem Verify_attempts_bounded :
  Z.of_nat (length (fetched run.2)) ≤ Z.max 0 Max ∧
  (length (filter isVerify run.2) ≤ length (fetched run.2))%nat ∧
  (∀ artifactDescriptor,
     Resolve repo artifactRef = inl artifactDescriptor →
     fetched run.2 `prefix_of` concat (Referrers repo artifactDescriptor).1).
Proof.
  destruct Verify_cases as [[Htr _]|[d Hstart]].
  { apply fetched_nil in Htr as [-> ->]. simpl.
    split_and!; [lia|done|]. intros. apply prefix_nil. }
  destruct (Referrers repo d) as [pages listErr] eqn:Hpages.
  destruct (Verify_listing verifier repo remoteOpts d pages listErr)
    as (tr & Htr & ->); [done..|].
  destruct (processSignatures_counts verifier repo remoteOpts d (concat pages)
              (initial remoteOpts d tr))
    as (n & Hn & Hfetched & Hnum & Hmax & Hver & _).
  cbv zeta in *.
  simpl in Hfetched.
  rewrite conclude_trace, processListing_state, Hfetched, (fetched_none _ _ Htr).
  simpl.
  destruct Hstart as (_ & _ & Hpos & ref & _ & _ & Hresolve).
  simpl in Hnum, Hmax, Hver. rewrite length_take.
  assert (filter isVerify tr = []) as Hnover.
  { clear -Htr. induction Htr as [|e tr [_ He] _ IH]; [done|].
    by rewrite filter_cons, He. }
  rewrite filter_app, length_app, Hnover in Hver. simpl in Hver.
  split_and!; [lia|lia|].
  intros d' Hd'. rewrite Hresolve in Hd'. injection Hd' as <-.
  rewrite Hpages. apply prefix_take.
Qed.

(** X3.  When [SkipVerify] tells to skip, [Verify] returns at once the outcome
    that holds the verification level and nothing else, with the empty
    descriptor and no error; it has called nothing but [SkipVerify], and it
    has not looked at [MaxSignatureAttempts]. *)
Theorem Verify_skip skipChecker level :
  isRemote repo = true → SkipVerify verifier = Some skipChecker →
  skipChecker (verifyOptions remoteOpts) = (true, level, None) →
  run = ((emptyDescriptor, [skipped level], None),
         [CallSkipVerify (verifyOptions remoteOpts)]).
Proof.
  intros Hremote Hskip Hs. unfold Verify. rewrite Hremote, Hskip. simpl.
  fold (verifyOptions remoteOpts). by rewrite Hs.
Qed.

(** X4.  [Verify] refuses a repository that is not remote, an error of
    [SkipVerify], and a limit that is not positive, before it calls the
    registry: nothing is resolved, listed or fetched. *)
Theorem Verify_rejects_early :
  (isRemote repo = false →
   run = ((emptyDescriptor, [],
           Some (errorString "failed to verify: repo must be remote repository")),
          []))
  ∧ (∀ skipChecker skip level err,
       isRemote repo = true → SkipVerify verifier = Some skipChecker →
       skipChecker (verifyOptions remoteOpts) = (skip, level, Some err) →
       run = ((emptyDescriptor, [], Some err),
              [CallSkipVerify (verifyOptions remoteOpts)]))
  ∧ (isRemote repo = true → Max ≤ 0 →
     (∀ skipChecker, SkipVerify verifier = Some skipChecker →
        ∃ level, skipChecker (verifyOptions remoteOpts) = (false, level, None)) →
     run.1 = (emptyDescriptor, [],
              Some (ErrorSignatureRetrievalFailed
                ("verifyOptions.MaxSignatureAttempts expects a positive number, got "
                 +:+ pretty Max))) ∧
     filter isResolve run.2 = [] ∧ filter isListSignatures run.2 = [] ∧
     fetched run.2 = []).
Proof.
  split_and!.
  - intros Hremote. unfold Verify. by rewrite Hremote.
  - intros skipChecker skip level err Hremote Hskip Hs.
    unfold Verify. rewrite Hremote, Hskip. simpl.
    fold (verifyOptions remoteOpts). rewrite Hs. by destruct skip.
  - intros Hremote Hmax Hnoskip. unfold Verify. rewrite Hremote. simpl.
    fold (verifyOptions remoteOpts). unfold verifySignatures.
    destruct (SkipVerify verifier) as [skipChecker|].
    + destruct (Hnoskip skipChecker eq_refl) as [level ->].
      destruct (Z.leb_spec Max 0); [|lia]. by split_and!.
    + destruct (Z.leb_spec Max 0); [|lia]. by split_and!.
Qed.

(** X5.  When [Verify] returns no error, either verification was skipped, or it
    returns the descriptor that [Resolve] gave and exactly one outcome: the
    one of a call of the verifier that returned no error, which is the last
    call that [Verify] made. *)
Theorem Verify_success_shape artifactDescriptor outcomes :
  run.1 = (artifactDescriptor, outcomes, None) →
  (∃ level, artifactDescriptor = emptyDescriptor ∧ outcomes = [skipped level])
  ∨ (Resolve repo artifactRef = inl artifactDescriptor ∧
     ∃ o sigBlob vopts tr,
       outcomes = [o] ∧
       run.2 = tr ++ [CallVerify artifactDescriptor sigBlob vopts] ∧
       Verifier_Verify verifier artifactDescriptor sigBlob vopts = (o, None)).
Proof.
  intros Hrun.
  destruct Verify_cases as [[_ Hskip]|[d Hstart]].
  { left. destruct Hskip as [level Hlevel]; [by rewrite Hrun|].
    rewrite Hrun in Hlevel. injection Hlevel as -> ->. by exists level. }
  right.
  destruct (Referrers repo d) as [pages listErr] eqn:Hpages.
  destruct (Verify_listing verifier repo remoteOpts d pages listErr)
    as (tr & Htr & Hverify); [done..|].
  rewrite Hverify in Hrun |- *. clear Hverify.
  apply conclude_success in Hrun as (Hd & -> & Hne). subst d.
  rewrite conclude_trace, processListing_state in *.
  destruct Hstart as (_ & _ & _ & ref & _ & _ & Hresolve).
  split; [done|].
  destruct (processSignatures_outcomes verifier repo remoteOpts artifactDescriptor
              (concat pages) (initial remoteOpts artifactDescriptor tr))
    as [Hsame|(_ & o & blob & vopts & tr' & Hgrown & Htrace & Hv)].
  { by rewrite Hsame in Hne. }
  exists o, blob, vopts, tr'. by rewrite Hgrown.
Qed.

End verify_whole.

(** ** Pages *)
Section verify_paging.
Context `{!GoLib}.
Import notation.
Context (verifier : Verifier) (remoteOpts : RemoteVerifyOptions.t).

(** The loop uses the repository to fetch blobs only. *)
Lemma processSignatures_repo repo repo' d sigs : ∀ st,
  (∀ m, FetchSignatureBlob repo m = FetchSignatureBlob repo' m) →
  processSignatures verifier repo remoteOpts d sigs st
  = processSignatures verifier repo' remoteOpts d sigs st.
Proof.
  intros st Hfetch. revert st.
  induction sigs as [|m sigs IH]; intros st; [done|].
  cbn [processSignatures]. rewrite <-Hfetch.
  destruct (_ <=? _); [done|].
  destruct (FetchSignatureBlob repo m) as [[sigBlob sigDesc]|err]; [|done].
  destruct (Verifier_Verify verifier _ _ _) as [[o|] [err|]];
    first [done | apply IH].
Qed.

(** X1.  The pages do not matter.  Two repositories that resolve references
    and fetch blobs alike, and whose listings hold the same signatures in
    the same order and end alike, give the same result and the same calls,
    however the signatures are spread over pages. *)
Theorem Verify_paging_irrelevant (repo repo' : Repository) :
  isRemote repo = isRemote repo' →
  (∀ reference, Resolve repo reference = Resolve repo' reference) →
  (∀ m, FetchSignatureBlob repo m = FetchSignatureBlob repo' m) →
  (∀ d, concat (Referrers repo d).1 = concat (Referrers repo' d).1 ∧
        (Referrers repo d).2 = (Referrers repo' d).2) →
  Verify verifier repo remoteOpts = Verify verifier repo' remoteOpts.
Proof.
  intros Hremote Hresolve Hfetch Hlisting.
  assert (∀ vopts tr, verifySignatures verifier repo remoteOpts vopts tr
                      = verifySignatures verifier repo' remoteOpts vopts tr) as Hrest.
  { intros vopts tr. unfold verifySignatures. rewrite <-Hresolve.
    destruct (Z.leb_spec (RemoteVerifyOptions.MaxSignatureAttempts remoteOpts) 0);
      [done|].
    destruct (ParseReference _) as [ref|]; [|done].
    destruct (String.eqb _ _); [done|].
    destruct (Resolve repo _) as [d|]; [|done].
    unfold ListSignatures. specialize (Hlisting d).
    destruct (Referrers repo d) as [pages listErr],
             (Referrers repo' d) as [pages' listErr'].
    simpl in Hlisting. destruct Hlisting as [Hpages <-].
    rewrite !deliver_callback by (simpl; lia).
    unfold processListing. rewrite <-Hpages.
    by rewrite (processSignatures_repo repo repo'). }
  unfold Verify. rewrite <-Hremote. destruct (isRemote repo); [|done]. simpl.
  destruct (SkipVerify verifier) as [skipChecker|]; [|apply Hrest].
  destruct (skipChecker _) as [[[] level] [err|]]; first [done | apply Hrest].
Qed.

End verify_paging.

(** ** Sample registry and verifiers *)
Module verify_samples.
Import notation.

Definition artifact : Descriptor :=
  {| MediaType := MediaTypeImageManifest; Digest := "sha256:aa"; Size := 528;
     Annotations := None |}.

(** The signature manifest with the digest [sha256:n]. *)
Definition manifest (n : string) : Descriptor :=
  {| MediaType := MediaTypeImageManifest; Digest := "sha256:" +:+ n;
     Size := 700; Annotations := None |}.

Definition envelope : Descriptor :=
  {| MediaType := "application/jose+json"; Digest := "sha256:e1"; Size := 1;
     Annotations := None |}.

Definition strict : VerificationLevel :=
  {| Name := "strict"; Enforcement := ∅ |}.

Definition outcome (sig : list byte) (err : option error) : VerificationOutcome.t :=
  {| VerificationOutcome.RawSignature := sig;
     VerificationOutcome.EnvelopeContent := None;
     VerificationOutcome.VerificationLevel := Some strict;
     VerificationOutcome.VerificationResults := [];
     VerificationOutcome.Error := err |}.

Definition untrusted : error :=
  ErrorVerificationFailed "signature is not produced by a trusted signer".
Definition metadataMissing : error :=
  ErrorUserMetadataVerificationFailed
    "unable to find specified metadata in the signature".

(** The blob [2] verifies, the blob [3] lacks the user metadata, any other
    blob is not trusted. *)
Definition verify (desc : Descriptor) (sig : list byte) (opts : VerifyOptions.t)
    : option VerificationOutcome.t * option error :=
  if bool_decide (sig = ["2"%byte]) then (Some (outcome sig None), None)
  else if bool_decide (sig = ["3"%byte])
  then (Some (outcome sig (Some metadataMissing)), Some metadataMissing)
  else (Some (outcome sig (Some untrusted)), Some untrusted).

Definition verifier : Verifier :=
  {| Verifier_Verify := verify;
     SkipVerify := Some (λ _, (false, Some strict, None)) |}.

Definition skipLevel : VerificationLevel :=
  {| Name := "skip"; Enforcement := ∅ |}.

Definition skippingVerifier : Verifier :=
  {| Verifier_Verify := verify;
     SkipVerify := Some (λ _, (true, Some skipLevel, None)) |}.

(** The blob of the manifest [sha256:n] is the first byte of [n]; the blob
    of [sha256:gone] cannot be fetched. *)
Definition fetch (m : Descriptor) : (list byte * Descriptor) + error :=
  if String.eqb (Digest m) "sha256:gone" then inr (errorString "blob unknown")
  else if String.eqb (Digest m) "sha256:2" then inl (["2"%byte], envelope)
  else if String.eqb (Digest m) "sha256:3" then inl (["3"%byte], envelope)
  else inl (["1"%byte], envelope).

Definition repository (pages : list (list Descriptor)) : Repository :=
  {| isRemote := true;
     Resolve := λ _, inl artifact;
     Referrers := λ _, (pages, None);
     FetchSignatureBlob := fetch;
     PushSignature := λ _ _ _ _, inl (envelope, manifest "m") |}.

Definition options (limit : Z) : RemoteVerifyOptions.t :=
  {| RemoteVerifyOptions.ArtifactReference := "registry.io/foo:v1";
     RemoteVerifyOptions.PluginConfig := ∅;
     RemoteVerifyOptions.MaxSignatureAttempts := limit;
     RemoteVerifyOptions.UserMetadata := ∅ |}.

Lemma listingStarts_repository pages limit :
  0 < limit →
  @listingStarts sampleLib verifier (repository pages) (options limit) artifact.
Proof.
  intros Hlimit. split_and!; [done| |done|].
  - right. by eexists _, _.
  - by eexists.
Qed.

End verify_samples.

Lemma Verify_paging_irrelevant_witness :
  @notation.Verify sampleLib verify_samples.verifier
    (verify_samples.repository
       [[verify_samples.manifest "1"; verify_samples.manifest "2"];
        [verify_samples.manifest "3"]])
    (verify_samples.options 50)
  = @notation.Verify sampleLib verify_samples.verifier
      (verify_samples.repository
         [[verify_samples.manifest "1"];
          [verify_samples.manifest "2"; verify_samples.manifest "3"]])
      (verify_samples.options 50).
Proof.
  apply (@Verify_paging_irrelevant sampleLib); [reflexivity..|].
  intros d. split; reflexivity.
Defined.

Lemma Verify_skip_witness :
  @notation.Verify sampleLib verify_samples.skippingVerifier
    (verify_samples.repository []) (verify_samples.options 0)
  = ((emptyDescriptor, [skipped (Some verify_samples.skipLevel)], None),
     [notation.CallSkipVerify (verifyOptions (verify_samples.options 0))]).
Proof.
  by apply (@Verify_skip sampleLib verify_samples.skippingVerifier
              (verify_samples.repository []) (verify_samples.options 0)
              (λ _, (true, Some verify_samples.skipLevel, None))).
Defined.

Lemma Verify_rejects_early_witness :
  (@notation.Verify sampleLib verify_samples.verifier
     (verify_samples.repository [[verify_samples.manifest "2"]])
     (verify_samples.options 0)).1
  = (emptyDescriptor, [],
     Some (ErrorSignatureRetrievalFailed
       "verifyOptions.MaxSignatureAttempts expects a positive number, got 0")).
Proof.
  apply (@Verify_rejects_early sampleLib verify_samples.verifier
           (verify_samples.repository [[verify_samples.manifest "2"]])
           (verify_samples.options 0)); [reflexivity|reflexivity|].
  intros skipChecker [= <-]. by eexists.
Defined.

Lemma Verify_success_shape_witness :
  (∃ level, verify_samples.artifact = emptyDescriptor ∧
            [Some (verify_samples.outcome ["2"%byte] None)] = [skipped level])
  ∨ (notation.Resolve (verify_samples.repository [[verify_samples.manifest "2"]])
       "registry.io/foo:v1" = inl verify_samples.artifact ∧
     ∃ o sigBlob vopts tr,
       [Some (verify_samples.outcome ["2"%byte] None)] = [o] ∧
       (@notation.Verify sampleLib verify_samples.verifier
          (verify_samples.repository [[verify_samples.manifest "2"]])
          (verify_samples.options 50)).2
       = tr ++ [notation.CallVerify verify_samples.artifact sigBlob vopts] ∧
       notation.Verifier_Verify verify_samples.verifier verify_samples.artifact
         sigBlob vopts = (o, None)).
Proof.
  apply (@Verify_success_shape sampleLib verify_samples.verifier
           (verify_samples.repository [[verify_samples.manifest "2"]])
           (verify_samples.options 50)).
  reflexivity.
Defined.

(** Three signatures of which only the second one verifies: two are
    fetched. *)
Lemma Verify_first_success_witness :
  (@notation.Verify sampleLib verify_samples.verifier
     (verify_samples.repository
        [[verify_samples.manifest "1"; verify_samples.manifest "2"];
         [verify_samples.manifest "3"]])
     (verify_samples.options 50)).1
  = (verify_samples.artifact,
     [Some (verify_samples.outcome ["2"%byte] None)], None) ∧
  notation.fetched
    (@notation.Verify sampleLib verify_samples.verifier
       (verify_samples.repository
          [[verify_samples.manifest "1"; verify_samples.manifest "2"];
           [verify_samples.manifest "3"]])
       (verify_samples.options 50)).2
  = [verify_samples.manifest "1"] ++ [verify_samples.manifest "2"].
Proof.
  apply (@Verify_first_success sampleLib verify_samples.verifier
           (verify_samples.repository
              [[verify_samples.manifest "1"; verify_samples.manifest "2"];
               [verify_samples.manifest "3"]])
           (verify_samples.options 50)
           verify_samples.artifact
           [[verify_samples.manifest "1"; verify_samples.manifest "2"];
            [verify_samples.manifest "3"]] None
           [verify_samples.manifest "1"] (verify_samples.manifest "2")
           [verify_samples.manifest "3"]
           [verify_samples.outcome ["1"%byte] (Some verify_samples.untrusted)]).
  - by apply verify_samples.listingStarts_repository.
  - reflexivity.
  - reflexivity.
  - constructor; [|constructor]. by eexists _, _, _.
  - by eexists _, _.
  - simpl. lia.
Defined.

(** A limit of one and one signature that lacks the user metadata: the
    error is the one of the limit. *)
Lemma Verify_limit_reached_witness :
  (@notation.Verify sampleLib verify_samples.verifier
     (verify_samples.repository [[verify_samples.manifest "3"]])
     (verify_samples.options 1)).1
  = (emptyDescriptor, [],
     Some (ErrorVerificationFailed
       "total number of signatures associated with an artifact should be less than: 1")) ∧
  notation.fetched
    (@notation.Verify sampleLib verify_samples.verifier
       (verify_samples.repository [[verify_samples.manifest "3"]])
       (verify_samples.options 1)).2
  = [verify_samples.manifest "3"].
Proof.
  apply (@Verify_limit_reached sampleLib verify_samples.verifier
           (verify_samples.repository
              [[verify_samples.manifest "3"]])
           (verify_samples.options 1)
           verify_samples.artifact [[verify_samples.manifest "3"]] None
           [verify_samples.manifest "3"] []
           [verify_samples.outcome ["3"%byte] (Some verify_samples.metadataMissing)]).
  - by apply verify_samples.listingStarts_repository.
  - reflexivity.
  - reflexivity.
  - constructor; [|constructor]. by eexists _, _, _.
  - reflexivity.
Defined.

(** Below the limit, the error of the user metadata is kept. *)
Lemma Verify_none_verifies_witness :
  (@notation.Verify sampleLib verify_samples.verifier
     (verify_samples.repository
        [[verify_samples.manifest "3"; verify_samples.manifest "1"]])
     (verify_samples.options 50)).1
  = (emptyDescriptor, [], Some verify_samples.metadataMissing) ∧
  notation.fetched
    (@notation.Verify sampleLib verify_samples.verifier
       (verify_samples.repository
          [[verify_samples.manifest "3"; verify_samples.manifest "1"]])
       (verify_samples.options 50)).2
  = [verify_samples.manifest "3"; verify_samples.manifest "1"].
Proof.
  apply (@Verify_none_verifies sampleLib verify_samples.verifier
           (verify_samples.repository
              [[verify_samples.manifest "3"; verify_samples.manifest "1"]])
           (verify_samples.options 50)
           verify_samples.artifact
           [[verify_samples.manifest "3"; verify_samples.manifest "1"]]
           [verify_samples.outcome ["3"%byte] (Some verify_samples.metadataMissing);
            verify_samples.outcome ["1"%byte] (Some verify_samples.untrusted)]).
  - by apply verify_samples.listingStarts_repository.
  - reflexivity.
  - repeat constructor; by eexists _, _, _.
  - simpl. lia.
Defined.

Lemma Verify_fetch_fails_witness :
  (@notation.Verify sampleLib verify_samples.verifier
     (verify_samples.repository
        [[verify_samples.manifest "1"; verify_samples.manifest "gone";
          verify_samples.manifest "2"]])
     (verify_samples.options 50)).1
  = (emptyDescriptor, [],
     Some (ErrorSignatureRetrievalFailed
       "unable to retrieve digital signature with digest 'sha256:gone' associated with 'registry.io/foo:v1' from the registry, error : blob unknown")) ∧
  notation.fetched
    (@notation.Verify sampleLib verify_samples.verifier
       (verify_samples.repository
          [[verify_samples.manifest "1"; verify_samples.manifest "gone";
            verify_samples.manifest "2"]])
       (verify_samples.options 50)).2
  = [verify_samples.manifest "1"] ++ [verify_samples.manifest "gone"] ∧
  length (filter notation.isVerify
    (@notation.Verify sampleLib verify_samples.verifier
       (verify_samples.repository
          [[verify_samples.manifest "1"; verify_samples.manifest "gone";
            verify_samples.manifest "2"]])
       (verify_samples.options 50)).2) = 1%nat.
Proof.
  apply (@Verify_fetch_fails sampleLib verify_samples.verifier
           (verify_samples.repository
              [[verify_samples.manifest "1"; verify_samples.manifest "gone";
                verify_samples.manifest "2"]])
           (verify_samples.options 50)
           verify_samples.artifact
           [[verify_samples.manifest "1"; verify_samples.manifest "gone";
             verify_samples.manifest "2"]] None
           [verify_samples.manifest "1"] (verify_samples.manifest "gone")
           [verify_samples.manifest "2"]
           [verify_samples.outcome ["1"%byte] (Some verify_samples.untrusted)]
           (errorString "blob unknown")).
  - by apply verify_samples.listingStarts_repository.
  - reflexivity.
  - reflexivity.
  - constructor; [|constructor]. by eexists _, _, _.
  - reflexivity.
  - simpl. lia.
Defined.

(** ** Annotations of the signature manifest *)
Section annotations.
Context `{!GoLib}.
Import notation.

(** The thumbprint of a certificate, as hexadecimal digits. *)
Definition thumbprint (cert : Certificate) : string :=
  hex_EncodeToString (sha256_Sum256 (Raw cert)).

(** The value of the thumbprint annotation for a chain: the thumbprints
    between double quotes, separated by commas, between brackets; [null]
    for the empty chain. *)
Definition thumbprintsJSON (chain : list Certificate) : string :=
  match chain with
  | [] => "null"
  | _ =>
    "[" +:+ String.concat ","
              ((λ cert, String "034"%char (thumbprint cert)
                        +:+ String "034"%char EmptyString) <$> chain)
    +:+ "]"
  end.

Lemma json_escape_hexdigit (b : byte) :
  json_escape (hexdigit (N.shiftr (Byte.to_N b) 4))
  = String (hexdigit (N.shiftr (Byte.to_N b) 4)) EmptyString ∧
  json_escape (hexdigit (N.land (Byte.to_N b) 15))
  = String (hexdigit (N.land (Byte.to_N b) 15)) EmptyString.
Proof. destruct b; split; reflexivity. Qed.

(** Hexadecimal digits need no escaping. *)
Lemma json_escape_hex (src : list byte) :
  json_escape_string (hex_EncodeToString src) = hex_EncodeToString src.
Proof.
  induction src as [|b src IH]; [done|].
  cbn [hex_EncodeToString json_escape_string].
  destruct (json_escape_hexdigit b) as [-> ->]. simpl. by rewrite IH.
Qed.

Lemma thumbprints_loop (chain : list Certificate) : ∀ acc,
  foldl (λ thumbprints cert,
           thumbprints ++ [hex_EncodeToString (sha256_Sum256 (Raw cert))])
        acc chain
  = acc ++ (thumbprint <$> chain).
Proof.
  induction chain as [|cert chain IH]; intros acc; simpl.
  - by rewrite app_nil_r.
  - by rewrite IH, <-app_assoc.
Qed.

Lemma json_Marshal_thumbprints (chain : list Certificate) :
  json_Marshal (thumbprint <$> chain) = (thumbprintsJSON chain, None).
Proof.
  assert (json_string <$> (thumbprint <$> chain)
          = (λ cert, String "034"%char (thumbprint cert)
                     +:+ String "034"%char EmptyString) <$> chain) as Heq.
  { rewrite <-list_fmap_compose. apply list_fmap_ext. intros _ c _. simpl.
    unfold json_string, thumbprint. by rewrite json_escape_hex. }
  unfold json_Marshal, thumbprintsJSON.
  destruct chain as [|cert chain]; [done|].
  rewrite <-Heq. reflexivity.
Qed.

(** X10.  For a signer info that is not [nil], [generateAnnotations] does not
    fail.  The map it returns holds, under the thumbprint key, the SHA-256
    thumbprints of the certificates of the chain, as lower-case hexadecimal
    digits, in the order of the chain, as a JSON array without any escape
    ([null] when the chain is empty); a value that the given annotations
    held under that key is replaced; every other key holds what the given
    annotations hold. *)
Theorem generateAnnotations_thumbprints (signerInfo : SignerInfo)
    (annotations : option (gmap string string)) :
  ∃ m, generateAnnotations (Some signerInfo) annotations = Return (Some m, None) ∧
    m !! annotationX509ChainThumbprint
    = Some (thumbprintsJSON (CertificateChain signerInfo)) ∧
    ∀ k, k ≠ annotationX509ChainThumbprint →
         m !! k = annotations ≫= (λ a, a !! k).
Proof.
  unfold generateAnnotations.
  rewrite (thumbprints_loop _ []), app_nil_l, json_Marshal_thumbprints.
  eexists. split; [done|]. split.
  - apply lookup_insert_eq.
  - intros k Hk. rewrite lookup_insert_ne by done.
    destruct annotations; [done|apply lookup_empty].
Qed.

End annotations.

(** ** The order of the entries of the user metadata *)

(** X11.  [addUserMetadataToDescriptor] never panics, and the order in which
    the entries of the user metadata are visited is of no consequence for
    whether it fails, nor for the descriptor it returns when it does not
    fail. *)
Theorem addUserMetadataToDescriptor_order (lib lib' : GoLib)
    (desc : Descriptor) (userMetadata : gmap string string) :
  (∃ r, @notation.addUserMetadataToDescriptor lib desc userMetadata
        = notation.Return r)
  ∧ (∀ d, @notation.addUserMetadataToDescriptor lib desc userMetadata
          = notation.Return (d, None) →
          @notation.addUserMetadataToDescriptor lib' desc userMetadata
          = notation.Return (d, None))
  ∧ (∀ d err, @notation.addUserMetadataToDescriptor lib desc userMetadata
              = notation.Return (d, Some err) →
              ∃ d' err', @notation.addUserMetadataToDescriptor lib' desc userMetadata
                         = notation.Return (d', Some err')).
Proof.
  destruct (@addUserMetadataToDescriptor_spec lib desc userMetadata)
    as [[Hrej (d1 & e1 & H1)]|[Hacc H1]],
    (@addUserMetadataToDescriptor_spec lib' desc userMetadata)
    as [[Hrej' (d2 & e2 & H2)]|[Hacc' H2]]; try done; rewrite H1.
  - split_and!; [by eexists|done|by eauto].
  - split_and!; [by eexists| |done].
    intros d [= <-]. done.
Qed.

(** ** The calls of [Sign] and [SignLocalContent] *)
Section sign_calls.
Context `{!GoLib}.
Import notation.
Context (signer : Signer) (repo : option Repository)
        (remoteOpts : RemoteSignOptions.t).

Abbreviation signOpts := (RemoteSignOptions.SignOptions remoteOpts).
Abbreviation artifactRef := (SignOptions.ArtifactReference signOpts).
Abbreviation mediaType := (SignOptions.SignatureMediaType signOpts).
Abbreviation userMetadata := (RemoteSignOptions.UserMetadata remoteOpts).
Abbreviation run := (Sign signer repo remoteOpts).


(** X13.  When the checks pass, the user metadata is accepted and the signer
    returns a signature and a signer info, [Sign] pushes that signature, for
    the target descriptor with the user metadata added, with the annotations
    of the plugin and the thumbprints of the signer's chain.  When the push
    fails the error is an [ErrorPushSignatureFailed] that holds the text of
    the error of the push; otherwise [Sign] returns the descriptor with the
    user metadata added. *)
Theorem Sign_pushes ref r targetDesc sig signerInfo :
  0 ≤ SignOptions.ExpiryDuration signOpts →
  Z.rem (SignOptions.ExpiryDuration signOpts) time_Second = 0 →
  ParseReference artifactRef = inl ref → ReferenceOrDigest ref ≠ "" →
  repo = Some r → Resolve r artifactRef = inl targetDesc →
  ¬ rejected userMetadata (Annotations targetDesc) →
  let desc := withAnnotations targetDesc
                (extended (Annotations targetDesc) userMetadata) in
  Signer_Sign signer desc signOpts = inl (sig, Some signerInfo) →
  let annotations :=
    <[annotationX509ChainThumbprint := thumbprintsJSON (CertificateChain signerInfo)]>
      (default ∅ (default None (PluginAnnotations signer))) in
  run.2 = [CallResolve artifactRef; CallSign desc signOpts;
           CallPushSignature mediaType sig desc annotations] ∧
  run.1 = match PushSignature r mediaType sig desc annotations with
          | inl _ => Return (desc, None)
          | inr err =>
            Return (emptyDescriptor, Some (ErrorPushSignatureFailed (Error err)))
          end.
Proof.
  intros Hpos Hsec Hparse Href -> Hresolve Hacc desc Hsign annotations.
  unfold Sign.
  destruct (Z.ltb_spec (SignOptions.ExpiryDuration signOpts) 0); [lia|].
  rewrite Hsec. simpl. rewrite Hparse.
  destruct (String.eqb_spec (ReferenceOrDigest ref) ""); [done|].
  rewrite Hresolve.
  destruct (addUserMetadataToDescriptor_spec targetDesc userMetadata)
    as [[Hrej _]|[_ ->]]; [done|].
  fold desc. rewrite Hsign.
  unfold generateAnnotations.
  rewrite (thumbprints_loop _ []), app_nil_l, json_Marshal_thumbprints.
  simpl. fold annotations.
  by destruct (PushSignature r _ _ _ _).
Qed.

(** X14.  When the signer fails, [Sign] returns its error as it is and pushes
    nothing; when the signer returns neither an error nor a signer info,
    [Sign] panics, and nothing is pushed either. *)
Theorem Sign_signer_fails ref r targetDesc :
  0 ≤ SignOptions.ExpiryDuration signOpts →
  Z.rem (SignOptions.ExpiryDuration signOpts) time_Second = 0 →
  ParseReference artifactRef = inl ref → ReferenceOrDigest ref ≠ "" →
  repo = Some r → Resolve r artifactRef = inl targetDesc →
  ¬ rejected userMetadata (Annotations targetDesc) →
  let desc := withAnnotations targetDesc
                (extended (Annotations targetDesc) userMetadata) in
  (∀ err, Signer_Sign signer desc signOpts = inr err →
     run = (Return (emptyDescriptor, Some err),
            [CallResolve artifactRef; CallSign desc signOpts]))
  ∧ (∀ sig, Signer_Sign signer desc signOpts = inl (sig, None) →
       run = (Panic, [CallResolve artifactRef; CallSign desc signOpts])).
Proof.
  intros Hpos Hsec Hparse Href -> Hresolve Hacc desc.
  unfold Sign.
  destruct (Z.ltb_spec (SignOptions.ExpiryDuration signOpts) 0); [lia|].
  rewrite Hsec. simpl. rewrite Hparse.
  destruct (String.eqb_spec (ReferenceOrDigest ref) ""); [done|].
  rewrite Hresolve.
  destruct (addUserMetadataToDescriptor_spec targetDesc userMetadata)
    as [[Hrej _]|[_ ->]]; [done|].
  fold desc. split; intros ? ->; done.
Qed.

End sign_calls.

Section sign_local.
Context `{!GoLib}.
Import notation.


End sign_local.

(** ** Sample signers *)
Definition reverseLib : GoLib :=
  {| strconv_Quote := @strconv_Quote sampleLib;
     declared_Error := @declared_Error sampleLib;
     sha256_Sum256 := @sha256_Sum256 sampleLib;
     CheckSignatureFrom := @CheckSignatureFrom sampleLib;
     ParseReference := @ParseReference sampleLib;
     range := λ m, reverse (map_to_list m);
     range_Permutation := λ m, reverse_Permutation (map_to_list m) |}.

Module sign_samples.
Import notation.

Definition leaf : Certificate :=
  {| Raw := ["l"%byte; "e"%byte; "a"%byte; "f"%byte];
     RawSubject := ["l"%byte]; RawIssuer := ["r"%byte];
     Subject := "CN=leaf"; IsCA := false |}.

Definition root : Certificate :=
  {| Raw := ["r"%byte; "o"%byte; "o"%byte; "t"%byte];
     RawSubject := ["r"%byte]; RawIssuer := ["r"%byte];
     Subject := "CN=root"; IsCA := true |}.

Definition signerInfo : SignerInfo := {| CertificateChain := [leaf; root] |}.

Definition signer : Signer :=
  {| Signer_Sign := λ desc opts, inl (["s"%byte], Some signerInfo);
     PluginAnnotations := Some (Some {[ "plugin.example/key" := "k1" ]}) |}.

Definition failingSigner : Signer :=
  {| Signer_Sign := λ desc opts, inr (errorString "keyID mismatch");
     PluginAnnotations := None |}.

Definition target : Descriptor :=
  {| MediaType := MediaTypeImageManifest; Digest := "sha256:aa"; Size := 528;
     Annotations := Some {[ "org.opencontainers.image.title" := "app" ]} |}.

Definition repository (writable : bool) : Repository :=
  {| isRemote := true;
     Resolve := λ _, inl target;
     Referrers := λ _, ([], None);
     FetchSignatureBlob := λ _, inr (errorString "blob unknown");
     PushSignature := λ _ _ _ _,
       if writable then inl (target, target) else inr (errorString "denied") |}.

Definition signOptions (expiry : Z) : SignOptions.t :=
  {| SignOptions.ArtifactReference := "registry.io/foo:v1";
     SignOptions.SignatureMediaType := "application/jose+json";
     SignOptions.ExpiryDuration := expiry;
     SignOptions.PluginConfig := ∅;
     SignOptions.SigningAgent := "agent" |}.

Definition options (expiry : Z) (userMetadata : gmap string string)
    : RemoteSignOptions.t :=
  {| RemoteSignOptions.SignOptions := signOptions expiry;
     RemoteSignOptions.UserMetadata := userMetadata |}.


Definition team : gmap string string := {[ "team" := "a" ]}.

Lemma team_accepted : ¬ rejected team (Annotations target).
Proof.
  intros (k & [v Hk] & Hbad). unfold team in Hk.
  apply lookup_singleton_Some in Hk as [<- <-].
  destruct Hbad as [Hbad|[x Hbad]]; [discriminate Hbad|].
  vm_compute in Hbad. discriminate Hbad.
Qed.

End sign_samples.

Lemma generateAnnotations_thumbprints_witness :
  ∃ m, @notation.generateAnnotations sampleLib (Some sign_samples.signerInfo)
         (Some {[ notation.annotationX509ChainThumbprint := "stale";
                  "plugin.example/key" := "k1" ]})
       = notation.Return (Some m, None) ∧
    m !! notation.annotationX509ChainThumbprint
    = Some (@thumbprintsJSON sampleLib [sign_samples.leaf; sign_samples.root]) ∧
    m !! "plugin.example/key" = Some "k1".
Proof.
  destruct (@generateAnnotations_thumbprints sampleLib sign_samples.signerInfo
              (Some {[ notation.annotationX509ChainThumbprint := "stale";
                       "plugin.example/key" := "k1" ]}))
    as (m & Hm & Hthumb & Hother).
  exists m. split; [exact Hm|]. split; [exact Hthumb|].
  rewrite Hother; [reflexivity|discriminate].
Defined.

Lemma addUserMetadataToDescriptor_order_witness :
  @notation.addUserMetadataToDescriptor reverseLib sign_samples.target
    {[ "team" := "a"; "build" := "7" ]}
  = notation.Return
      (notation.withAnnotations sign_samples.target
         (Some {[ "team" := "a"; "build" := "7";
                  "org.opencontainers.image.title" := "app" ]}), None).
Proof.
  apply (addUserMetadataToDescriptor_order sampleLib reverseLib).
  vm_compute. reflexivity.
Defined.


Lemma Sign_pushes_witness :
  (@notation.Sign sampleLib sign_samples.signer
     (Some (sign_samples.repository false))
     (sign_samples.options 0 sign_samples.team)).1
  = notation.Return (emptyDescriptor, Some (ErrorPushSignatureFailed "denied")).
Proof.
  apply (@Sign_pushes sampleLib sign_samples.signer
           (Some (sign_samples.repository false))
           (sign_samples.options 0 sign_samples.team)
           {| Registry := "registry.io"; Repository := "foo";
              ReferenceOrDigest := "registry.io/foo:v1" |}
           (sign_samples.repository false) sign_samples.target
           ["s"%byte] sign_samples.signerInfo);
    [simpl; lia|reflexivity|reflexivity|discriminate|reflexivity|reflexivity
    |exact sign_samples.team_accepted|reflexivity].
Defined.

Lemma Sign_signer_fails_witness :
  @notation.Sign sampleLib sign_samples.failingSigner
    (Some (sign_samples.repository true))
    (sign_samples.options 0 sign_samples.team)
  = (notation.Return (emptyDescriptor, Some (errorString "keyID mismatch")),
     [notation.CallResolve "registry.io/foo:v1";
      notation.CallSign
        (notation.withAnnotations sign_samples.target
           (extended (Annotations sign_samples.target) sign_samples.team))
        (sign_samples.signOptions 0)]).
Proof.
  apply (@Sign_signer_fails sampleLib sign_samples.failingSigner
           (Some (sign_samples.repository true))
           (sign_samples.options 0 sign_samples.team)
           {| Registry := "registry.io"; Repository := "foo";
              ReferenceOrDigest := "registry.io/foo:v1" |}
           (sign_samples.repository true) sign_samples.target);
    [simpl; lia|reflexivity|reflexivity|discriminate|reflexivity|reflexivity
    |exact sign_samples.team_accepted|reflexivity].
Defined.


(** * [VerifyLocalContent] *)
Module notation_local.
Import notation.

Module LocalVerifyOptions.
Record t := {
  LayoutReference : string;
  PluginConfig : gmap string string;
  MaxSignatureAttempts : Z;
  UserMetadata : gmap string string;
  TargetAtLocal : bool;
  TrustPolicyScope : string;
}.
End LocalVerifyOptions.

Section verify_local.
Context `{!GoLib}.
Context (verifier : Verifier) (repo : Repository)
        (localVerifyOpts : LocalVerifyOptions.t).

Definition errExceededMaxVerificationLimit : error :=
  ErrorVerificationFailed
    ("total number of signatures associated with an artifact should be less than: "
     +:+ pretty (LocalVerifyOptions.MaxSignatureAttempts localVerifyOpts)).

(** The [for] loop of the callback of [VerifyLocalContent]; [Some err]: the
    callback returns [err] from inside the loop. *)
Fixpoint processSignatures (targetDesc : Descriptor)
    (signatureManifests : list Descriptor) (st : state) : option error * state :=
  match signatureManifests with
  | [] => (None, st)
  | sigManifestDesc :: signatureManifests =>
    if LocalVerifyOptions.MaxSignatureAttempts localVerifyOpts
       <=? numOfSignatureProcessed st
    then (None, st)
    else
      let st :=
        {| opts := opts st; verificationOutcomes := verificationOutcomes st;
           numOfSignatureProcessed := numOfSignatureProcessed st + 1;
           verificationFailedErr := verificationFailedErr st;
           trace := trace st ++ [CallFetchSignatureBlob sigManifestDesc] |} in
      match FetchSignatureBlob repo sigManifestDesc with
      | inr err =>
        (Some (ErrorSignatureRetrievalFailed
           ("unable to retrieve digital signature with digest "
            +:+ strconv_Quote (Digest sigManifestDesc)
            +:+ " associated with " +:+ Digest targetDesc
            +:+ " from the OCI layout folder, error : " +:+ Error err)), st)
      | inl (sigBlob, sigDesc) =>
        let opts := withSignatureMediaType (opts st) (MediaType sigDesc) in
        let st :=
          {| opts := opts; verificationOutcomes := verificationOutcomes st;
             numOfSignatureProcessed := numOfSignatureProcessed st;
             verificationFailedErr := verificationFailedErr st;
             trace := trace st ++ [CallVerify targetDesc sigBlob opts] |} in
        match Verifier_Verify verifier targetDesc sigBlob opts with
        | (outcome, Some err) =>
          match outcome with
          | None => (Some err, st)
          | Some o =>
            let st :=
              if isErrorUserMetadataVerificationFailed (VerificationOutcome.Error o)
              then
                {| opts := opts; verificationOutcomes := verificationOutcomes st;
                   numOfSignatureProcessed := numOfSignatureProcessed st;
                   verificationFailedErr :=
                     default (verificationFailedErr st) (VerificationOutcome.Error o);
                   trace := trace st |}
              else st in
            processSignatures targetDesc signatureManifests st
          end
        | (outcome, None) =>
          (Some errDoneVerification,
           {| opts := opts;
              verificationOutcomes := verificationOutcomes st ++ [outcome];
              numOfSignatureProcessed := numOfSignatureProcessed st;
              verificationFailedErr := verificationFailedErr st;
              trace := trace st |})
        end
      end
  end.

Definition callback (targetDesc : Descriptor)
    (signatureManifests : list Descriptor) (st : state) : option error * state :=
  match processSignatures targetDesc signatureManifests st with
  | (Some err, st) => (Some err, st)
  | (None, st) =>
    if LocalVerifyOptions.MaxSignatureAttempts localVerifyOpts
       <=? numOfSignatureProcessed st
    then (Some errExceededMaxVerificationLimit, st)
    else (None, st)
  end.

(** The warning that is written to the standard error when the reference is
    not a digest is not modelled. *)
Definition VerifyLocalContent
    : (Descriptor * list (option VerificationOutcome.t) * option error)
      * list event :=
  if negb (LocalVerifyOptions.TargetAtLocal localVerifyOpts) then
    ((emptyDescriptor, [],
      Some (errorString
        "failed to verify local content: localVerifyOpts.TargetAtLocal is false")), [])
  else if LocalVerifyOptions.MaxSignatureAttempts localVerifyOpts <=? 0 then
    ((emptyDescriptor, [],
      Some (ErrorSignatureRetrievalFailed
        ("verifyOptions.MaxSignatureAttempts expects a positive number, got "
         +:+ pretty (LocalVerifyOptions.MaxSignatureAttempts localVerifyOpts)))), [])
  else if isRemote repo then
    ((emptyDescriptor, [],
      Some (errorString
        "failed to verify local content: repo cannot be remote repository")), [])
  else
    let tr := [CallResolve (LocalVerifyOptions.LayoutReference localVerifyOpts)] in
    match Resolve repo (LocalVerifyOptions.LayoutReference localVerifyOpts) with
    | inr err => ((emptyDescriptor, [], Some err), tr)
    | inl targetDesc =>
      let opts :=
        {| VerifyOptions.ArtifactReference := "";
           VerifyOptions.SignatureMediaType := "";
           VerifyOptions.PluginConfig := LocalVerifyOptions.PluginConfig localVerifyOpts;
           VerifyOptions.UserMetadata := LocalVerifyOptions.UserMetadata localVerifyOpts;
           VerifyOptions.TargetAtLocal := LocalVerifyOptions.TargetAtLocal localVerifyOpts;
           VerifyOptions.TrustPolicyScope :=
             LocalVerifyOptions.TrustPolicyScope localVerifyOpts |} in
      let listing (tr : list event) :=
        let st :=
          {| opts := opts; verificationOutcomes := [];
             numOfSignatureProcessed := 0;
             verificationFailedErr := ErrorVerificationFailed "";
             trace := tr ++ [CallListSignatures targetDesc] |} in
        let '(err, st) := ListSignatures repo targetDesc (callback targetDesc) st in
        if match err with
           | Some err => negb (errors_Is err errDoneVerification)
           | None => false
           end
        then
          if match err with
             | Some err => errors_Is err errExceededMaxVerificationLimit
             | None => false
             end
          then ((emptyDescriptor, verificationOutcomes st, err), trace st)
          else ((emptyDescriptor, [], err), trace st)
        else if numOfSignatureProcessed st =? 0 then
          ((emptyDescriptor, [],
            Some (ErrorSignatureRetrievalFailed
              ("no signature is associated with " +:+ Digest targetDesc
               +:+ ", make sure the image was signed successfully"))), trace st)
        else if (length (verificationOutcomes st) =? 0)%nat then
          ((emptyDescriptor, verificationOutcomes st,
            Some (verificationFailedErr st)), trace st)
        else
          ((targetDesc, verificationOutcomes st, None), trace st) in
      match SkipVerify verifier with
      | Some skipChecker =>
        let tr := tr ++ [CallSkipVerify opts] in
        match skipChecker opts with
        | (_, _, Some err) => ((emptyDescriptor, [], Some err), tr)
        | (true, verificationLevel, None) =>
          ((emptyDescriptor,
            [Some {| VerificationOutcome.RawSignature := [];
                     VerificationOutcome.EnvelopeContent := None;
                     VerificationOutcome.VerificationLevel := verificationLevel;
                     VerificationOutcome.VerificationResults := [];
                     VerificationOutcome.Error := None |}], None), tr)
        | (false, _, None) => listing tr
        end
      | None => listing tr
      end
    end.

End verify_local.
End notation_local.

(** ** [VerifyLocalContent] and [Verify] *)
Section verify_local_properties.
Context `{!GoLib}.
Import notation.
Context (verifier : Verifier) (repo : Repository)
        (localVerifyOpts : notation_local.LocalVerifyOptions.t).

Abbreviation localMax :=
  (notation_local.LocalVerifyOptions.MaxSignatureAttempts localVerifyOpts).
Abbreviation layoutReference :=
  (notation_local.LocalVerifyOptions.LayoutReference localVerifyOpts).
Abbreviation localRun :=
  (notation_local.VerifyLocalContent verifier repo localVerifyOpts).

(** The options that [VerifyLocalContent] hands to [SkipVerify] and, with
    the media type of the signature filled in, to the verifier. *)
Definition localVerifyOptions : VerifyOptions.t :=
  {| VerifyOptions.ArtifactReference := "";
     VerifyOptions.SignatureMediaType := "";
     VerifyOptions.PluginConfig :=
       notation_local.LocalVerifyOptions.PluginConfig localVerifyOpts;
     VerifyOptions.UserMetadata :=
       notation_local.LocalVerifyOptions.UserMetadata localVerifyOpts;
     VerifyOptions.TargetAtLocal :=
       notation_local.LocalVerifyOptions.TargetAtLocal localVerifyOpts;
     VerifyOptions.TrustPolicyScope :=
       notation_local.LocalVerifyOptions.TrustPolicyScope localVerifyOpts |}.

(** Two errors are the same, or both are errors of retrieval. *)
Definition sameButRetrieval (err err' : option error) : Prop :=
  match err, err' with
  | Some (ErrorSignatureRetrievalFailed _), Some (ErrorSignatureRetrievalFailed _) =>
    True
  | _, _ => err = err'
  end.

Lemma sameButRetrieval_refl err : sameButRetrieval err err.
Proof. by destruct err as [[]|]. Qed.

Lemma sameButRetrieval_None err err' :
  sameButRetrieval err err' → err = None ↔ err' = None.
Proof.
  destruct err as [[]|], err' as [[]|]; simpl; intros Hs; (split; intros Hn);
    first [done | discriminate Hn | discriminate Hs].
Qed.

Section with_remote.
Context (remoteOpts : RemoteVerifyOptions.t).
Hypothesis sameLimit :
  RemoteVerifyOptions.MaxSignatureAttempts remoteOpts = localMax.

Lemma local_processSignatures d sigs : ∀ st,
  (notation_local.processSignatures verifier repo localVerifyOpts d sigs st).2
  = (processSignatures verifier repo remoteOpts d sigs st).2 ∧
  sameButRetrieval
    (notation_local.processSignatures verifier repo localVerifyOpts d sigs st).1
    (processSignatures verifier repo remoteOpts d sigs st).1.
Proof.
  induction sigs as [|m sigs IH]; intros st; [done|].
  cbn [processSignatures notation_local.processSignatures]. rewrite sameLimit.
  destruct (_ <=? _); [done|].
  destruct (FetchSignatureBlob repo m) as [[sigBlob sigDesc]|err]; [|done].
  destruct (Verifier_Verify verifier _ _ _) as [[o|] [err|]];
    [apply IH|split; [done|apply sameButRetrieval_refl]..].
Qed.

Lemma local_callback d page st :
  (notation_local.callback verifier repo localVerifyOpts d page st).2
  = (callback verifier repo remoteOpts d page st).2 ∧
  sameButRetrieval
    (notation_local.callback verifier repo localVerifyOpts d page st).1
    (callback verifier repo remoteOpts d page st).1.
Proof.
  unfold callback, notation_local.callback.
  destruct (local_processSignatures d page st) as [Hst Herr].
  destruct (notation_local.processSignatures _ _ _ _ _ _) as [e1 st1],
           (processSignatures _ _ _ _ _ _) as [e2 st2].
  simpl in Hst, Herr. subst st2.
  destruct e1 as [e1|], e2 as [e2|]; try done;
    try (by destruct e1); try (by destruct e2).
  rewrite sameLimit. destruct (_ <=? _); [|done].
  split; [done|].
  unfold notation_local.errExceededMaxVerificationLimit,
    errExceededMaxVerificationLimit. by rewrite sameLimit.
Qed.

Lemma local_deliver d pages listErr : ∀ st,
  (deliver (notation_local.callback verifier repo localVerifyOpts d)
     pages listErr st).2
  = (deliver (callback verifier repo remoteOpts d) pages listErr st).2 ∧
  sameButRetrieval
    (deliver (notation_local.callback verifier repo localVerifyOpts d)
       pages listErr st).1
    (deliver (callback verifier repo remoteOpts d) pages listErr st).1.
Proof.
  induction pages as [|page pages IH]; intros st; simpl.
  { split; [done|apply sameButRetrieval_refl]. }
  destruct (local_callback d page st) as [Hst Herr].
  destruct (notation_local.callback _ _ _ _ _ _) as [e1 st1],
           (callback _ _ _ _ _ _) as [e2 st2].
  simpl in Hst, Herr. subst st2.
  destruct e1 as [e1|], e2 as [e2|]; try done;
    try (by destruct e1); try (by destruct e2).
Qed.

End with_remote.

(** X16.  [VerifyLocalContent] refuses, in this order and before any call,
    options whose [TargetAtLocal] is false, a limit that is not positive
    (whatever the trust policy says about skipping) and a remote repository;
    an error of [Resolve] is returned as it is. *)
Theorem VerifyLocalContent_checks :
  (notation_local.LocalVerifyOptions.TargetAtLocal localVerifyOpts = false →
   localRun = ((emptyDescriptor, [],
     Some (errorString
       "failed to verify local content: localVerifyOpts.TargetAtLocal is false")), []))
  ∧ (notation_local.LocalVerifyOptions.TargetAtLocal localVerifyOpts = true →
     localMax ≤ 0 →
     localRun = ((emptyDescriptor, [],
       Some (ErrorSignatureRetrievalFailed
         ("verifyOptions.MaxSignatureAttempts expects a positive number, got "
          +:+ pretty localMax))), []))
  ∧ (notation_local.LocalVerifyOptions.TargetAtLocal localVerifyOpts = true →
     0 < localMax → isRemote repo = true →
     localRun = ((emptyDescriptor, [],
       Some (errorString
         "failed to verify local content: repo cannot be remote repository")), []))
  ∧ (∀ err,
       notation_local.LocalVerifyOptions.TargetAtLocal localVerifyOpts = true →
       0 < localMax → isRemote repo = false →
       Resolve repo layoutReference = inr err →
       localRun = ((emptyDescriptor, [], Some err), [CallResolve layoutReference])).
Proof.
  unfold notation_local.VerifyLocalContent. split_and!.
  - by intros ->.
  - intros -> Hmax. simpl. by destruct (Z.leb_spec localMax 0); [|lia].
  - intros -> Hmax ->. simpl. by destruct (Z.leb_spec localMax 0); [lia|].
  - intros err -> Hmax -> ->. simpl. by destruct (Z.leb_spec localMax 0); [lia|].
Qed.

(** X17.  [VerifyLocalContent] resolves the reference before it asks whether
    verification is skipped: when [SkipVerify] tells to skip, it has called
    [Resolve] and [SkipVerify], and it returns the empty descriptor, not the
    resolved one, with the outcome that holds the level. *)
Theorem VerifyLocalContent_skip targetDesc skipChecker level :
  notation_local.LocalVerifyOptions.TargetAtLocal localVerifyOpts = true →
  0 < localMax → isRemote repo = false →
  Resolve repo layoutReference = inl targetDesc →
  SkipVerify verifier = Some skipChecker →
  skipChecker localVerifyOptions = (true, level, None) →
  localRun = ((emptyDescriptor, [skipped level], None),
              [CallResolve layoutReference; CallSkipVerify localVerifyOptions]).
Proof.
  intros Hlocal Hmax Hremote Hresolve Hskip Hs.
  unfold notation_local.VerifyLocalContent.
  rewrite Hlocal, Hremote, Hresolve, Hskip. simpl.
  destruct (Z.leb_spec localMax 0); [lia|].
  fold localVerifyOptions. rewrite <-Hlocal. fold localVerifyOptions.
  by rewrite Hs.
Qed.

(** X18.  The callback of [VerifyLocalContent] does what the callback of
    [Verify] does under the same limit: the same calls, the same counter,
    outcomes and kept error, and the same error returned, except that an
    error of retrieval may have another text. *)
Theorem local_callback_as_remote (remoteOpts : RemoteVerifyOptions.t)
    (d : Descriptor) (page : list Descriptor) (st : state) :
  RemoteVerifyOptions.MaxSignatureAttempts remoteOpts = localMax →
  (notation_local.callback verifier repo localVerifyOpts d page st).2
  = (callback verifier repo remoteOpts d page st).2 ∧
  sameButRetrieval
    (notation_local.callback verifier repo localVerifyOpts d page st).1
    (callback verifier repo remoteOpts d page st).1.
Proof. intros Hlimit. by apply local_callback. Qed.

(** X19.  [VerifyLocalContent] fetches at most [MaxSignatureAttempts]
    signature blobs, asks the verifier at most once for each blob it fetched,
    and the manifests it fetches are the first ones of the listing, in the
    order of delivery. *)
Theorem VerifyLocalContent_attempts_bounded :
  Z.of_nat (length (fetched localRun.2)) ≤ Z.max 0 localMax ∧
  (length (filter isVerify localRun.2) ≤ length (fetched localRun.2))%nat ∧
  (∀ targetDesc,
     Resolve repo layoutReference = inl targetDesc →
     fetched localRun.2 `prefix_of` concat (Referrers repo targetDesc).1).
Proof.
  unfold notation_local.VerifyLocalContent.
  destruct (negb _); [simpl; split_and!; [lia|done|intros; apply prefix_nil]|].
  destruct (Z.leb_spec localMax 0) as [|Hmax];
    [simpl; split_and!; [lia|done|intros; apply prefix_nil]|].
  destruct (isRemote repo);
    [simpl; split_and!; [lia|done|intros; apply prefix_nil]|].
  destruct (Resolve repo layoutReference) as [targetDesc|err] eqn:Hresolve;
    [|simpl; split_and!; [lia|done|intros; apply prefix_nil]].
  fold localVerifyOptions.
  set (remoteOpts :=
    {| RemoteVerifyOptions.ArtifactReference := layoutReference;
       RemoteVerifyOptions.PluginConfig := ∅;
       RemoteVerifyOptions.MaxSignatureAttempts := localMax;
       RemoteVerifyOptions.UserMetadata := ∅ |}).
  assert (∀ tr, fetched tr = [] → filter isVerify tr = [] →
    ∀ st, st = {| opts := localVerifyOptions; verificationOutcomes := [];
                  numOfSignatureProcessed := 0;
                  verificationFailedErr := ErrorVerificationFailed "";
                  trace := tr ++ [CallListSignatures targetDesc] |} →
    let st' := (ListSignatures repo targetDesc
                  (notation_local.callback verifier repo localVerifyOpts targetDesc)
                  st).2 in
    Z.of_nat (length (fetched (trace st'))) ≤ Z.max 0 localMax ∧
    (length (filter isVerify (trace st')) ≤ length (fetched (trace st')))%nat ∧
    fetched (trace st') `prefix_of` concat (Referrers repo targetDesc).1) as Hlisting.
  { intros tr Hnofetch Hnoverify st ->. unfold ListSignatures.
    destruct (Referrers repo targetDesc) as [pages listErr]. cbv zeta.
    rewrite (proj1 (local_deliver remoteOpts eq_refl targetDesc pages listErr _)).
    rewrite deliver_callback by (simpl; lia). rewrite processListing_state.
    destruct (processSignatures_counts verifier repo remoteOpts targetDesc
                (concat pages)
                {| opts := localVerifyOptions; verificationOutcomes := [];
                   numOfSignatureProcessed := 0;
                   verificationFailedErr := ErrorVerificationFailed "";
                   trace := tr ++ [CallListSignatures targetDesc] |})
      as (n & Hn & Hfetched & Hnum & Hlimit & Hver & _).
    cbv zeta in *. simpl in Hfetched, Hnum, Hlimit, Hver.
    rewrite fetched_app, Hnofetch in Hfetched. simpl in Hfetched.
    rewrite filter_app, Hnoverify in Hver. simpl in Hver.
    rewrite Hfetched, length_take. simpl.
    split_and!; [lia|lia|apply prefix_take]. }
  assert (∀ r : option error * state,
    (let '(err, st) := r in
     if match err with
        | Some err => negb (errors_Is err errDoneVerification)
        | None => false
        end
     then
       if match err with
          | Some err =>
            errors_Is err
              (notation_local.errExceededMaxVerificationLimit localVerifyOpts)
          | None => false
          end
       then ((emptyDescriptor, verificationOutcomes st, err), trace st)
       else ((emptyDescriptor, ([] : list (option VerificationOutcome.t)), err),
             trace st)
     else if numOfSignatureProcessed st =? 0 then
       ((emptyDescriptor, [],
         Some (ErrorSignatureRetrievalFailed
           ("no signature is associated with " +:+ Digest targetDesc
            +:+ ", make sure the image was signed successfully"))), trace st)
     else if (length (verificationOutcomes st) =? 0)%nat then
       ((emptyDescriptor, verificationOutcomes st,
         Some (verificationFailedErr st)), trace st)
     else ((targetDesc, verificationOutcomes st, None), trace st)).2
    = trace r.2) as Htrace.
  { intros [err st]. by repeat case_match. }
  assert (∀ d, inl targetDesc = (inl d : Descriptor + error) →
               Referrers repo d = Referrers repo targetDesc) as Hsame
    by (by intros d [= <-]).
  destruct (SkipVerify verifier) as [skipChecker|].
  - destruct (skipChecker localVerifyOptions) as [[[] level] [err|]];
      try (simpl; split_and!; [lia|done|intros; apply prefix_nil]).
    cbv zeta. rewrite Htrace.
    destruct (Hlisting [CallResolve layoutReference;
                        CallSkipVerify localVerifyOptions] eq_refl eq_refl _ eq_refl)
      as (? & ? & ?).
    split_and!; [done|done|]. intros d Hd. by rewrite (Hsame d Hd).
  - cbv zeta. rewrite Htrace.
    destruct (Hlisting [CallResolve layoutReference] eq_refl eq_refl _ eq_refl)
      as (? & ? & ?).
    split_and!; [done|done|]. intros d Hd. by rewrite (Hsame d Hd).
Qed.

End verify_local_properties.

Module local_samples.
Import notation.

(** An OCI layout that holds the signatures of [verify_samples.repository]. *)
Definition layout (pages : list (list Descriptor)) : Repository :=
  {| isRemote := false;
     Resolve := λ reference,
       if String.eqb reference "v1" then inl verify_samples.artifact
       else inr (errorString "not found");
     Referrers := λ _, (pages, None);
     FetchSignatureBlob := verify_samples.fetch;
     PushSignature := λ _ _ _ _, inr (errorString "read only") |}.

Definition options (reference : string) (limit : Z) (targetAtLocal : bool)
    : notation_local.LocalVerifyOptions.t :=
  {| notation_local.LocalVerifyOptions.LayoutReference := reference;
     notation_local.LocalVerifyOptions.PluginConfig := ∅;
     notation_local.LocalVerifyOptions.MaxSignatureAttempts := limit;
     notation_local.LocalVerifyOptions.UserMetadata := ∅;
     notation_local.LocalVerifyOptions.TargetAtLocal := targetAtLocal;
     notation_local.LocalVerifyOptions.TrustPolicyScope := "local/foo" |}.

End local_samples.

(** A policy that skips does not save a limit of zero, and a reference that
    cannot be resolved is reported as it is. *)
Lemma VerifyLocalContent_checks_witness :
  @notation_local.VerifyLocalContent sampleLib verify_samples.skippingVerifier
    (local_samples.layout []) (local_samples.options "v1" 0 true)
  = ((emptyDescriptor, [],
      Some (ErrorSignatureRetrievalFailed
        "verifyOptions.MaxSignatureAttempts expects a positive number, got 0")), [])
  ∧ @notation_local.VerifyLocalContent sampleLib verify_samples.skippingVerifier
      (local_samples.layout []) (local_samples.options "v2" 5 true)
    = ((emptyDescriptor, [], Some (errorString "not found")),
       [notation.CallResolve "v2"]).
Proof.
  split.
  - apply (@VerifyLocalContent_checks sampleLib verify_samples.skippingVerifier
             (local_samples.layout []) (local_samples.options "v1" 0 true));
      [reflexivity|simpl; lia].
  - apply (@VerifyLocalContent_checks sampleLib verify_samples.skippingVerifier
             (local_samples.layout []) (local_samples.options "v2" 5 true));
      [reflexivity|simpl; lia|reflexivity|reflexivity].
Defined.

Lemma VerifyLocalContent_skip_witness :
  @notation_local.VerifyLocalContent sampleLib verify_samples.skippingVerifier
    (local_samples.layout []) (local_samples.options "v1" 5 true)
  = ((emptyDescriptor, [skipped (Some verify_samples.skipLevel)], None),
     [notation.CallResolve "v1";
      notation.CallSkipVerify
        (localVerifyOptions (local_samples.options "v1" 5 true))]).
Proof.
  apply (@VerifyLocalContent_skip sampleLib verify_samples.skippingVerifier
           (local_samples.layout []) (local_samples.options "v1" 5 true)
           verify_samples.artifact
           (λ _, (true, Some verify_samples.skipLevel, None)));
    [reflexivity|simpl; lia|reflexivity..].
Defined.

Lemma local_callback_as_remote_witness :
  sameButRetrieval
    (@notation_local.callback sampleLib verify_samples.verifier
       (local_samples.layout []) (local_samples.options "v1" 5 true)
       verify_samples.artifact
       [verify_samples.manifest "1"; verify_samples.manifest "gone"]
       (@initial (verify_samples.options 5) verify_samples.artifact [])).1
    (@notation.callback sampleLib verify_samples.verifier
       (local_samples.layout []) (verify_samples.options 5)
       verify_samples.artifact
       [verify_samples.manifest "1"; verify_samples.manifest "gone"]
       (@initial (verify_samples.options 5) verify_samples.artifact [])).1.
Proof.
  apply (@local_callback_as_remote sampleLib verify_samples.verifier
           (local_samples.layout []) (local_samples.options "v1" 5 true)
           (verify_samples.options 5)).
  reflexivity.
Defined.

(** ** [PluginSigner] *)
Section plugin_signer.
Context `{!GoLib} `{!jws.JwsLib}.
Import jws.

Lemma foldl_insert_entries (entries : list (string * string)) :
  ∀ acc : gmap string string,
  NoDup entries.*1 →
  foldl (λ c '(k, v), <[k:=v]> c) acc entries = list_to_map entries ∪ acc.
Proof.
  induction entries as [|[k v] entries IH]; intros acc Hdup; simpl.
  - by rewrite (left_id_L ∅ (∪)).
  - apply NoDup_cons in Hdup as [Hk Hdup]. rewrite IH by done.
    rewrite <-insert_union_l, <-insert_union_r; [done|].
    by apply not_elem_of_list_to_map_1.
Qed.

(** X20.  [mergeConfig] returns the configuration of the request laid over
    the configuration of the signer: a key of the request has the value of
    the request, any other key the value of the signer; the order in which
    the maps are ranged over does not matter. *)
Theorem mergeConfig_union (s : PluginSigner) (config : gmap string string) :
  mergeConfig s config = config ∪ PluginConfig s ∧
  ∀ k, mergeConfig s config !! k
       = match config !! k with
         | Some v => Some v
         | None => PluginConfig s !! k
         end.
Proof.
  assert (mergeConfig s config = config ∪ PluginConfig s) as Heq.
  { unfold mergeConfig.
    rewrite !foldl_insert_entries by apply NoDup_fst_range.
    by rewrite !list_to_map_range, (right_id_L ∅ (∪)). }
  split; [done|]. intros k. rewrite Heq, lookup_union.
  by destruct (config !! k), (PluginConfig s !! k).
Qed.

(** [parseCertChain] parses every certificate, in order. *)
Lemma parseCertChain_ok certChain certs :
  parseCertChain certChain = inl certs →
  Forall2 (λ raw cert, x509_ParseCertificate raw = inl cert) certChain certs.
Proof.
  revert certs. induction certChain as [|raw certChain IH]; intros certs; simpl.
  - intros [= <-]. constructor.
  - destruct (x509_ParseCertificate raw) as [cert|] eqn:Hraw; [|done].
    destruct (parseCertChain certChain) as [certs'|]; [|done].
    intros [= <-]. constructor; [done|by apply IH].
Qed.

(** X21.  When the metadata of the plugin is valid and declares the
    capability to generate envelopes but not the one to generate signatures,
    [Sign] returns the error [not implemented]; it has run the command
    get-plugin-metadata and no other. *)
Theorem Sign_envelope_generator (s : PluginSigner) (desc : Descriptor)
    (opts : SignOptions) (metadata : Metadata) :
  Runner s CommandGetMetadata NoRequest = inl (RespMetadata metadata) →
  Validate metadata = None →
  HasCapability metadata CapabilitySignatureGenerator = false →
  HasCapability metadata CapabilityEnvelopeGenerator = true →
  Sign s desc opts
  = (([], Some (errorString "not implemented")),
     [Run CommandGetMetadata NoRequest]).
Proof.
  intros Hrun Hvalid Hsig Henv. unfold Sign.
  by rewrite Hrun, Hvalid, Hsig, Henv.
Qed.

(** X22.  [Sign] returns an envelope only when everything has been checked:
    the metadata is valid and declares the capability to generate
    signatures; describe-key and generate-signature, run with the merged
    configuration, both answer with the key of the signer; the key spec and
    the signing algorithm are supported; the payload is valid; the chain of
    the response is not empty and every certificate of it parses; the
    signature verifies against the first certificate, which has the
    extended key usage of code signing.  The envelope is the one that
    [jwtEnvelope] builds from the signing string and the signature, and the
    three commands have been run once each, in that order. *)
Theorem Sign_success (s : PluginSigner) (desc : Descriptor) (opts : SignOptions)
    (envelope : list byte) (tr : list event) :
  Sign s desc opts = ((envelope, None), tr) →
  let config := mergeConfig s (opts_PluginConfig opts) in
  let describe := ReqDescribeKey
    {| DescribeKeyRequest.ContractVersion := "1";
       DescribeKeyRequest.KeyID := KeyID s;
       DescribeKeyRequest.PluginConfig := config |} in
  ∃ metadata key resp signing leaf certs,
    let alg := KeySpec_SignatureAlgorithm (DescribeKeyResponse.KeySpec key) in
    let generate := ReqGenerateSignature
      {| GenerateSignatureRequest.ContractVersion := "1";
         GenerateSignatureRequest.KeyID := KeyID s;
         GenerateSignatureRequest.KeySpec := DescribeKeyResponse.KeySpec key;
         GenerateSignatureRequest.Hash := SignatureAlgorithm_Hash alg;
         GenerateSignatureRequest.Payload := signing;
         GenerateSignatureRequest.PluginConfig := config |} in
    let jwsAlg :=
      SignatureAlgorithm_JWS (GenerateSignatureResponse.SigningAlgorithm resp) in
    let signed64Url :=
      base64_RawURLEncoding (GenerateSignatureResponse.Signature resp) in
    Runner s CommandGetMetadata NoRequest = inl (RespMetadata metadata) ∧
    Validate metadata = None ∧
    HasCapability metadata CapabilitySignatureGenerator = true ∧
    Runner s CommandDescribeKey describe = inl (RespDescribeKey key) ∧
    DescribeKeyResponse.KeyID key = KeyID s ∧ alg ≠ "" ∧
    Payload_Valid (packPayload desc opts) = None ∧
    SigningString (SignatureAlgorithm_JWS alg) (packPayload desc opts) = inl signing ∧
    Runner s CommandGenerateSignature generate = inl (RespGenerateSignature resp) ∧
    GenerateSignatureResponse.KeyID resp = KeyID s ∧ jwsAlg ≠ "" ∧
    parseCertChain (GenerateSignatureResponse.CertificateChain resp)
    = inl (leaf :: certs) ∧
    verifyJWT jwsAlg signing signed64Url leaf = None ∧
    verifyCertExtKeyUsage_CodeSigning leaf = None ∧
    jwtEnvelope opts (signing +:+ "." +:+ signed64Url)
      (GenerateSignatureResponse.CertificateChain resp) = inl envelope ∧
    tr = [Run CommandGetMetadata NoRequest; Run CommandDescribeKey describe;
          Run CommandGenerateSignature generate].
Proof.
  unfold Sign.
  destruct (Runner s CommandGetMetadata NoRequest) as [[metadata| | |]|] eqn:Hmeta;
    try done.
  destruct (Validate metadata) eqn:Hvalid; [done|].
  destruct (HasCapability metadata CapabilitySignatureGenerator) eqn:Hsig.
  2: { by destruct (HasCapability metadata CapabilityEnvelopeGenerator). }
  unfold generateSignature, describeKey.
  destruct (Runner s CommandDescribeKey _) as [[|key| |]|] eqn:Hdescribe; try done.
  destruct (String.eqb_spec (KeyID s) (DescribeKeyResponse.KeyID key)) as [Hkey|];
    [|done]. cbn [negb].
  destruct (String.eqb_spec
              (KeySpec_SignatureAlgorithm (DescribeKeyResponse.KeySpec key)) "")
    as [|Halg]; [done|].
  destruct (Payload_Valid _) eqn:Hpayload; [done|].
  destruct (SigningString _ _) as [signing|] eqn:Hsigning; [|done].
  destruct (Runner s CommandGenerateSignature _) as [[| |resp|]|] eqn:Hgenerate;
    try done.
  destruct (String.eqb_spec (KeyID s) (GenerateSignatureResponse.KeyID resp))
    as [Hkey'|]; [|done]. cbn [negb].
  destruct (String.eqb_spec
    (SignatureAlgorithm_JWS (GenerateSignatureResponse.SigningAlgorithm resp)) "")
    as [|Hjws]; [done|].
  destruct (GenerateSignatureResponse.CertificateChain resp) as [|raw chain] eqn:Hchain;
    [done|].
  destruct (parseCertChain (raw :: chain)) as [[|leaf certs]|] eqn:Hparse; try done.
  destruct (verifyJWT _ _ _ leaf) eqn:Hverify; [done|].
  destruct (verifyCertExtKeyUsage_CodeSigning leaf) eqn:Heku; [done|].
  destruct (jwtEnvelope _ _ _) as [env|] eqn:Henv; [|done].
  intros Heq. simpl in Heq. injection Heq as <- <-.
  exists metadata, key, resp, signing, leaf, certs.
  rewrite Hchain. by split_and!.
Qed.

End plugin_signer.

Module jws_samples.
Import jws.

(** A library in which the options are the configuration of the plugin and
    the payload is the descriptor. *)
Definition lib : JwsLib :=
  {| SignOptions := gmap string string;
     Payload := Descriptor;
     opts_PluginConfig := λ opts, opts;
     KeySpec_SignatureAlgorithm := λ keySpec,
       if String.eqb keySpec "RSA-2048" then "RSASSA-PSS-SHA-256" else "";
     SignatureAlgorithm_JWS := λ alg,
       if String.eqb alg "RSASSA-PSS-SHA-256" then "PS256" else "";
     SignatureAlgorithm_Hash := λ alg, "SHA-256";
     packPayload := λ desc opts, desc;
     Payload_Valid := λ payload, None;
     SigningString := λ alg payload, inl (alg +:+ "." +:+ Digest payload);
     x509_ParseCertificate := λ raw,
       inl {| Raw := raw; RawSubject := take 1 raw; RawIssuer := drop 1 raw;
              Subject := "CN=signer"; IsCA := false |};
     base64_RawURLEncoding := notation.hex_EncodeToString;
     jwt_Verify := λ alg payload sig cert, None;
     verifyCertExtKeyUsage_CodeSigning := λ cert,
       if IsCA cert then Some (errorString "certificate is a CA") else None;
     jwtEnvelope := λ opts compact chain, inl (concat chain) |}.

Definition metadata (capabilities : list Capability) : Metadata :=
  {| Name := "example"; Description := "example plugin"; Version := "1.0.0";
     URL := "https://example.com"; SupportedContractVersions := ["1"];
     Capabilities := capabilities |}.

(** A plugin that holds the key [mine]. *)
Definition plugin (capabilities : list Capability) : PluginSigner :=
  {| Runner := λ cmd req,
       match cmd with
       | CommandGetMetadata => inl (RespMetadata (metadata capabilities))
       | CommandDescribeKey =>
         inl (RespDescribeKey {| DescribeKeyResponse.KeyID := "mine";
                                 DescribeKeyResponse.KeySpec := "RSA-2048" |})
       | CommandGenerateSignature =>
         inl (RespGenerateSignature
                {| GenerateSignatureResponse.KeyID := "mine";
                   GenerateSignatureResponse.Signature := ["s"%byte];
                   GenerateSignatureResponse.SigningAlgorithm := "RSASSA-PSS-SHA-256";
                   GenerateSignatureResponse.CertificateChain :=
                     [["l"%byte; "r"%byte]; ["r"%byte; "r"%byte]] |})
       | CommandGenerateEnvelope => inr (errorString "unknown command")
       end;
     KeyID := "mine";
     PluginConfig := {[ "region" := "eu" ]} |}.

End jws_samples.

Lemma Sign_envelope_generator_witness :
  @jws.Sign sampleLib jws_samples.lib
    (jws_samples.plugin [jws.CapabilityEnvelopeGenerator])
    verify_samples.artifact ∅
  = (([], Some (errorString "not implemented")),
     [jws.Run jws.CommandGetMetadata jws.NoRequest]).
Proof.
  by apply (@Sign_envelope_generator sampleLib jws_samples.lib
              (jws_samples.plugin [jws.CapabilityEnvelopeGenerator])
              verify_samples.artifact ∅
              (jws_samples.metadata [jws.CapabilityEnvelopeGenerator])).
Defined.

Lemma Sign_success_witness :
  ∃ key, jws.Runner (jws_samples.plugin [jws.CapabilitySignatureGenerator])
           jws.CommandDescribeKey
           (jws.ReqDescribeKey
              {| jws.DescribeKeyRequest.ContractVersion := "1";
                 jws.DescribeKeyRequest.KeyID := "mine";
                 jws.DescribeKeyRequest.PluginConfig :=
                   @jws.mergeConfig sampleLib
                     (jws_samples.plugin [jws.CapabilitySignatureGenerator])
                     {[ "region" := "us" ]} |})
         = inl (jws.RespDescribeKey key) ∧
         jws.DescribeKeyResponse.KeyID key = "mine".
Proof.
  destruct (@Sign_success sampleLib jws_samples.lib
              (jws_samples.plugin [jws.CapabilitySignatureGenerator])
              verify_samples.artifact ({[ "region" := "us" ]} : gmap string string)
              ["l"%byte; "r"%byte; "r"%byte; "r"%byte]
              (@jws.Sign sampleLib jws_samples.lib
                 (jws_samples.plugin [jws.CapabilitySignatureGenerator])
                 verify_samples.artifact
                 ({[ "region" := "us" ]} : gmap string string)).2)
    as (metadata & key & resp & signing & leaf & certs & H);
    [vm_compute; reflexivity|].
  exists key. cbv zeta in H. destruct H as (_ & _ & _ & Hkey & Hid & _).
  split; [exact Hkey|exact Hid].
Defined.

(** ** Trust stores *)
Section trust_store.
Context `{!GoLib}.
Import verification.
Context (fsys : FileSystem) (path : string).

(** The path is a directory that exists and is not a symbolic link. *)
Definition regularDirectory : Prop :=
  Stat_IsNotExist fsys path = false ∧
  ∃ mode, Lstat fsys path = inl mode ∧
          Mode_IsDir mode = true ∧ Mode_Symlink mode = false.

(** The entry [file] is a regular file that holds the certificates [certs],
    which [validateCerts] accepts. *)
Definition goodFile (file : DirEntry) (certs : list Certificate) : Prop :=
  Entry_IsDir file = false ∧ Entry_Symlink file = false ∧
  ReadCertificateFile fsys (filepath_Join fsys path (Entry_Name file)) = inl certs ∧
  validateCerts certs (filepath_Join fsys path (Entry_Name file)) = None.

(** The entry [file] makes the load fail with [err]: it is a directory or a
    symbolic link, or it cannot be read, or [validateCerts] refuses what it
    holds. *)
Definition badFile (file : DirEntry) (err : error) : Prop :=
  let joinedPath := filepath_Join fsys path (Entry_Name file) in
  (Entry_IsDir file || Entry_Symlink file = true ∧
   err = errorString (strconv_Quote joinedPath
     +:+ " is not a regular file (directories or symlinks are not supported)"))
  ∨ (Entry_IsDir file || Entry_Symlink file = false ∧
     ((∃ e, ReadCertificateFile fsys joinedPath = inr e ∧
            err = wrapError ("error while reading certificates from "
                    +:+ strconv_Quote joinedPath +:+ ": " +:+ Error e) e)
      ∨ (∃ certs, ReadCertificateFile fsys joinedPath = inl certs ∧
                  validateCerts certs joinedPath = Some err))).

(** X23.  [validateCerts] accepts one certificate that is self-signed or of a
    CA, and two or more certificates that are all of a CA; it refuses
    everything else, the empty list too. *)
Theorem validateCerts_accepts certs file :
  validateCerts certs file = None ↔
  (∃ cert, certs = [cert] ∧ (isSelfSigned cert = true ∨ IsCA cert = true))
  ∨ ((2 ≤ length certs)%nat ∧ Forall (λ cert, IsCA cert = true) certs).
Proof.
  unfold validateCerts. destruct certs as [|c1 [|c2 certs]].
  - split; [done|]. intros [(c & [=] & _)|[Hlen _]]. simpl in Hlen. lia.
  - split.
    + intros Hvalid. left. exists c1. split; [done|].
      destruct (isSelfSigned c1), (IsCA c1); simpl in Hvalid; auto; discriminate.
    + intros [(c & [= <-] & [-> | ->])|[Hlen _]];
        [done|by rewrite andb_false_r|simpl in Hlen; lia].
  - destruct (List.find _ _) as [cert|] eqn:Hfind.
    + split; [done|]. intros [(c & [=] & _)|[_ Hall]].
      apply find_some in Hfind as [Hin Hnot].
      rewrite Forall_forall in Hall.
      rewrite (Hall cert) in Hnot; [done|]. by apply list_elem_of_In.
    + split; [|done]. intros _. right. split; [simpl; lia|].
      apply Forall_forall. intros cert Hin.
      apply list_elem_of_In in Hin.
      pose proof (find_none _ _ Hfind cert Hin) as Hnot. simpl in Hnot.
      by apply negb_false_iff in Hnot.
Qed.

(** Every certificate that [validateCerts] accepts is self-signed or of a
    CA. *)
Lemma validateCerts_each certs file :
  validateCerts certs file = None →
  certs ≠ [] ∧ Forall (λ cert, isSelfSigned cert = true ∨ IsCA cert = true) certs.
Proof.
  unfold validateCerts. destruct certs as [|c1 [|c2 certs]]; [done| |].
  - intros Hvalid. split; [done|]. constructor; [|constructor].
    destruct (isSelfSigned c1), (IsCA c1); simpl in Hvalid; auto; discriminate.
  - destruct (List.find _ _) as [cert|] eqn:Hfind; [done|]. intros _.
    split; [done|]. apply Forall_forall. intros cert Hin%list_elem_of_In.
    pose proof (find_none _ _ Hfind cert Hin) as Hnot. simpl in Hnot.
    right. by apply negb_false_iff in Hnot.
Qed.

Lemma loadFiles_good files : ∀ perFile certificates,
  Forall2 goodFile files perFile →
  loadFiles fsys path files certificates = inl (certificates ++ concat perFile).
Proof.
  induction files as [|file files IH]; intros perFile certificates Hgood.
  - apply Forall2_nil_inv_l in Hgood as ->. simpl. by rewrite app_nil_r.
  - apply Forall2_cons_inv_l in Hgood
      as (certs & perFile' & (Hdir & Hlink & Hread & Hvalid) & Hgood & ->).
    cbn [loadFiles]. rewrite Hdir, Hlink, Hread, Hvalid. simpl.
    rewrite (IH perFile') by done. by rewrite <-app_assoc.
Qed.

Lemma loadFiles_ok files : ∀ certificates result,
  loadFiles fsys path files certificates = inl result →
  ∃ perFile, Forall2 goodFile files perFile ∧
             result = certificates ++ concat perFile.
Proof.
  induction files as [|file files IH]; intros certificates result; cbn [loadFiles].
  - intros [= <-]. exists []. split; [constructor|]. simpl. by rewrite app_nil_r.
  - destruct (Entry_IsDir file) eqn:Hdir; [done|].
    destruct (Entry_Symlink file) eqn:Hlink; [done|]. simpl.
    destruct (ReadCertificateFile fsys _) as [certs|] eqn:Hread; [|done].
    destruct (validateCerts certs _) eqn:Hvalid; [done|].
    intros (perFile & Hgood & ->)%IH.
    exists (certs :: perFile). split; [by constructor|].
    simpl. by rewrite <-app_assoc.
Qed.

Lemma loadFiles_bad pre file post perFile err certificates :
  Forall2 goodFile pre perFile → badFile file err →
  loadFiles fsys path (pre ++ file :: post) certificates = inr err.
Proof.
  revert perFile certificates.
  induction pre as [|f pre IH]; intros perFile certificates Hgood Hbad.
  - cbn [app loadFiles].
    destruct Hbad as [[-> ->]|[-> [(e & -> & ->)|(certs & -> & ->)]]]; done.
  - apply Forall2_cons_inv_l in Hgood
      as (certs & perFile' & (Hdir & Hlink & Hread & Hvalid) & Hgood & ->).
    cbn [app loadFiles]. rewrite Hdir, Hlink, Hread, Hvalid. simpl.
    by apply (IH perFile').
Qed.

Lemma LoadX509TrustStore_ok trustStore err :
  LoadX509TrustStore fsys path = (Some trustStore, err) →
  err = None ∧ regularDirectory ∧
  ∃ files perFile,
    ReadDir fsys path = inl files ∧ Forall2 goodFile files perFile ∧
    concat perFile ≠ [] ∧
    trustStore = {| Name := filepath_Base fsys path;
                    Prefix := filepath_Base fsys (filepath_Dir fsys path);
                    Path := path;
                    Certificates := concat perFile |}.
Proof.
  unfold LoadX509TrustStore, regularDirectory.
  destruct (Stat_IsNotExist fsys path); [done|].
  destruct (Lstat fsys path) as [mode|]; [|done].
  destruct (Mode_IsDir mode) eqn:Hdir; [|done].
  destruct (Mode_Symlink mode) eqn:Hlink; [done|]. simpl.
  destruct (ReadDir fsys path) as [files|]; [|done].
  destruct (loadFiles fsys path files []) as [certificates|] eqn:Hfiles; [|done].
  apply loadFiles_ok in Hfiles as (perFile & Hgood & ->). simpl.
  destruct (concat perFile) as [|c cs] eqn:Hcerts; [done|]. simpl.
  intros [= <- <-]. split_and!; [done|done|by exists mode|].
  exists files, perFile. by rewrite Hcerts.
Qed.

Lemma LoadX509TrustStore_good files perFile :
  regularDirectory → ReadDir fsys path = inl files →
  Forall2 goodFile files perFile → concat perFile ≠ [] →
  LoadX509TrustStore fsys path
  = (Some {| Name := filepath_Base fsys path;
             Prefix := filepath_Base fsys (filepath_Dir fsys path);
             Path := path;
             Certificates := concat perFile |}, None).
Proof.
  intros (Hexists & mode & Hmode & Hdir & Hlink) Hfiles Hgood Hcerts.
  unfold LoadX509TrustStore.
  rewrite Hexists, Hmode, Hdir, Hlink, Hfiles. simpl.
  rewrite (loadFiles_good files perFile) by done. simpl.
  by destruct (concat perFile).
Qed.

(** X24.  [LoadX509TrustStore] returns a store, and then no error, exactly
    when the path is a directory that exists and is not a symbolic link,
    every entry of it is a regular file whose certificates [validateCerts]
    accepts, and there is at least one certificate.  The store holds the
    certificates of the files in the order of the directory, and the base
    names of the path and of its parent as name and prefix. *)
Theorem LoadX509TrustStore_accepts (trustStore : X509TrustStore) :
  (∀ err, LoadX509TrustStore fsys path = (Some trustStore, err) → err = None)
  ∧ (LoadX509TrustStore fsys path = (Some trustStore, None) ↔
     regularDirectory ∧
     ∃ files perFile,
       ReadDir fsys path = inl files ∧ Forall2 goodFile files perFile ∧
       concat perFile ≠ [] ∧
       trustStore = {| Name := filepath_Base fsys path;
                       Prefix := filepath_Base fsys (filepath_Dir fsys path);
                       Path := path;
                       Certificates := concat perFile |}).
Proof.
  split; [intros err Hload; by apply LoadX509TrustStore_ok in Hload as [? _]|].
  split.
  - by intros (_ & ? & ?)%LoadX509TrustStore_ok.
  - intros (Hdir & files & perFile & Hfiles & Hgood & Hcerts & ->).
    by apply (LoadX509TrustStore_good files).
Qed.

(** X25.  In a store that [LoadX509TrustStore] returns there is at least one
    certificate, and every certificate is self-signed or of a CA; so a store
    of exactly one certificate holds a self-signed one or one of a CA. *)
Theorem LoadX509TrustStore_certificates (trustStore : X509TrustStore) err :
  LoadX509TrustStore fsys path = (Some trustStore, err) →
  Certificates trustStore ≠ [] ∧
  Forall (λ cert, isSelfSigned cert = true ∨ IsCA cert = true)
         (Certificates trustStore).
Proof.
  intros (_ & _ & files & perFile & _ & Hgood & Hcerts & ->)%LoadX509TrustStore_ok.
  simpl. split; [done|]. clear Hcerts.
  induction Hgood as [|file certs files perFile (_ & _ & _ & Hvalid) _ IH];
    [constructor|].
  simpl. apply Forall_app. split; [|done].
  by apply validateCerts_each in Hvalid as [_ ?].
Qed.

(** X26.  The checks are made file by file: a directory of regular files
    that each hold one self-signed certificate is accepted, whatever their
    number and whether or not the certificates are of a CA, and the store
    holds them all, in the order of the directory. *)
Theorem LoadX509TrustStore_self_signed_files (files : list DirEntry)
    (certs : list Certificate) :
  regularDirectory → ReadDir fsys path = inl files → files ≠ [] →
  Forall2 (λ file cert,
             Entry_IsDir file = false ∧ Entry_Symlink file = false ∧
             ReadCertificateFile fsys (filepath_Join fsys path (Entry_Name file))
             = inl [cert] ∧
             isSelfSigned cert = true) files certs →
  LoadX509TrustStore fsys path
  = (Some {| Name := filepath_Base fsys path;
             Prefix := filepath_Base fsys (filepath_Dir fsys path);
             Path := path;
             Certificates := certs |}, None).
Proof.
  intros Hdir Hfiles Hne Hall.
  assert (Forall2 goodFile files ((λ cert, [cert]) <$> certs)) as Hgood.
  { clear Hfiles Hne.
    induction Hall as [|file cert files certs (? & ? & Hread & Hself) _ IH];
      [constructor|].
    constructor; [|done]. split_and!; [done..|].
    unfold validateCerts. by rewrite Hself. }
  assert (concat ((λ cert, [cert]) <$> certs) = certs) as Hconcat.
  { clear. induction certs as [|c certs IH]; [done|].
    rewrite fmap_cons. simpl. by rewrite IH. }
  rewrite <-Hconcat at 1.
  apply (LoadX509TrustStore_good files); [done|done|done|].
  rewrite Hconcat. intros ->. apply Forall2_nil_inv_r in Hall. done.
Qed.

(** X27.  The first entry of the directory, in its order, that is not a
    regular file, that cannot be read, or whose certificates [validateCerts]
    refuses, makes [LoadX509TrustStore] fail, with the error of that entry,
    whatever follows it. *)
Theorem LoadX509TrustStore_first_bad_file pre file post perFile err :
  regularDirectory → ReadDir fsys path = inl (pre ++ file :: post) →
  Forall2 goodFile pre perFile → badFile file err →
  LoadX509TrustStore fsys path = (None, Some err).
Proof.
  intros (Hexists & mode & Hmode & Hdir & Hlink) Hfiles Hgood Hbad.
  unfold LoadX509TrustStore.
  rewrite Hexists, Hmode, Hdir, Hlink, Hfiles. simpl.
  by rewrite (loadFiles_bad pre file post perFile err).
Qed.

End trust_store.

Module trust_store_samples.
Import verification.

(** Two self-signed certificates that are not of a CA. *)
Definition alice : Certificate :=
  {| Raw := ["a"%byte]; RawSubject := ["A"%byte]; RawIssuer := ["A"%byte];
     Subject := "CN=alice"; IsCA := false |}.
Definition bob : Certificate :=
  {| Raw := ["b"%byte]; RawSubject := ["B"%byte]; RawIssuer := ["B"%byte];
     Subject := "CN=bob"; IsCA := false |}.

Definition regular (name : string) : DirEntry :=
  {| Entry_Name := name; Entry_IsDir := false; Entry_Symlink := false |}.
Definition directory (name : string) : DirEntry :=
  {| Entry_Name := name; Entry_IsDir := true; Entry_Symlink := false |}.

(** A file system with one directory, which holds [entries]; the file
    [alice.crt] holds [alice], any other file holds [bob]. *)
Definition fileSystem (entries : list DirEntry) : FileSystem :=
  {| Stat_IsNotExist := λ p, negb (String.eqb p "/truststore/x509/ca/acme");
     Lstat := λ p, inl {| Mode_IsDir := true; Mode_Symlink := false |};
     ReadDir := λ p, inl entries;
     ReadCertificateFile := λ p,
       if String.eqb p "/truststore/x509/ca/acme/alice.crt" then inl [alice]
       else inl [bob];
     filepath_Join := λ dir name, dir +:+ "/" +:+ name;
     filepath_Base := λ p,
       if String.eqb p "/truststore/x509/ca/acme" then "acme" else "ca";
     filepath_Dir := λ p, "/truststore/x509/ca" |}.

Definition store : X509TrustStore :=
  {| Name := "acme"; Prefix := "ca"; Path := "/truststore/x509/ca/acme";
     Certificates := [alice; bob] |}.

Lemma regularDirectory_acme entries :
  regularDirectory (fileSystem entries) "/truststore/x509/ca/acme".
Proof. split; [done|]. by eexists. Qed.

End trust_store_samples.

(** A store of two certificates of which none is of a CA. *)
Lemma LoadX509TrustStore_self_signed_files_witness :
  @verification.LoadX509TrustStore sampleLib
    (trust_store_samples.fileSystem
       [trust_store_samples.regular "alice.crt";
        trust_store_samples.regular "bob.crt"])
    "/truststore/x509/ca/acme"
  = (Some trust_store_samples.store, None).
Proof.
  apply (@LoadX509TrustStore_self_signed_files sampleLib
           (trust_store_samples.fileSystem
              [trust_store_samples.regular "alice.crt";
               trust_store_samples.regular "bob.crt"])
           "/truststore/x509/ca/acme"
           [trust_store_samples.regular "alice.crt";
            trust_store_samples.regular "bob.crt"]
           [trust_store_samples.alice; trust_store_samples.bob]).
  - apply trust_store_samples.regularDirectory_acme.
  - reflexivity.
  - discriminate.
  - repeat constructor.
Defined.

Lemma LoadX509TrustStore_certificates_witness :
  verification.Certificates trust_store_samples.store ≠ [] ∧
  Forall (λ cert, @verification.isSelfSigned sampleLib cert = true
                  ∨ IsCA cert = true)
         (verification.Certificates trust_store_samples.store).
Proof.
  apply (@LoadX509TrustStore_certificates sampleLib
           (trust_store_samples.fileSystem
              [trust_store_samples.regular "alice.crt";
               trust_store_samples.regular "bob.crt"])
           "/truststore/x509/ca/acme" trust_store_samples.store None).
  reflexivity.
Defined.

Lemma LoadX509TrustStore_first_bad_file_witness :
  @verification.LoadX509TrustStore sampleLib
    (trust_store_samples.fileSystem
       [trust_store_samples.regular "alice.crt";
        trust_store_samples.directory "old";
        trust_store_samples.regular "bob.crt"])
    "/truststore/x509/ca/acme"
  = (None,
     Some (errorString
       "'/truststore/x509/ca/acme/old' is not a regular file (directories or symlinks are not supported)")).
Proof.
  apply (@LoadX509TrustStore_first_bad_file sampleLib
           (trust_store_samples.fileSystem
              [trust_store_samples.regular "alice.crt";
               trust_store_samples.directory "old";
               trust_store_samples.regular "bob.crt"])
           "/truststore/x509/ca/acme"
           [trust_store_samples.regular "alice.crt"]
           (trust_store_samples.directory "old")
           [trust_store_samples.regular "bob.crt"]
           [[trust_store_samples.alice]]).
  - apply trust_store_samples.regularDirectory_acme.
  - reflexivity.
  - repeat constructor.
  - left. split; reflexivity.
Defined.

(** * Package registry, [RepositoryClient]

    The client of the registry package that lists the signature manifests of
    a manifest digest and downloads blobs by digest. *)
Module registry_client.

Definition maxBlobSizeLimit : Z := 32 * 1024 * 1024.
Definition maxManifestSizeLimit : Z := 4 * 1024 * 1024.

(** [artifactspec.MediaTypeArtifactManifest] *)
Definition MediaTypeArtifactManifest : string :=
  "application/vnd.cncf.oras.artifact.manifest.v1+json".

(** [notationDescriptorFromArtifact] and [notationDescriptorFromOCI]: the
    descriptor of package notation holds the media type, the digest and the
    size only. *)
Definition notationDescriptorFromArtifact (desc : Descriptor) : Descriptor :=
  {| MediaType := MediaType desc; Digest := Digest desc; Size := Size desc;
     Annotations := None |}.

(** [artifactspec.Manifest], as far as the code reads it; [Annotations] may
    be [nil]. *)
Record Manifest := {
  Blobs : list Descriptor;
  ManifestAnnotations : option (gmap string string);
}.

Record SignatureManifest := {
  Blob : Descriptor;
  Annotations : option (gmap string string);
}.

(** The embedded [remote.Repository].  [Referrers digest] is what the
    referrers listing of the manifest with that digest holds: the pages, in
    the order of delivery, and the error with which the listing ends when no
    callback stopped it.  [Manifests_Resolve] is [Resolve] on [Manifests()]
    when only artifact manifests are asked for, [Blobs_Resolve] the one on
    [Blobs()]; the two [FetchAll] are [content.FetchAll] on these stores. *)
Record RepositoryClient := {
  Referrers : string → list (list Descriptor) * option error;
  Manifests_Resolve : string → Descriptor + error;
  Manifests_FetchAll : Descriptor → list byte + error;
  Blobs_Resolve : string → Descriptor + error;
  Blobs_FetchAll : Descriptor → list byte + error;
  Unmarshal_Manifest : list byte → Manifest + error;
}.

(** What leaves the process. *)
Inductive event :=
  | ListReferrers (manifestDigest : string)
  | ResolveManifest (reference : string)
  | FetchManifest (desc : Descriptor)
  | ResolveBlob (reference : string)
  | FetchBlob (desc : Descriptor).

Section client.
Context `{!GoLib}.
Context (c : RepositoryClient).

Definition getArtifactManifest (manifestDigest : string)
    : (Manifest + error) * list event :=
  let tr := [ResolveManifest manifestDigest] in
  match Manifests_Resolve c manifestDigest with
  | inr err => (inr err, tr)
  | inl desc =>
    if Size desc >? maxManifestSizeLimit then
      (inr (errorString ("manifest too large: " +:+ pretty (Size desc))), tr)
    else
      let tr := tr ++ [FetchManifest desc] in
      match Manifests_FetchAll c desc with
      | inr err => (inr err, tr)
      | inl manifestJSON =>
        match Unmarshal_Manifest c manifestJSON with
        | inr err => (inr err, tr)
        | inl manifest => (inl manifest, tr)
        end
      end
  end.

(** The callback that [ListSignatureManifests] hands to [Referrers]; the
    state is the slice [signatureManifests] and the calls made. *)
Fixpoint collect (referrers : list Descriptor)
    (st : list SignatureManifest * list event)
    : option error * (list SignatureManifest * list event) :=
  match referrers with
  | [] => (None, st)
  | desc :: referrers =>
    if negb (String.eqb (MediaType desc) MediaTypeArtifactManifest) then
      collect referrers st
    else
      let '(artifact, tr) := getArtifactManifest (Digest desc) in
      let st := (st.1, st.2 ++ tr) in
      match artifact with
      | inr err =>
        (Some (errorString ("failed to fetch manifest: " +:+ Digest desc
                            +:+ ": " +:+ Error err)), st)
      | inl artifact =>
        match Blobs artifact with
        | [] => collect referrers st
        | blob :: _ =>
          collect referrers
            (st.1 ++ [{| Blob := notationDescriptorFromArtifact blob;
                         Annotations := ManifestAnnotations artifact |}], st.2)
        end
      end
  end.

Definition ListSignatureManifests (manifestDigest : string)
    : (list SignatureManifest * option error) * list event :=
  let '(pages, listErr) := Referrers c manifestDigest in
  let '(err, (signatureManifests, tr)) :=
    notation.deliver collect pages listErr ([], [ListReferrers manifestDigest]) in
  match err with
  | Some err => (([], Some err), tr)
  | None => ((signatureManifests, None), tr)
  end.

Definition GetBlob (digest : string) : (list byte * option error) * list event :=
  let tr := [ResolveBlob digest] in
  match Blobs_Resolve c digest with
  | inr err => (([], Some err), tr)
  | inl desc =>
    if Size desc >? maxBlobSizeLimit then
      (([], Some (errorString ("signature blob too large: "
                               +:+ pretty (Size desc)))), tr)
    else
      match Blobs_FetchAll c desc with
      | inr err => (([], Some err), tr ++ [FetchBlob desc])
      | inl blob => ((blob, None), tr ++ [FetchBlob desc])
      end
  end.

End client.
End registry_client.

(** ** [RepositoryClient] *)
Section repository_client.
Context `{!GoLib}.
Import registry_client.
Context (c : RepositoryClient).

(** What the referrer [desc] adds to the list: nothing when it is not an
    artifact manifest or when its manifest has no blob, and otherwise the
    first blob of its manifest with the annotations of the manifest. *)
Definition listed (desc : Descriptor) : option SignatureManifest :=
  if String.eqb (MediaType desc) MediaTypeArtifactManifest then
    match (getArtifactManifest c (Digest desc)).1 with
    | inl artifact =>
      match Blobs artifact with
      | blob :: _ =>
        Some {| Blob := notationDescriptorFromArtifact blob;
                Annotations := ManifestAnnotations artifact |}
      | [] => None
      end
    | inr _ => None
    end
  else None.

(** The manifest of the referrer [desc] can be fetched, if [desc] is an
    artifact manifest. *)
Definition fetchable (desc : Descriptor) : Prop :=
  MediaType desc = MediaTypeArtifactManifest →
  ∃ artifact, (getArtifactManifest c (Digest desc)).1 = inl artifact.

(** The referrer [desc] is an artifact manifest whose manifest cannot be
    fetched, because of [err]. *)
Definition unfetchable (desc : Descriptor) (err : error) : Prop :=
  MediaType desc = MediaTypeArtifactManifest ∧
  (getArtifactManifest c (Digest desc)).1 = inr err.

Lemma collect_app page : ∀ referrers st,
  collect c (page ++ referrers) st =
  match collect c page st with
  | (Some err, st') => (Some err, st')
  | (None, st') => collect c referrers st'
  end.
Proof.
  induction page as [|desc page IH]; intros referrers st; [done|].
  cbn [app collect]. destruct (negb _); [apply IH|].
  destruct (getArtifactManifest c (Digest desc)) as [[artifact|err] tr]; [|done].
  destruct (Blobs artifact); apply IH.
Qed.

Lemma deliver_collect pages listErr : ∀ st,
  notation.deliver (collect c) pages listErr st =
  match collect c (concat pages) st with
  | (Some err, st') => (Some err, st')
  | (None, st') => (listErr, st')
  end.
Proof.
  induction pages as [|page pages IH]; intros st; simpl; [done|].
  rewrite collect_app. destruct (collect c page st) as [[err|] st']; [done|].
  apply IH.
Qed.

Lemma collect_fetchable referrers : ∀ st,
  Forall fetchable referrers →
  ∃ tr, collect c referrers st = (None, (st.1 ++ omap listed referrers, st.2 ++ tr)).
Proof.
  induction referrers as [|desc referrers IH]; intros [sigs tr0] Hall.
  { exists []. simpl. by rewrite !app_nil_r. }
  apply Forall_cons in Hall as [Hdesc Hall].
  cbn [collect omap list_omap]. unfold listed at 1.
  destruct (String.eqb_spec (MediaType desc) MediaTypeArtifactManifest) as [Ht|];
    cbn [negb]; [|by apply IH].
  destruct (Hdesc Ht) as [artifact Hartifact].
  destruct (getArtifactManifest c (Digest desc)) as [r tr] eqn:Hget.
  simpl in Hartifact. subst r. cbn [fst snd].
  destruct (Blobs artifact) as [|blob blobs].
  - destruct (IH (sigs, tr0 ++ tr) Hall) as [tr' ->]. exists (tr ++ tr').
    simpl. by rewrite <-app_assoc.
  - destruct (IH (sigs ++ [{| Blob := notationDescriptorFromArtifact blob;
                             Annotations := ManifestAnnotations artifact |}],
                  tr0 ++ tr) Hall) as [tr' ->].
    exists (tr ++ tr'). simpl. by rewrite <-!app_assoc.
Qed.

Lemma collect_unfetchable pre desc post err : ∀ st,
  Forall fetchable pre → unfetchable desc err →
  ∃ st', collect c (pre ++ desc :: post) st
         = (Some (errorString ("failed to fetch manifest: " +:+ Digest desc
                               +:+ ": " +:+ Error err)), st').
Proof.
  intros st Hpre [Ht Herr]. rewrite collect_app.
  destruct (collect_fetchable pre st Hpre) as [tr ->].
  cbn [collect]. rewrite Ht. simpl.
  destruct (getArtifactManifest c (Digest desc)) as [r tr'].
  simpl in Herr. subst r. by eexists.
Qed.

Lemma collect_None referrers : ∀ st st',
  collect c referrers st = (None, st') → Forall fetchable referrers.
Proof.
  induction referrers as [|desc referrers IH]; intros st st'; [by constructor|].
  cbn [collect].
  destruct (String.eqb_spec (MediaType desc) MediaTypeArtifactManifest) as [Ht|Ht];
    cbn [negb].
  - destruct (getArtifactManifest c (Digest desc)) as [[artifact|err] tr] eqn:Hget;
      [|done].
    intros Hrest. constructor.
    + intros _. exists artifact. by rewrite Hget.
    + destruct (Blobs artifact); eapply IH, Hrest.
  - intros Hrest. constructor; [by intros ?|eapply IH, Hrest].
Qed.

(** X28.  [ListSignatureManifests] returns a list, and no error, exactly
    when the listing ends well and the manifest of every referrer that is an
    artifact manifest can be fetched.  The list then holds, in the order of
    delivery and whatever the pages, one entry for every such referrer whose
    manifest has a blob: the first blob of the manifest, with the
    annotations of the manifest; referrers of another media type and
    manifests without blob add nothing.  The first manifest that cannot be
    fetched makes the call fail with no list at all. *)
Theorem ListSignatureManifests_listed (manifestDigest : string) :
  let referrers := concat (Referrers c manifestDigest).1 in
  (∀ signatureManifests,
     (ListSignatureManifests c manifestDigest).1 = (signatureManifests, None) ↔
     (Referrers c manifestDigest).2 = None ∧ Forall fetchable referrers ∧
     signatureManifests = omap listed referrers)
  ∧ (∀ pre desc post err,
       referrers = pre ++ desc :: post → Forall fetchable pre →
       unfetchable desc err →
       (ListSignatureManifests c manifestDigest).1
       = ([], Some (errorString ("failed to fetch manifest: " +:+ Digest desc
                                 +:+ ": " +:+ Error err)))).
Proof.
  unfold ListSignatureManifests.
  destruct (Referrers c manifestDigest) as [pages listErr]. simpl.
  rewrite deliver_collect. split.
  - intros sigs. split.
    + destruct (collect c (concat pages) _) as [[err|] [sigs' tr]] eqn:Hcollect;
        [done|].
      destruct listErr; [done|]. intros [= <-].
      pose proof (collect_None _ _ _ Hcollect) as Hall.
      destruct (collect_fetchable (concat pages)
                  ([], [ListReferrers manifestDigest]) Hall) as [tr' Heq].
      rewrite Heq in Hcollect. by injection Hcollect as <- _.
    + intros (-> & Hall & ->).
      by destruct (collect_fetchable (concat pages)
                     ([], [ListReferrers manifestDigest]) Hall) as [tr' ->].
  - intros pre desc post err -> Hpre Hdesc.
    by destruct (collect_unfetchable pre desc post err
                   ([], [ListReferrers manifestDigest]) Hpre Hdesc) as [[] ->].
Qed.

(** The manifests that the loop fetches are within the limit. *)
Lemma collect_fetches referrers : ∀ st,
  Forall (λ e, ∀ desc, e = FetchManifest desc → Size desc ≤ maxManifestSizeLimit)
         st.2 →
  Forall (λ e, ∀ desc, e = FetchManifest desc → Size desc ≤ maxManifestSizeLimit)
         (collect c referrers st).2.2.
Proof.
  induction referrers as [|r referrers IH]; intros st Hst; [done|].
  cbn [collect]. destruct (negb _); [by apply IH|].
  assert (Forall (λ e, ∀ desc, e = FetchManifest desc →
                               Size desc ≤ maxManifestSizeLimit)
                 (getArtifactManifest c (Digest r)).2) as Hget.
  { unfold getArtifactManifest.
    destruct (Manifests_Resolve c (Digest r)) as [desc|];
      [|by repeat constructor].
    destruct (Z.gtb_spec (Size desc) maxManifestSizeLimit);
      [by repeat constructor|].
    assert (Forall (λ e, ∀ d, e = FetchManifest d → Size d ≤ maxManifestSizeLimit)
                   ([ResolveManifest (Digest r)] ++ [FetchManifest desc])).
    { repeat constructor; [done|]. by intros d [= <-]. }
    by repeat case_match. }
  destruct (getArtifactManifest c (Digest r)) as [[artifact|err] tr].
  - destruct (Blobs artifact); apply IH; simpl; by apply Forall_app.
  - simpl. by apply Forall_app.
Qed.

(** X29.  Nothing above the limits is downloaded: every manifest that
    [ListSignatureManifests] fetches has a resolved size of at most 4 MiB,
    and the blob that [GetBlob] fetches has a resolved size of at most
    32 MiB; a blob that resolves to more is refused after the resolution,
    without being fetched. *)
Theorem downloads_within_limits :
  (∀ manifestDigest desc,
     FetchManifest desc ∈ (ListSignatureManifests c manifestDigest).2 →
     Size desc ≤ maxManifestSizeLimit)
  ∧ (∀ digest desc,
       FetchBlob desc ∈ (GetBlob c digest).2 →
       Size desc ≤ maxBlobSizeLimit ∧ Blobs_Resolve c digest = inl desc)
  ∧ (∀ digest desc,
       Blobs_Resolve c digest = inl desc → Size desc > maxBlobSizeLimit →
       GetBlob c digest
       = (([], Some (errorString ("signature blob too large: "
                                  +:+ pretty (Size desc)))),
          [ResolveBlob digest])).
Proof.
  split_and!.
  - intros manifestDigest desc Hin.
    assert (Forall (λ e, ∀ desc, e = FetchManifest desc →
                                 Size desc ≤ maxManifestSizeLimit)
                   (ListSignatureManifests c manifestDigest).2) as Hall.
    { unfold ListSignatureManifests.
      destruct (Referrers c manifestDigest) as [pages listErr].
      rewrite deliver_collect.
      pose proof (collect_fetches (concat pages)
                    ([], [ListReferrers manifestDigest])) as Hfetches.
      destruct (collect c (concat pages) _) as [[err|] [sigs tr]];
        simpl in *; [|destruct listErr]; apply Hfetches; by repeat constructor. }
    rewrite Forall_forall in Hall. by apply (Hall _ Hin).
  - intros digest desc. unfold GetBlob.
    destruct (Blobs_Resolve c digest) as [d|]; simpl.
    2: { by intros Hin%list_elem_of_singleton. }
    destruct (Z.gtb_spec (Size d) maxBlobSizeLimit).
    { by intros Hin%list_elem_of_singleton. }
    destruct (Blobs_FetchAll c d); simpl;
      intros [[=]|[= ->]%list_elem_of_singleton]%elem_of_cons; done.
  - intros digest desc Hresolve Hsize. unfold GetBlob. rewrite Hresolve.
    by destruct (Z.gtb_spec (Size desc) maxBlobSizeLimit); [|lia].
Qed.

End repository_client.

Module registry_client_samples.

Definition sized (mediaType digest : string) (size : Z) : Descriptor :=
  {| MediaType := mediaType; Digest := digest; Size := size;
     Annotations := None |}.
Definition referrer (mediaType digest : string) : Descriptor :=
  sized mediaType digest 700.

Definition envelope : Descriptor :=
  {| MediaType := "application/jose+json"; Digest := "sha256:e1"; Size := 3;
     Annotations := Some {[ "k" := "v" ]} |}.
Definition second : Descriptor :=
  {| MediaType := "application/jose+json"; Digest := "sha256:e2"; Size := 4;
     Annotations := None |}.

Import registry_client.

(** The manifest [sha256:a] has two blobs, any other manifest none; the
    manifest [sha256:huge] is of more than 4 MiB, the blob [sha256:huge] of
    more than 32 MiB. *)
Definition client : RepositoryClient :=
  {| Referrers := λ _,
       ([[referrer MediaTypeArtifactManifest "sha256:a";
          referrer "application/vnd.oci.image.manifest.v1+json" "sha256:b"];
         [referrer MediaTypeArtifactManifest "sha256:c"]], None);
     Manifests_Resolve := λ reference,
       inl (sized MediaTypeArtifactManifest reference
              (if String.eqb reference "sha256:huge"
               then 4 * 1024 * 1024 + 1 else 700));
     Manifests_FetchAll := λ desc,
       if String.eqb (Digest desc) "sha256:a" then inl ["a"%byte]
       else inl ["{"%byte; "}"%byte];
     Blobs_Resolve := λ reference,
       inl (sized "application/jose+json" reference
              (if String.eqb reference "sha256:huge"
               then 32 * 1024 * 1024 + 1 else 3));
     Blobs_FetchAll := λ desc, inl ["s"%byte; "i"%byte; "g"%byte];
     Unmarshal_Manifest := λ manifestJSON,
       if bool_decide (manifestJSON = ["a"%byte])
       then inl {| Blobs := [envelope; second];
                   ManifestAnnotations := Some {[ "io.cncf.notary.x509" := "t" ]} |}
       else inl {| Blobs := []; ManifestAnnotations := None |} |}.

(** The client whose one referrer is [sha256:huge]. *)
Definition hugeClient : RepositoryClient :=
  {| Referrers := λ _,
       ([[referrer MediaTypeArtifactManifest "sha256:huge"]], None);
     Manifests_Resolve := Manifests_Resolve client;
     Manifests_FetchAll := Manifests_FetchAll client;
     Blobs_Resolve := Blobs_Resolve client;
     Blobs_FetchAll := Blobs_FetchAll client;
     Unmarshal_Manifest := Unmarshal_Manifest client |}.

End registry_client_samples.

(** Of three referrers on two pages, one is listed: the first blob of
    [sha256:a], without the annotations of its descriptor and with those of
    the manifest.  A manifest of more than 4 MiB fails the call. *)
Lemma ListSignatureManifests_listed_witness :
  (@registry_client.ListSignatureManifests sampleLib
     registry_client_samples.client "sha256:m").1
  = ([{| registry_client.Blob :=
           {| MediaType := "application/jose+json"; Digest := "sha256:e1";
              Size := 3; Annotations := None |};
         registry_client.Annotations :=
           Some {[ "io.cncf.notary.x509" := "t" ]} |}], None)
  ∧ (@registry_client.ListSignatureManifests sampleLib
       registry_client_samples.hugeClient "sha256:m").1
    = ([], Some (errorString
                   "failed to fetch manifest: sha256:huge: manifest too large: 4194305")).
Proof.
  split.
  - apply (@ListSignatureManifests_listed sampleLib
             registry_client_samples.client "sha256:m").
    split_and!; [reflexivity| |reflexivity].
    repeat constructor; intros _; by eexists.
  - apply (proj2 (@ListSignatureManifests_listed sampleLib
                    registry_client_samples.hugeClient "sha256:m")
             [] (registry_client_samples.referrer
                   registry_client.MediaTypeArtifactManifest "sha256:huge")
             [] (errorString "manifest too large: 4194305")).
    + reflexivity.
    + constructor.
    + split; reflexivity.
Defined.

Lemma downloads_within_limits_witness :
  Size {| MediaType := "application/jose+json"; Digest := "sha256:e1";
          Size := 3; Annotations := None |} ≤ registry_client.maxBlobSizeLimit
  ∧ registry_client.GetBlob registry_client_samples.client "sha256:huge"
    = (([], Some (errorString "signature blob too large: 33554433")),
       [registry_client.ResolveBlob "sha256:huge"]).
Proof.
  split.
  - apply (proj1 (proj2 (@downloads_within_limits sampleLib
                           registry_client_samples.client)) "sha256:e1").
    simpl. apply elem_of_cons. right. apply elem_of_cons. by left.
  - apply (proj2 (proj2 (@downloads_within_limits sampleLib
                           registry_client_samples.client)) "sha256:huge"
             {| MediaType := "application/jose+json"; Digest := "sha256:huge";
                Size := 32 * 1024 * 1024 + 1; Annotations := None |}).
    + reflexivity.
    + reflexivity.
Defined.

(** ** [Verify] over a [repositoryClient] *)
Section verifier_calls.
Context `{!GoLib}.
Context (verifier : notation.Verifier) (repo : notation.Repository)
        (remoteOpts : notation.RemoteVerifyOptions.t).
Import notation.

(** The call [e], if it is one of [verifier.Verify], is about the artifact
    [d] and hands over a blob that [FetchSignatureBlob] returned for a
    manifest of [listing], with the media type of the descriptor returned
    with the blob. *)
Definition justified (d : Descriptor) (listing : list Descriptor) (e : event)
    : Prop :=
  match e with
  | CallVerify desc sig vopts =>
    desc = d ∧
    ∃ sigManifestDesc sigDesc,
      sigManifestDesc ∈ listing ∧
      FetchSignatureBlob repo sigManifestDesc = inl (sig, sigDesc) ∧
      VerifyOptions.SignatureMediaType vopts = MediaType sigDesc
  | _ => True
  end.

Lemma processSignatures_justified d listing sigs : ∀ st,
  (∀ m, m ∈ sigs → m ∈ listing) →
  Forall (justified d listing) (trace st) →
  Forall (justified d listing)
         (trace (processSignatures verifier repo remoteOpts d sigs st).2).
Proof.
  induction sigs as [|s sigs IH]; intros st Hsub Hst; [done|].
  cbn [processSignatures].
  destruct (_ <=? _); [done|].
  destruct (FetchSignatureBlob repo s) as [[sigBlob sigDesc]|err] eqn:Hfetch.
  2: { simpl. apply Forall_app. split; [done|]. by repeat constructor. }
  assert (Forall (justified d listing)
            ((trace st ++ [CallFetchSignatureBlob s]) ++
             [CallVerify d sigBlob
                (withSignatureMediaType (opts st) (MediaType sigDesc))])) as Hst'.
  { rewrite !Forall_app. split_and!; [done|by repeat constructor|].
    repeat constructor. exists s, sigDesc. split_and!; [|done..].
    apply Hsub. by left. }
  destruct (Verifier_Verify verifier _ _ _) as [[o|] [err|]]; cbn [snd trace];
    try done.
  apply IH; [intros m Hm; apply Hsub; by right|].
  by destruct (isErrorUserMetadataVerificationFailed _).
Qed.

Lemma deliver_justified d listing pages listErr : ∀ st,
  (∀ m, m ∈ concat pages → m ∈ listing) →
  Forall (justified d listing) (trace st) →
  Forall (justified d listing)
    (trace (deliver (callback verifier repo remoteOpts d) pages listErr st).2).
Proof.
  induction pages as [|page pages IH]; intros st Hsub Hst; [done|].
  cbn [deliver]. unfold callback at 1.
  pose proof (processSignatures_justified d listing page st) as Hpage.
  destruct (processSignatures verifier repo remoteOpts d page st)
    as [[err|] st'].
  - apply Hpage; [|done]. intros m Hm. apply Hsub. simpl.
    apply elem_of_app. by left.
  - destruct (_ <=? _); simpl.
    + apply Hpage; [|done]. intros m Hm. apply Hsub. simpl.
      apply elem_of_app. by left.
    + apply IH.
      * intros m Hm. apply Hsub. simpl. apply elem_of_app. by right.
      * apply Hpage; [|done]. intros m Hm. apply Hsub. simpl.
        apply elem_of_app. by left.
Qed.

(** Every call of [verifier.Verify] that [Verify] makes is about the
    descriptor to which the artifact reference resolved, and hands over a
    blob that [FetchSignatureBlob] returned for a signature manifest of the
    listing of that descriptor. *)
Lemma Verify_justified desc sig vopts :
  CallVerify desc sig vopts ∈ (Verify verifier repo remoteOpts).2 →
  Resolve repo (RemoteVerifyOptions.ArtifactReference remoteOpts) = inl desc ∧
  justified desc (concat (Referrers repo desc).1) (CallVerify desc sig vopts).
Proof.
  assert (∀ opts tr, Forall (λ e, isVerify e = false) tr →
    CallVerify desc sig vopts
      ∈ (verifySignatures verifier repo remoteOpts opts tr).2 →
    Resolve repo (RemoteVerifyOptions.ArtifactReference remoteOpts) = inl desc ∧
    justified desc (concat (Referrers repo desc).1) (CallVerify desc sig vopts))
    as Hrest.
  { intros o tr Htr. unfold verifySignatures.
    assert (CallVerify desc sig vopts ∉ tr) as Hnot.
    { intros Hin. rewrite Forall_forall in Htr. by apply Htr in Hin. }
    destruct (_ <=? 0); [done|].
    destruct (ParseReference _); [|done].
    destruct (String.eqb _ ""); [done|].
    destruct (Resolve repo _) as [d|err] eqn:Hresolve.
    2: { simpl. intros [?|[=]%list_elem_of_singleton]%elem_of_app. done. }
    unfold ListSignatures.
    destruct (Referrers repo d) as [pages listErr] eqn:Hrefs.
    pose proof (deliver_justified d (concat pages) pages listErr
      {| opts := o; verificationOutcomes := [];
         numOfSignatureProcessed := 0;
         verificationFailedErr := ErrorVerificationFailed "";
         trace := (tr ++ [CallResolve
                     (RemoteVerifyOptions.ArtifactReference remoteOpts)])
                  ++ [CallListSignatures d] |}) as Hinv.
    destruct (deliver _ pages listErr _) as [err st].
    assert (Forall (justified d (concat pages)) (trace st)) as Hall.
    { apply Hinv; [done|]. simpl. rewrite !Forall_app. split_and!.
      - eapply Forall_impl; [exact Htr|]. by intros [].
      - by repeat constructor.
      - by repeat constructor. }
    intros Hin.
    assert (CallVerify desc sig vopts ∈ trace st) as Hin'.
    { revert Hin. by repeat case_match. }
    rewrite Forall_forall in Hall. apply Hall in Hin' as Hj.
    destruct Hj as [-> Hj]. rewrite Hrefs. by split. }
  unfold Verify. destruct (isRemote repo); simpl.
  2: { by intros ?%elem_of_nil. }
  destruct (SkipVerify verifier) as [skipChecker|].
  - destruct (skipChecker _) as [[[] level] [err|]]; simpl;
      try by intros [=]%list_elem_of_singleton.
    apply Hrest. by repeat constructor.
  - apply Hrest. by constructor.
Qed.

End verifier_calls.

Section verify_over_client.
Context `{!GoLib}.

(** A [repositoryClient] as the [registry.Repository] that [Verify] is given:
    the type embeds the remote repository, [resolve] is [Resolve] on its
    [Manifests()], [referrers] what its [Referrers] delivers and [push] what
    [PushSignature] does. *)
Definition asRepository (c : registry.repositoryClient)
    (resolve : string → Descriptor + error)
    (referrers : Descriptor → list (list Descriptor) * option error)
    (push : string → list byte → Descriptor → gmap string string →
            (Descriptor * Descriptor) + error)
    : notation.Repository :=
  {| notation.isRemote := true;
     notation.Resolve := resolve;
     notation.Referrers := referrers;
     notation.FetchSignatureBlob := λ desc,
       match (registry.FetchSignatureBlob c desc).1 with
       | (sigBlob, sigDesc, None) => inl (sigBlob, sigDesc)
       | (_, _, Some err) => inr err
       end;
     notation.PushSignature := push |}.

(** X30.  When [Verify] runs over a [repositoryClient], every blob that it
    hands to [verifier.Verify] is the fetched content of the one blob of a
    signature manifest of the listing that passed the checks of
    [FetchSignatureBlob]: the manifest is of at most 4 MiB and references
    exactly that blob, which is of at most 32 MiB.  The call is about the
    descriptor to which the artifact reference resolved, and the signature
    media type in its options is the media type of the blob's descriptor. *)
Theorem Verify_over_repositoryClient (verifier : notation.Verifier)
    (c : registry.repositoryClient) resolve referrers push
    (remoteOpts : notation.RemoteVerifyOptions.t) desc sig vopts :
  notation.CallVerify desc sig vopts
    ∈ (notation.Verify verifier (asRepository c resolve referrers push)
         remoteOpts).2 →
  resolve (notation.RemoteVerifyOptions.ArtifactReference remoteOpts) = inl desc ∧
  ∃ sigManifestDesc sigDesc,
    sigManifestDesc ∈ concat (referrers desc).1 ∧
    conforms c sigManifestDesc sigDesc ∧
    registry.Blobs_FetchAll c sigDesc = inl sig ∧
    notation.VerifyOptions.SignatureMediaType vopts = MediaType sigDesc.
Proof.
  intros Hin. apply Verify_justified in Hin as [Hresolve [_ Hj]].
  split; [done|]. destruct Hj as (m & sigDesc & Hm & Hfetch & Hmedia).
  exists m, sigDesc. split; [done|]. simpl in Hfetch.
  destruct (registry.FetchSignatureBlob c m) as [[[b sd] [err|]] tr] eqn:Hf;
    simpl in Hfetch; [done|].
  injection Hfetch as -> ->.
  assert ((registry.FetchSignatureBlob c m).1 = (sig, sigDesc, None)) as Hok.
  { by rewrite Hf. }
  apply FetchSignatureBlob_ok in Hok as [Hconf Hblob]. done.
Qed.

End verify_over_client.

Module client_samples.

(** [registry_samples.client] behind a tag that resolves to
    [verify_samples.artifact], with one signature manifest. *)
Definition repository : notation.Repository :=
  @asRepository sampleLib registry_samples.client
    (λ _, inl verify_samples.artifact)
    (λ _, ([[registry_samples.manifestDesc]], None))
    (λ _ _ _ _, inl (registry_samples.envelopeDesc, registry_samples.manifestDesc)).

Definition options : notation.VerifyOptions.t :=
  {| notation.VerifyOptions.ArtifactReference := "registry.io/foo:v1";
     notation.VerifyOptions.SignatureMediaType := "application/jose+json";
     notation.VerifyOptions.PluginConfig := ∅;
     notation.VerifyOptions.UserMetadata := ∅;
     notation.VerifyOptions.TargetAtLocal := false;
     notation.VerifyOptions.TrustPolicyScope := "" |}.

End client_samples.

Lemma Verify_over_repositoryClient_witness :
  ∃ sigManifestDesc sigDesc,
    sigManifestDesc ∈ [registry_samples.manifestDesc] ∧
    conforms registry_samples.client sigManifestDesc sigDesc ∧
    registry.Blobs_FetchAll registry_samples.client sigDesc
    = inl ["s"%byte; "i"%byte; "g"%byte] ∧
    "application/jose+json" = MediaType sigDesc.
Proof.
  apply (@Verify_over_repositoryClient sampleLib verify_samples.verifier
           registry_samples.client
           (λ _, inl verify_samples.artifact)
           (λ _, ([[registry_samples.manifestDesc]], None))
           (λ _ _ _ _, inl (registry_samples.envelopeDesc,
                            registry_samples.manifestDesc))
           (verify_samples.options 50) verify_samples.artifact
           ["s"%byte; "i"%byte; "g"%byte] client_samples.options).
  assert ((@notation.Verify sampleLib verify_samples.verifier
             client_samples.repository (verify_samples.options 50)).2
          = [notation.CallSkipVerify
               (notation.withSignatureMediaType client_samples.options "");
             notation.CallResolve "registry.io/foo:v1";
             notation.CallListSignatures verify_samples.artifact;
             notation.CallFetchSignatureBlob registry_samples.manifestDesc;
             notation.CallVerify verify_samples.artifact
               ["s"%byte; "i"%byte; "g"%byte] client_samples.options]) as Htr.
  { reflexivity. }
  unfold client_samples.repository in Htr. rewrite Htr.
  do 4 (apply elem_of_cons; right). apply elem_of_cons. by left.
Defined.
